(** * GamifyFit: the client state managers, the plan generator, the
      service worker and the OAuth callback, as Rocq functions

    - gamification.js and activityTracker.js: methods are computations in a
      state monad over [this.data] and the browser ([localStorage], the
      events dispatched, the clock);
    - planGenerator.js: [generatePlan], with the random shuffle as a
      parameter;
    - sw.js: the fetch listener and its four caching strategies as
      functions of the caches and of the outcome of [fetch]; the two
      background-sync handlers as functions of the object store;
    - the callback handler of the OAuth flow as a function of the request
      and of the outcomes of its three external calls.

    Numbers that the JavaScript code only uses as integral counters (XP,
    levels, steps, minutes, HTTP statuses) are [Z]; instants are
    milliseconds since the epoch.  The one place where binary64 rounding is
    visible, [generateLevelThresholds], uses primitive floats.  Objects
    used as dictionaries are [gmap]s or association lists, arrays are
    lists. *)

From Stdlib Require Import ZArith Lia PrimFloat Uint63 FloatOps Ascii.
From stdpp Require Import gmap strings list.

Open Scope string_scope.
Open Scope list_scope.
Open Scope Z_scope.

(** ** JavaScript helpers shared by the modules *)

Module JS.

(** [a || b] on an optional number: [undefined] and [0] are falsy. *)
Definition num_or (a : option Z) (b : Z) : Z :=
  match a with
  | Some v => if v =? 0 then b else v
  | None => b
  end.

(** [a || b] on an optional string: [undefined] and [''] are falsy. *)
Definition str_or (a : option string) (b : string) : string :=
  match a with
  | Some v => if String.eqb v "" then b else v
  | None => b
  end.

(** [a >= n] where [a] may be [undefined]: comparisons with [undefined]
    are [false]. *)
Definition geq_undef (a : option Z) (n : Z) : bool :=
  match a with
  | Some v => n <=? v
  | None => false
  end.

(** [Array.prototype.includes] on an array of strings. *)
Definition includes (l : list string) (s : string) : bool :=
  existsb (String.eqb s) l.

(** [s.startsWith(p)], [s.endsWith(p)] and [s.includes(p)] on strings. *)
Definition startsWith (s p : string) : bool := String.prefix p s.

Definition endsWith (s p : string) : bool :=
  String.prefix (String.rev p) (String.rev s).

Fixpoint str_includes (s p : string) : bool :=
  if String.prefix p s then true
  else match s with
       | EmptyString => false
       | String _ s' => str_includes s' p
       end.

(** [Math.floor] of a finite binary64 value that is not negative. *)
Definition Math_floor (f : float) : Z :=
  let (m, e) := frshiftexp f in
  let mz := Uint63.to_Z (normfr_mantissa m) in
  let ez := Uint63.to_Z e - FloatOps.shift - 53 in
  if 0 <=? ez then mz * 2 ^ ez else mz / 2 ^ (- ez).

(** [Math.pow(x, k)] for a non-negative integral exponent [k].  ECMAScript
    leaves the result implementation-approximated; this is the binary64
    product of [k] factors.  For base 1.15 and [k <= 49] the value of
    [Math.floor(100 * Math.pow(1.15, k))] is the same under a correctly
    rounded power. *)
Fixpoint Math_pow (x : float) (k : nat) : float :=
  match k with
  | O => 1%float
  | S k' => (x * Math_pow x k')%float
  end.

End JS.

(** ** Data held by the two client state managers *)

Module GData.

Record Streak := {
  current : Z;
  longest : Z;
  lastActivity : option Z
}.

Record ActiveChallenge := {
  id : string;
  joinedAt : Z;
  progress : Z
}.

Record Challenges := {
  completed : Z;
  active : list ActiveChallenge
}.

Record Stats := {
  totalWorkouts : Z;
  totalSteps : Z;
  totalCalories : Z;
  totalMinutes : Z;
  pushups : Z;
  squats : Z;
  runDistance : Z
}.

(** Entries pushed on [data.history]: [{type: 'xp', amount, source,
    timestamp}] and [{type: 'badge', badgeId, xp, timestamp}]. *)
Inductive HistoryEntry :=
| HistXP (amount : Z) (source : string) (timestamp : Z)
| HistBadge (badgeId : string) (xp : Z) (timestamp : Z).

Record Data := {
  xp : Z;
  level : Z;
  streak : Streak;
  badges : list string;
  challenges : Challenges;
  stats : Stats;
  history : list HistoryEntry
}.

End GData.

Module AData.

Record Activity := {
  type : string;
  duration : Z;
  calories : Z;
  steps : Z;
  notes : string;
  timestamp : Z
}.

Record Day := {
  day_steps : Z;
  day_calories : Z;
  day_activeMinutes : Z;
  day_water : Z;
  day_weight : option Z;
  day_activities : list Activity;
  day_lastUpdated : option Z
}.

Record Goals := {
  goal_steps : Z;
  goal_calories : Z;
  goal_activeMinutes : Z;
  goal_water : Z
}.

Record Data := {
  days : gmap string Day;
  goals : Goals;
  trackingEnabled : bool
}.

End AData.

(** ** The browser environment seen by the managers *)

(** What [JSON.stringify(this.data)] puts under a [localStorage] key. *)
Inductive Stored :=
| StoredGamification (d : GData.Data)
| StoredActivity (d : AData.Data).

(** Custom events handed to [window.dispatchEvent], by event name.  The
    listeners live in the pages, outside these files: dispatching is
    modelled as recording the event. *)
Inductive Event :=
| EvLevelUp (oldLevel newLevel : Z) (title : string) (bonusXP : Z)
| EvBadge (badgeId : string)
| EvActivityEnabled
| EvActivityUpdated.

Record Browser := {
  localStorage : gmap string Stored;
  dispatched : list Event;
  ticks : nat
}.

(** ** The state monad the managers' methods run in *)

Definition ST (S A : Type) : Type := S -> A * S.

Definition ret {S A} (a : A) : ST S A := fun s => (a, s).

Definition bind {S A B} (c : ST S A) (k : A -> ST S B) : ST S B :=
  fun s => let (a, s') := c s in k a s'.

Declare Scope st_scope.
Delimit Scope st_scope with st.
Notation "x <- c ;; k" := (bind c (fun x => k))
  (at level 100, c at next level, k at level 200, right associativity) : st_scope.
Notation "c ;; k" := (bind c (fun _ => k))
  (at level 100, k at level 200, right associativity) : st_scope.
Open Scope st_scope.

(** Monadic [for ... of] over a list, threading an accumulator. *)
Fixpoint forOf {S A B} (l : list A) (body : A -> B -> ST S B) (acc : B) : ST S B :=
  match l with
  | [] => ret acc
  | x :: l' => acc' <- body x acc ;; forOf l' body acc'
  end.

(** ** gamification.js: class GamificationManager *)

Module GamificationManager.
Import GData.

(** An entry of [getBadgeDefinitions()].  The call site passes
    [(this.data, this)], so the level badges' [manager.data] is the same
    object as [data]; the icon glyph is display-only and left out. *)
Record BadgeDef := {
  badge_id : string;
  badge_name : string;
  badge_description : string;
  badge_xp : Z;
  badge_tier : string;
  badge_category : string;
  condition : Data -> bool
}.

(** The fields the constructor sets once; [this.data] is the mutable part
    and lives in [State]. *)
Record Manager := {
  storageKey : string;
  levelThresholds : list Z;
  badgeDefs : list (string * BadgeDef)
}.

Record State := {
  data : Data;
  browser : Browser
}.

(** Result of [awardXP]. *)
Record AwardResult := {
  xpAwarded : Z;
  totalXP : Z;
  res_level : Z;
  leveledUp : bool;
  newTitle : option string
}.

(** Result of [updateStreak]; [res_longest] and [bonus] are absent on the
    early return. *)
Record StreakResult := {
  streakUpdated : bool;
  res_current : Z;
  res_longest : option Z;
  bonus : option Z
}.

Record Workout := {
  w_duration : option Z;
  w_calories : option Z;
  w_type : option string
}.

Record Challenge := {
  c_id : string;
  c_xp : Z;
  c_type : string
}.

(** *** Field updates on [this.data] *)

Definition with_xp (v : Z) (d : Data) : Data :=
  {| xp := v; level := level d; streak := streak d; badges := badges d;
     challenges := challenges d; stats := stats d; history := history d |}.

Definition with_level (v : Z) (d : Data) : Data :=
  {| xp := xp d; level := v; streak := streak d; badges := badges d;
     challenges := challenges d; stats := stats d; history := history d |}.

Definition with_streak (v : Streak) (d : Data) : Data :=
  {| xp := xp d; level := level d; streak := v; badges := badges d;
     challenges := challenges d; stats := stats d; history := history d |}.

Definition with_badges (v : list string) (d : Data) : Data :=
  {| xp := xp d; level := level d; streak := streak d; badges := v;
     challenges := challenges d; stats := stats d; history := history d |}.

Definition with_challenges (v : Challenges) (d : Data) : Data :=
  {| xp := xp d; level := level d; streak := streak d; badges := badges d;
     challenges := v; stats := stats d; history := history d |}.

Definition with_stats (v : Stats) (d : Data) : Data :=
  {| xp := xp d; level := level d; streak := streak d; badges := badges d;
     challenges := challenges d; stats := v; history := history d |}.

Definition with_history (v : list HistoryEntry) (d : Data) : Data :=
  {| xp := xp d; level := level d; streak := streak d; badges := badges d;
     challenges := challenges d; stats := stats d; history := v |}.

Definition M (A : Type) : Type := ST State A.

Definition getData : M Data := fun s => (data s, s).

Definition modifyData (f : Data -> Data) : M unit :=
  fun s => (tt, {| data := f (data s); browser := browser s |}).

Definition setItem (key : string) (v : Stored) : M unit :=
  fun s => (tt, {| data := data s;
                   browser := {| localStorage := <[key := v]> (localStorage (browser s));
                                 dispatched := dispatched (browser s);
                                 ticks := ticks (browser s) |} |}).

Definition dispatchEvent (e : Event) : M unit :=
  fun s => (tt, {| data := data s;
                   browser := {| localStorage := localStorage (browser s);
                                 dispatched := dispatched (browser s) ++ [e];
                                 ticks := ticks (browser s) |} |}).

Section Methods.

(** [clock n] is the instant returned by the [n]-th [new Date()] of the
    page; [toDateString t] numbers the local calendar day that instant [t]
    falls on, consecutive days getting consecutive numbers. *)
Variable clock : nat -> Z.
Variable toDateString : Z -> Z.

Definition newDate : M Z :=
  fun s => (clock (ticks (browser s)),
            {| data := data s;
               browser := {| localStorage := localStorage (browser s);
                             dispatched := dispatched (browser s);
                             ticks := S (ticks (browser s)) |} |}).

Variable this : Manager.

Definition load (ls : gmap string Stored) (fallback : Data) : Data :=
  match ls !! storageKey this with
  | Some (StoredGamification d) => d
  | _ => fallback
  end.

Definition save : M unit :=
  d <- getData ;; setItem (storageKey this) (StoredGamification d).

Definition getDefaultData : Data :=
  {| xp := 0;
     level := 1;
     streak := {| current := 0; longest := 0; lastActivity := None |};
     badges := [];
     challenges := {| completed := 0; active := [] |};
     stats := {| totalWorkouts := 0; totalSteps := 0; totalCalories := 0;
                 totalMinutes := 0; pushups := 0; squats := 0; runDistance := 0 |};
     history := [] |}.

Definition getLevelTitle (lvl : Z) : string :=
  let titles := [(1, "Rookie"); (5, "Beginner"); (10, "Rising Star");
                 (15, "Committed"); (20, "Dedicated"); (25, "Warrior");
                 (30, "Champion"); (35, "Elite"); (40, "Master");
                 (45, "Legend"); (50, "GamifyFit Master")] in
  foldl (fun title '(l, t) => if l <=? lvl then t else title) "Rookie" titles.

(** The loop [for (i = length - 1; i >= 0; i--)], entered with [n] indices
    still to visit. *)
Fixpoint calculateLevel_loop (th : list Z) (n : nat) (x : Z) : Z :=
  match n with
  | O => 1
  | S i =>
      match th !! i with
      | Some t => if t <=? x then Z.of_nat i + 1 else calculateLevel_loop th i x
      | None => calculateLevel_loop th i x
      end
  end.

Definition calculateLevel (x : Z) : Z :=
  calculateLevel_loop (levelThresholds this) (length (levelThresholds this)) x.

Definition onLevelUp (oldLevel newLevel : Z) : M unit :=
  let levelDiff := newLevel - oldLevel in
  let bonusXP := levelDiff * 50 in
  dispatchEvent (EvLevelUp oldLevel newLevel (getLevelTitle newLevel) bonusXP).

(** One iteration of the loop of [checkBadges]. *)
Definition checkBadge (entry : string * BadgeDef) (newBadges : list BadgeDef)
  : M (list BadgeDef) :=
  let '(badgeId, badge) := entry in
  d <- getData ;;
  if JS.includes (badges d) badgeId then ret newBadges
  else if condition badge d then
    modifyData (fun d => with_badges (badges d ++ [badgeId]) d) ;;
    modifyData (fun d => with_xp (xp d + badge_xp badge) d) ;;
    modifyData (fun d => with_level (calculateLevel (xp d)) d) ;;
    t <- newDate ;;
    modifyData (fun d => with_history (history d ++ [HistBadge badgeId (badge_xp badge) t]) d) ;;
    dispatchEvent (EvBadge (badge_id badge)) ;;
    ret (newBadges ++ [badge])
  else ret newBadges.

Definition checkBadges : M (list BadgeDef) :=
  newBadges <- forOf (badgeDefs this) checkBadge [] ;;
  (if (0 <? Z.of_nat (length newBadges)) then save else ret tt) ;;
  ret newBadges.

Definition awardXP (amount : Z) (source : string) : M AwardResult :=
  d0 <- getData ;;
  let previousLevel := level d0 in
  modifyData (fun d => with_xp (xp d + amount) d) ;;
  modifyData (fun d => with_level (calculateLevel (xp d)) d) ;;
  t <- newDate ;;
  modifyData (fun d => with_history (history d ++ [HistXP amount source t]) d) ;;
  d1 <- getData ;;
  let up := previousLevel <? level d1 in
  (if up then onLevelUp previousLevel (level d1) else ret tt) ;;
  checkBadges ;;
  save ;;
  d2 <- getData ;;
  ret {| xpAwarded := amount;
         totalXP := xp d2;
         res_level := level d2;
         leveledUp := up;
         newTitle := if up then Some (getLevelTitle (level d2)) else None |}.

(** [days % 7] is JavaScript's remainder, which takes the sign of the
    dividend: [Z.rem]. *)
Definition calculateStreakBonus (days : Z) : Z :=
  if days =? 7 then 100
  else if days =? 14 then 200
  else if days =? 30 then 500
  else if days =? 100 then 1000
  else if Z.rem days 7 =? 0 then 50
  else 0.

Definition with_current (v : Z) (s : Streak) : Streak :=
  {| current := v; longest := longest s; lastActivity := lastActivity s |}.

Definition with_longest (v : Z) (s : Streak) : Streak :=
  {| current := current s; longest := v; lastActivity := lastActivity s |}.

Definition with_lastActivity (v : option Z) (s : Streak) : Streak :=
  {| current := current s; longest := longest s; lastActivity := v |}.

Definition updateStreak : M StreakResult :=
  now <- newDate ;;
  let today := toDateString now in
  d0 <- getData ;;
  let last := option_map toDateString (lastActivity (streak d0)) in
  if bool_decide (last = Some today) then
    ret {| streakUpdated := false; res_current := current (streak d0);
           res_longest := None; bonus := None |}
  else
    (* yesterday.setDate(yesterday.getDate() - 1) *)
    let yesterday := today - 1 in
    (if bool_decide (last = Some yesterday) then
       modifyData (fun d => with_streak (with_current (current (streak d) + 1) (streak d)) d)
     else if negb (bool_decide (last = Some today)) then
       modifyData (fun d => with_streak (with_current 1 (streak d)) d)
     else ret tt) ;;
    d1 <- getData ;;
    (if longest (streak d1) <? current (streak d1) then
       modifyData (fun d => with_streak (with_longest (current (streak d)) (streak d)) d)
     else ret tt) ;;
    modifyData (fun d => with_streak (with_lastActivity (Some now) (streak d)) d) ;;
    d2 <- getData ;;
    let streakBonus := calculateStreakBonus (current (streak d2)) in
    (if 0 <? streakBonus then
       awardXP streakBonus "streak_bonus" ;; ret tt
     else ret tt) ;;
    checkBadges ;;
    save ;;
    d3 <- getData ;;
    ret {| streakUpdated := true; res_current := current (streak d3);
           res_longest := Some (longest (streak d3)); bonus := Some streakBonus |}.

Definition logWorkout (workout : Workout) : M (AwardResult * StreakResult) :=
  let duration := w_duration workout in
  let calories := w_calories workout in
  modifyData (fun d => with_stats
    {| totalWorkouts := totalWorkouts (stats d) + 1;
       totalSteps := totalSteps (stats d);
       totalCalories := totalCalories (stats d);
       totalMinutes := totalMinutes (stats d);
       pushups := pushups (stats d); squats := squats (stats d);
       runDistance := runDistance (stats d) |} d) ;;
  modifyData (fun d => with_stats
    {| totalWorkouts := totalWorkouts (stats d);
       totalSteps := totalSteps (stats d);
       totalCalories := totalCalories (stats d);
       totalMinutes := totalMinutes (stats d) + JS.num_or duration 0;
       pushups := pushups (stats d); squats := squats (stats d);
       runDistance := runDistance (stats d) |} d) ;;
  modifyData (fun d => with_stats
    {| totalWorkouts := totalWorkouts (stats d);
       totalSteps := totalSteps (stats d);
       totalCalories := totalCalories (stats d) + JS.num_or calories 0;
       totalMinutes := totalMinutes (stats d);
       pushups := pushups (stats d); squats := squats (stats d);
       runDistance := runDistance (stats d) |} d) ;;
  let xpEarned := 50 in
  let xpEarned := if JS.geq_undef duration 30 then xpEarned + 25 else xpEarned in
  let xpEarned := if JS.geq_undef duration 60 then xpEarned + 25 else xpEarned in
  let xpEarned := if JS.geq_undef calories 200 then xpEarned + 15 else xpEarned in
  let xpEarned := if JS.geq_undef calories 400 then xpEarned + 25 else xpEarned in
  result <- awardXP xpEarned ("workout_" +:+ JS.str_or (w_type workout) "general") ;;
  streakResult <- updateStreak ;;
  ret (result, streakResult).

(** [Math.floor(steps / 100)] on an integral step count is [Z.div], which
    rounds towards minus infinity.  The short return is [{xpAwarded: 0}]. *)
Definition logSteps (steps : Z) : M (option AwardResult) :=
  modifyData (fun d => with_stats
    {| totalWorkouts := totalWorkouts (stats d);
       totalSteps := totalSteps (stats d) + steps;
       totalCalories := totalCalories (stats d);
       totalMinutes := totalMinutes (stats d);
       pushups := pushups (stats d); squats := squats (stats d);
       runDistance := runDistance (stats d) |} d) ;;
  let xpEarned := steps / 100 in
  if 0 <? xpEarned then
    r <- awardXP xpEarned "steps" ;; ret (Some r)
  else
    save ;; ret None.

Definition completeChallenge (challenge : Challenge) : M AwardResult :=
  modifyData (fun d => with_challenges
    {| completed := completed (challenges d);
       active := filter (fun c => id c <> c_id challenge) (active (challenges d)) |} d) ;;
  modifyData (fun d => with_challenges
    {| completed := completed (challenges d) + 1;
       active := active (challenges d) |} d) ;;
  awardXP (c_xp challenge) ("challenge_" +:+ c_type challenge).

Definition joinChallenge (challenge : Challenge) : M bool :=
  d <- getData ;;
  if negb (existsb (fun c => String.eqb (id c) (c_id challenge)) (active (challenges d))) then
    t <- newDate ;;
    modifyData (fun d => with_challenges
      {| completed := completed (challenges d);
         active := active (challenges d)
                   ++ [{| id := c_id challenge; joinedAt := t; progress := 0 |}] |} d) ;;
    save ;;
    ret true
  else ret false.

Definition reset : M unit :=
  modifyData (fun _ => getDefaultData) ;;
  save.

(** Read-only methods.  [getLevelProgress] and [getStats], which divide
    to a percentage for display, are not modelled. *)
Definition getXPForNextLevel (d : Data) : Z :=
  let nextThreshold :=
    if level d <? 0 then xp d
    else JS.num_or (levelThresholds this !! Z.to_nat (level d)) (xp d) in
  nextThreshold - xp d.

Definition getEarnedBadges (d : Data) : list BadgeDef :=
  omap (fun id => snd <$> List.find (fun e => String.eqb (fst e) id) (badgeDefs this))
       (badges d).

Definition getLockedBadges (d : Data) : list BadgeDef :=
  map snd (List.filter (fun e => negb (JS.includes (badges d) (fst e))) (badgeDefs this)).

(** The methods that write to [this.data] or to the browser, as calls. *)
Inductive Call :=
| CallAwardXP (amount : Z) (source : string)
| CallCheckBadges
| CallUpdateStreak
| CallLogWorkout (w : Workout)
| CallLogSteps (steps : Z)
| CallCompleteChallenge (c : Challenge)
| CallJoinChallenge (c : Challenge)
| CallSave
| CallReset.

Definition run (c : Call) (s : State) : State :=
  match c with
  | CallAwardXP amount source => snd (awardXP amount source s)
  | CallCheckBadges => snd (checkBadges s)
  | CallUpdateStreak => snd (updateStreak s)
  | CallLogWorkout w => snd (logWorkout w s)
  | CallLogSteps n => snd (logSteps n s)
  | CallCompleteChallenge c => snd (completeChallenge c s)
  | CallJoinChallenge c => snd (joinChallenge c s)
  | CallSave => snd (save s)
  | CallReset => snd (reset s)
  end.

End Methods.

(** *** The constructor *)

(** [Math.floor(100 * Math.pow(1.15, i - 1))]; the literal is the binary64
    value nearest to 1.15. *)
Definition xpRequired (i : nat) : Z :=
  JS.Math_floor (100 * JS.Math_pow 0x1.2666666666666p+0 (i - 1))%float.

Definition generateLevelThresholds : list Z :=
  foldl (fun thresholds i =>
           thresholds ++ [default 0 (thresholds !! (i - 1)%nat) + xpRequired i])
        [0] (seq 1 50).

(** [getBadgeDefinitions()], in the insertion order that [Object.entries]
    enumerates. *)
Definition getBadgeDefinitions : list (string * BadgeDef) := [
  ("first_workout",
   {| badge_id := "first_workout"; badge_name := "First Steps";
      badge_description := "Complete your first workout";
      badge_xp := 25; badge_tier := "bronze"; badge_category := "fitness";
      condition := fun d => 1 <=? GData.totalWorkouts (GData.stats d) |});
  ("workout_10",
   {| badge_id := "workout_10"; badge_name := "Dedicated";
      badge_description := "Complete 10 workouts";
      badge_xp := 100; badge_tier := "silver"; badge_category := "fitness";
      condition := fun d => 10 <=? GData.totalWorkouts (GData.stats d) |});
  ("workout_50",
   {| badge_id := "workout_50"; badge_name := "Fitness Enthusiast";
      badge_description := "Complete 50 workouts";
      badge_xp := 300; badge_tier := "gold"; badge_category := "fitness";
      condition := fun d => 50 <=? GData.totalWorkouts (GData.stats d) |});
  ("workout_100",
   {| badge_id := "workout_100"; badge_name := "Fitness Master";
      badge_description := "Complete 100 workouts";
      badge_xp := 500; badge_tier := "platinum"; badge_category := "fitness";
      condition := fun d => 100 <=? GData.totalWorkouts (GData.stats d) |});
  ("streak_7",
   {| badge_id := "streak_7"; badge_name := "On Fire";
      badge_description := "7-day workout streak";
      badge_xp := 100; badge_tier := "silver"; badge_category := "streaks";
      condition := fun d => 7 <=? GData.longest (GData.streak d) |});
  ("streak_30",
   {| badge_id := "streak_30"; badge_name := "Unstoppable";
      badge_description := "30-day workout streak";
      badge_xp := 500; badge_tier := "gold"; badge_category := "streaks";
      condition := fun d => 30 <=? GData.longest (GData.streak d) |});
  ("streak_100",
   {| badge_id := "streak_100"; badge_name := "Legendary";
      badge_description := "100-day workout streak";
      badge_xp := 1000; badge_tier := "diamond"; badge_category := "streaks";
      condition := fun d => 100 <=? GData.longest (GData.streak d) |});
  ("challenge_5",
   {| badge_id := "challenge_5"; badge_name := "Goal Getter";
      badge_description := "Complete 5 challenges";
      badge_xp := 75; badge_tier := "bronze"; badge_category := "challenges";
      condition := fun d => 5 <=? GData.completed (GData.challenges d) |});
  ("challenge_25",
   {| badge_id := "challenge_25"; badge_name := "Challenge Champion";
      badge_description := "Complete 25 challenges";
      badge_xp := 300; badge_tier := "gold"; badge_category := "challenges";
      condition := fun d => 25 <=? GData.completed (GData.challenges d) |});
  ("level_10",
   {| badge_id := "level_10"; badge_name := "Rising Star";
      badge_description := "Reach level 10";
      badge_xp := 200; badge_tier := "silver"; badge_category := "special";
      condition := fun d => 10 <=? GData.level d |});
  ("level_25",
   {| badge_id := "level_25"; badge_name := "Warrior";
      badge_description := "Reach level 25";
      badge_xp := 400; badge_tier := "gold"; badge_category := "special";
      condition := fun d => 25 <=? GData.level d |});
  ("level_50",
   {| badge_id := "level_50"; badge_name := "GamifyFit Master";
      badge_description := "Reach level 50";
      badge_xp := 1000; badge_tier := "diamond"; badge_category := "special";
      condition := fun d => 50 <=? GData.level d |});
  ("steps_100k",
   {| badge_id := "steps_100k"; badge_name := "Step Master";
      badge_description := "Walk 100,000 steps total";
      badge_xp := 150; badge_tier := "silver"; badge_category := "fitness";
      condition := fun d => 100000 <=? GData.totalSteps (GData.stats d) |});
  ("steps_1m",
   {| badge_id := "steps_1m"; badge_name := "Million Stepper";
      badge_description := "Walk 1,000,000 steps total";
      badge_xp := 500; badge_tier := "platinum"; badge_category := "fitness";
      condition := fun d => 1000000 <=? GData.totalSteps (GData.stats d) |});
  ("calories_10k",
   {| badge_id := "calories_10k"; badge_name := "Calorie Crusher";
      badge_description := "Burn 10,000 calories total";
      badge_xp := 150; badge_tier := "silver"; badge_category := "fitness";
      condition := fun d => 10000 <=? GData.totalCalories (GData.stats d) |});
  ("calories_100k",
   {| badge_id := "calories_100k"; badge_name := "Inferno";
      badge_description := "Burn 100,000 calories total";
      badge_xp := 500; badge_tier := "platinum"; badge_category := "fitness";
      condition := fun d => 100000 <=? GData.totalCalories (GData.stats d) |})
].

(** [new GamificationManager()] sets [storageKey], [levelThresholds] and
    [badges]; [this.data = this.load()] is [initialData]. *)
Definition constructor : Manager :=
  {| storageKey := "GamifyFit_gamification";
     levelThresholds := generateLevelThresholds;
     badgeDefs := getBadgeDefinitions |}.

Definition initialData (ls : gmap string Stored) : Data :=
  load constructor ls getDefaultData.

End GamificationManager.

(** ** activityTracker.js: class ActivityTrackerManager *)

Module ActivityTrackerManager.
Import AData.

(** The two methods of [window.Gamification] that the tracker calls.  They
    act on that manager's own state, of type [G], and on the browser. *)
Record GamificationAPI (G : Type) := {
  api_logSteps : Z -> G * Browser -> G * Browser;
  api_logWorkout : GamificationManager.Workout -> G * Browser -> G * Browser
}.
Arguments api_logSteps {G}.
Arguments api_logWorkout {G}.

Record World (G : Type) := {
  data : Data;
  gamification : G;
  browser : Browser
}.
Arguments data {G}.
Arguments gamification {G}.
Arguments browser {G}.

(** Argument of [logActivity]; every field may be missing. *)
Record ActivityInput := {
  in_type : option string;
  in_duration : option Z;
  in_calories : option Z;
  in_steps : option Z;
  in_notes : option string
}.

(** Argument of [setGoals]: the goals to overwrite. *)
Record GoalsPatch := {
  patch_steps : option Z;
  patch_calories : option Z;
  patch_activeMinutes : option Z;
  patch_water : option Z
}.

(** What [getTodaySummary] and [getDaySummary] read off a day; the
    rounded percentages, which only feed the display, are left out. *)
Record Summary := {
  sum_day : Day;
  sum_goals : Goals
}.

Definition with_days (v : gmap string Day) (d : Data) : Data :=
  {| days := v; goals := goals d; trackingEnabled := trackingEnabled d |}.

Definition with_goals (v : Goals) (d : Data) : Data :=
  {| days := days d; goals := v; trackingEnabled := trackingEnabled d |}.

Definition with_trackingEnabled (v : bool) (d : Data) : Data :=
  {| days := days d; goals := goals d; trackingEnabled := v |}.

Definition emptyDay : Day :=
  {| day_steps := 0; day_calories := 0; day_activeMinutes := 0; day_water := 0;
     day_weight := None; day_activities := []; day_lastUpdated := None |}.

Definition add_steps (n : Z) (d : Day) : Day :=
  {| day_steps := day_steps d + n; day_calories := day_calories d;
     day_activeMinutes := day_activeMinutes d; day_water := day_water d;
     day_weight := day_weight d; day_activities := day_activities d;
     day_lastUpdated := day_lastUpdated d |}.

Definition add_calories (n : Z) (d : Day) : Day :=
  {| day_steps := day_steps d; day_calories := day_calories d + n;
     day_activeMinutes := day_activeMinutes d; day_water := day_water d;
     day_weight := day_weight d; day_activities := day_activities d;
     day_lastUpdated := day_lastUpdated d |}.

Definition add_activeMinutes (n : Z) (d : Day) : Day :=
  {| day_steps := day_steps d; day_calories := day_calories d;
     day_activeMinutes := day_activeMinutes d + n; day_water := day_water d;
     day_weight := day_weight d; day_activities := day_activities d;
     day_lastUpdated := day_lastUpdated d |}.

Definition add_water (n : Z) (d : Day) : Day :=
  {| day_steps := day_steps d; day_calories := day_calories d;
     day_activeMinutes := day_activeMinutes d; day_water := day_water d + n;
     day_weight := day_weight d; day_activities := day_activities d;
     day_lastUpdated := day_lastUpdated d |}.

Definition set_weight (kg : Z) (d : Day) : Day :=
  {| day_steps := day_steps d; day_calories := day_calories d;
     day_activeMinutes := day_activeMinutes d; day_water := day_water d;
     day_weight := Some kg; day_activities := day_activities d;
     day_lastUpdated := day_lastUpdated d |}.

Definition push_activity (a : Activity) (d : Day) : Day :=
  {| day_steps := day_steps d; day_calories := day_calories d;
     day_activeMinutes := day_activeMinutes d; day_water := day_water d;
     day_weight := day_weight d; day_activities := day_activities d ++ [a];
     day_lastUpdated := day_lastUpdated d |}.

Definition set_lastUpdated (t : Z) (d : Day) : Day :=
  {| day_steps := day_steps d; day_calories := day_calories d;
     day_activeMinutes := day_activeMinutes d; day_water := day_water d;
     day_weight := day_weight d; day_activities := day_activities d;
     day_lastUpdated := Some t |}.

Section Methods.

Variable G : Type.

(** [window.Gamification], when that script is loaded. *)
Variable Gamification : option (GamificationAPI G).

(** [clock] as for the gamification manager; [isoDate t] is the
    [YYYY-MM-DD] prefix of [new Date(t).toISOString()]; [minusDays t i] is
    the instant [d] after [d = new Date(t); d.setDate(d.getDate() - i)];
    [Math_random j n] is what the [j]-th draw of [seedDemoData],
    [Math.floor(b + Math.random() * n)], adds to its base [b].  The
    floor is taken of the binary64 sum, which can round up to [b + n]:
    the amount lies between 0 and [n], both included. *)
Variable clock : nat -> Z.
Variable isoDate : Z -> string.
Variable minusDays : Z -> Z -> Z.
Variable Math_random : nat -> Z -> Z.

Definition M (A : Type) : Type := ST (World G) A.

Definition storageKey : string := "GamifyFit_activity".

Definition getData : M Data := fun w => (data w, w).

Definition modifyData (f : Data -> Data) : M unit :=
  fun w => (tt, {| data := f (data w); gamification := gamification w;
                   browser := browser w |}).

Definition newDate : M Z :=
  fun w => (clock (ticks (browser w)),
            {| data := data w; gamification := gamification w;
               browser := {| localStorage := localStorage (browser w);
                             dispatched := dispatched (browser w);
                             ticks := S (ticks (browser w)) |} |}).

Definition setItem (key : string) (v : Stored) : M unit :=
  fun w => (tt, {| data := data w; gamification := gamification w;
                   browser := {| localStorage := <[key := v]> (localStorage (browser w));
                                 dispatched := dispatched (browser w);
                                 ticks := ticks (browser w) |} |}).

Definition dispatchEvent (e : Event) : M unit :=
  fun w => (tt, {| data := data w; gamification := gamification w;
                   browser := {| localStorage := localStorage (browser w);
                                 dispatched := dispatched (browser w) ++ [e];
                                 ticks := ticks (browser w) |} |}).

(** [if (window.Gamification) { window.Gamification.m(...) }] *)
Definition ifGamification (m : GamificationAPI G -> G * Browser -> G * Browser) : M unit :=
  fun w =>
    match Gamification with
    | Some api =>
        let (g', b') := m api (gamification w, browser w) in
        (tt, {| data := data w; gamification := g'; browser := b' |})
    | None => (tt, w)
    end.

Definition getDefaultGoals : Goals :=
  {| goal_steps := 10000; goal_calories := 600; goal_activeMinutes := 60;
     goal_water := 8 |}.

Definition load (ls : gmap string Stored) : Data :=
  match ls !! storageKey with
  | Some (StoredActivity d) => d
  | _ => {| days := ∅; goals := getDefaultGoals; trackingEnabled := false |}
  end.

Definition save : M unit :=
  d <- getData ;; setItem storageKey (StoredActivity d).

Definition todayKey : M string :=
  t <- newDate ;; ret (isoDate t).

Definition getDay (dateKey : string) : M Day :=
  d <- getData ;;
  match days d !! dateKey with
  | Some day => ret day
  | None =>
      modifyData (fun d => with_days (<[dateKey := emptyDay]> (days d)) d) ;;
      ret emptyDay
  end.

(** An assignment through the reference [day = this.getDay(dateKey)]. *)
Definition updateDay (dateKey : string) (f : Day -> Day) : M unit :=
  modifyData (fun d => with_days (alter f dateKey (days d)) d).

(** The value of the reference [day] when the method returns it. *)
Definition readDay (dateKey : string) : M Day :=
  d <- getData ;; ret (default emptyDay (days d !! dateKey)).

Definition getTodaySummary : M Summary :=
  key <- todayKey ;;
  day <- getDay key ;;
  d <- getData ;;
  ret {| sum_day := day; sum_goals := goals d |}.

Definition getDaySummary (dateKey : string) : M Summary :=
  day <- getDay dateKey ;;
  d <- getData ;;
  ret {| sum_day := day; sum_goals := goals d |}.

Definition dispatchUpdate : M unit :=
  getTodaySummary ;;
  dispatchEvent EvActivityUpdated.

Definition enableTracking : M unit :=
  modifyData (with_trackingEnabled true) ;;
  save ;;
  dispatchEvent EvActivityEnabled.

Definition isEnabled : M bool :=
  d <- getData ;; ret (trackingEnabled d).

Definition logSteps (count : Z) : M Day :=
  key <- todayKey ;;
  getDay key ;;
  updateDay key (add_steps count) ;;
  t <- newDate ;;
  updateDay key (set_lastUpdated t) ;;
  save ;;
  ifGamification (fun api => api_logSteps api count) ;;
  dispatchUpdate ;;
  readDay key.

Definition logCalories (amount : Z) : M Day :=
  key <- todayKey ;;
  getDay key ;;
  updateDay key (add_calories amount) ;;
  t <- newDate ;;
  updateDay key (set_lastUpdated t) ;;
  save ;;
  dispatchUpdate ;;
  readDay key.

Definition logActiveMinutes (minutes : Z) : M Day :=
  key <- todayKey ;;
  getDay key ;;
  updateDay key (add_activeMinutes minutes) ;;
  t <- newDate ;;
  updateDay key (set_lastUpdated t) ;;
  save ;;
  dispatchUpdate ;;
  readDay key.

Definition logWater (glasses : Z) : M Day :=
  key <- todayKey ;;
  getDay key ;;
  updateDay key (add_water glasses) ;;
  t <- newDate ;;
  updateDay key (set_lastUpdated t) ;;
  save ;;
  dispatchUpdate ;;
  readDay key.

Definition logActivity (activityData : ActivityInput) : M Day :=
  let steps := in_steps activityData in
  let calories := in_calories activityData in
  let duration := in_duration activityData in
  dateKey <- todayKey ;;
  getDay dateKey ;;
  updateDay dateKey (add_steps (JS.num_or steps 0)) ;;
  updateDay dateKey (add_calories (JS.num_or calories 0)) ;;
  updateDay dateKey (add_activeMinutes (JS.num_or duration 0)) ;;
  t <- newDate ;;
  updateDay dateKey (push_activity
    {| type := JS.str_or (in_type activityData) "general";
       duration := JS.num_or duration 0;
       calories := JS.num_or calories 0;
       steps := JS.num_or steps 0;
       notes := JS.str_or (in_notes activityData) "";
       timestamp := t |}) ;;
  t' <- newDate ;;
  updateDay dateKey (set_lastUpdated t') ;;
  save ;;
  ifGamification (fun api => api_logWorkout api
    {| GamificationManager.w_duration := Some (JS.num_or duration 0);
       GamificationManager.w_calories := Some (JS.num_or calories 0);
       GamificationManager.w_type := Some (JS.str_or (in_type activityData) "general") |}) ;;
  dispatchUpdate ;;
  readDay dateKey.

Definition logWeight (kg : Z) : M Day :=
  key <- todayKey ;;
  getDay key ;;
  updateDay key (set_weight kg) ;;
  t <- newDate ;;
  updateDay key (set_lastUpdated t) ;;
  save ;;
  dispatchUpdate ;;
  readDay key.

(** [{ ...this.data.goals, ...goals }] *)
Definition mergeGoals (old : Goals) (p : GoalsPatch) : Goals :=
  {| goal_steps := default (goal_steps old) (patch_steps p);
     goal_calories := default (goal_calories old) (patch_calories p);
     goal_activeMinutes := default (goal_activeMinutes old) (patch_activeMinutes p);
     goal_water := default (goal_water old) (patch_water p) |}.

Definition setGoals (p : GoalsPatch) : M unit :=
  modifyData (fun d => with_goals (mergeGoals (goals d) p) d) ;;
  save.

(** [for (let i = 6; i >= 0; i--)] *)
Definition sixToZero : list Z := [6; 5; 4; 3; 2; 1; 0].

Definition getWeekSummary : M (list (string * Summary)) :=
  forOf sixToZero (fun i acc =>
    t <- newDate ;;
    let key := isoDate (minusDays t i) in
    sm <- getDaySummary key ;;
    ret (acc ++ [(key, sm)])) [].

Definition getWeekTotals : M (Z * Z * Z * Z) :=
  week <- getWeekSummary ;;
  let sum f := foldl (fun acc (e : string * Summary) => acc + f (sum_day (snd e))) 0 week in
  let active := List.filter (fun e : string * Summary =>
                  (0 <? day_steps (sum_day (snd e)))
                  || (0 <? day_activeMinutes (sum_day (snd e)))) week in
  ret (sum day_steps, sum day_calories, sum day_activeMinutes,
       Z.of_nat (length active)).

Definition getStatus : M (bool * bool * option Z * Goals) :=
  today <- getTodaySummary ;;
  d <- getData ;;
  let day := sum_day today in
  ret (trackingEnabled d,
       (0 <? day_steps day) || (0 <? day_activeMinutes day) || (0 <? day_calories day),
       day_lastUpdated day,
       goals d).

Definition resetToday : M unit :=
  key <- todayKey ;;
  modifyData (fun d => with_days (delete key (days d)) d) ;;
  save ;;
  dispatchUpdate.

Definition seedDemoData : M unit :=
  today <- newDate ;;
  forOf sixToZero (fun i (j : nat) =>
    let d := minusDays today i in
    let key := isoDate d in
    modifyData (fun dt => with_days
      (<[key := {| day_steps := 5000 + Math_random (4 * j) 8000;
                   day_calories := 200 + Math_random (4 * j + 1) 500;
                   day_activeMinutes := 15 + Math_random (4 * j + 2) 60;
                   day_water := 3 + Math_random (4 * j + 3) 6;
                   day_weight := None;
                   day_activities := [];
                   day_lastUpdated := Some d |}]> (days dt)) dt) ;;
    ret (S j)) 0%nat ;;
  modifyData (with_trackingEnabled true) ;;
  save ;;
  dispatchUpdate.

(** The methods, as calls; [getDefaultGoals] and [getWeightHistory] only
    compute a value from [this.data]. *)
Inductive Call :=
| CallSave
| CallTodayKey
| CallGetDay (dateKey : string)
| CallEnableTracking
| CallIsEnabled
| CallLogSteps (count : Z)
| CallLogCalories (amount : Z)
| CallLogActiveMinutes (minutes : Z)
| CallLogWater (glasses : Z)
| CallLogActivity (a : ActivityInput)
| CallLogWeight (kg : Z)
| CallSetGoals (p : GoalsPatch)
| CallGetTodaySummary
| CallGetDaySummary (dateKey : string)
| CallGetWeekSummary
| CallGetWeekTotals
| CallGetStatus
| CallDispatchUpdate
| CallResetToday
| CallSeedDemoData.

Definition run (c : Call) (w : World G) : World G :=
  match c with
  | CallSave => snd (save w)
  | CallTodayKey => snd (todayKey w)
  | CallGetDay k => snd (getDay k w)
  | CallEnableTracking => snd (enableTracking w)
  | CallIsEnabled => snd (isEnabled w)
  | CallLogSteps n => snd (logSteps n w)
  | CallLogCalories n => snd (logCalories n w)
  | CallLogActiveMinutes n => snd (logActiveMinutes n w)
  | CallLogWater n => snd (logWater n w)
  | CallLogActivity a => snd (logActivity a w)
  | CallLogWeight kg => snd (logWeight kg w)
  | CallSetGoals p => snd (setGoals p w)
  | CallGetTodaySummary => snd (getTodaySummary w)
  | CallGetDaySummary k => snd (getDaySummary k w)
  | CallGetWeekSummary => snd (getWeekSummary w)
  | CallGetWeekTotals => snd (getWeekTotals w)
  | CallGetStatus => snd (getStatus w)
  | CallDispatchUpdate => snd (dispatchUpdate w)
  | CallResetToday => snd (resetToday w)
  | CallSeedDemoData => snd (seedDemoData w)
  end.

End Methods.

(** [window.Gamification] as built by gamification.js, seen from the
    tracker: its state is that manager's [data]. *)
Definition realGamification (clock : nat -> Z) (toDateString : Z -> Z)
  : GamificationAPI GData.Data :=
  let lift {A} (m : GamificationManager.M A) (gb : GData.Data * Browser) :=
    let s' := snd (m {| GamificationManager.data := fst gb;
                        GamificationManager.browser := snd gb |}) in
    (GamificationManager.data s', GamificationManager.browser s') in
  {| api_logSteps := fun n =>
       lift (GamificationManager.logSteps clock GamificationManager.constructor n);
     api_logWorkout := fun w =>
       lift (GamificationManager.logWorkout clock toDateString
               GamificationManager.constructor w) |}.

End ActivityTrackerManager.

(** ** planGenerator.js: class PlanGenerator *)

Module PlanGenerator.

Record Exercise := {
  name : string;
  muscle : string;
  difficulty : Z;
  equipment : string;
  tips : string
}.

Record ExerciseSet := {
  reps : Z;
  weight : Z;
  unit : string
}.

(** What [createExerciseWithSets] returns; [rest] is [undefined] when the
    configuration object has no such field. *)
Record PlannedExercise := {
  pe_name : string;
  pe_muscle : string;
  pe_sets : list ExerciseSet;
  pe_rest : option Z;
  pe_tips : string;
  pe_completed : bool
}.

(** An entry of [weeklyPlan]; a rest day has no [exercises] field. *)
Record PlanDay := {
  day_name : option string;
  day_date : Z;
  day_type : string;
  isRest : bool;
  totalXp : Z;
  completed : bool;
  exercises : option (list PlannedExercise)
}.

Record Plan := {
  weekNumber : Z;
  plan_goal : string;
  plan_fitnessLevel : string;
  days : list PlanDay
}.

(** The argument of [generatePlan], with fields of the types the
    onboarding form gives them: strings for the level and the goal,
    numbers for the days and the duration, an array of strings for the
    equipment.  A missing field takes the default of the destructuring
    pattern.  (A value of another type, such as a string for [daysPerWeek]
    or [null] for [equipment], is not expressed.) *)
Record UserProfile := {
  fitnessLevel : option string;
  goal : option string;
  daysPerWeek : option Z;
  profile_equipment : option (list string);
  profile_duration : option Z
}.

(** The workout types that occur in the split tables. *)
Inductive WorkoutType :=
| full | upper | lower | push | pull | legs | chest | back
| shoulders | arms | hiit | cardio | rest.

(** Reading [obj[key]] on an object literal: an own property, a property
    inherited from [Object.prototype] (a function or object, hence truthy
    and not an array), or [undefined]. *)
Inductive Property (A : Type) :=
| Own (a : A)
| Inherited
| Undefined.
Arguments Own {A}.
Arguments Inherited {A}.
Arguments Undefined {A}.

Definition objectPrototypeKeys : list string :=
  ["constructor"; "hasOwnProperty"; "isPrototypeOf"; "propertyIsEnumerable";
   "toLocaleString"; "toString"; "valueOf"; "__proto__"; "__defineGetter__";
   "__defineSetter__"; "__lookupGetter__"; "__lookupSetter__"].

Fixpoint assoc {A} (l : list (string * A)) (key : string) : option A :=
  match l with
  | [] => None
  | (k, v) :: l' => if String.eqb k key then Some v else assoc l' key
  end.

Definition getProperty {A} (own : list (string * A)) (key : string) : Property A :=
  match assoc own key with
  | Some a => Own a
  | None => if JS.includes objectPrototypeKeys key then Inherited else Undefined
  end.

(** Outcome of a method that may throw a [TypeError]. *)
Inductive Result (A : Type) :=
| Returns (a : A)
| Throws.
Arguments Returns {A}.
Arguments Throws {A}.

Definition getExerciseDatabase : list (string * list Exercise) := [
  ("chest", [
     {| name := "Push-Ups"; muscle := "Chest"; difficulty := 1;
        equipment := "none";
        tips := "Keep your body straight. Lower until chest nearly touches floor." |};
     {| name := "Incline Push-Ups"; muscle := "Upper Chest"; difficulty := 1;
        equipment := "none";
        tips := "Place hands on elevated surface. Great for beginners." |};
     {| name := "Diamond Push-Ups"; muscle := "Chest, Triceps"; difficulty := 2;
        equipment := "none";
        tips := "Form a diamond with your hands. Keep elbows close." |};
     {| name := "Bench Press"; muscle := "Chest"; difficulty := 2;
        equipment := "barbell";
        tips := "Keep feet flat, slight arch in lower back." |};
     {| name := "Dumbbell Press"; muscle := "Chest"; difficulty := 2;
        equipment := "dumbbells";
        tips := "Press straight up, control the negative." |};
     {| name := "Incline Dumbbell Press"; muscle := "Upper Chest"; difficulty := 2;
        equipment := "dumbbells";
        tips := "Set bench to 30-45 degrees." |};
     {| name := "Dumbbell Flyes"; muscle := "Chest"; difficulty := 2;
        equipment := "dumbbells";
        tips := "Keep slight bend in elbows throughout." |};
     {| name := "Cable Crossover"; muscle := "Chest"; difficulty := 3;
        equipment := "cable";
        tips := "Squeeze at the center for peak contraction." |}]);
  ("back", [
     {| name := "Pull-Ups"; muscle := "Lats, Biceps"; difficulty := 3;
        equipment := "pullup_bar";
        tips := "Pull chest to bar, squeeze shoulder blades." |};
     {| name := "Chin-Ups"; muscle := "Lats, Biceps"; difficulty := 2;
        equipment := "pullup_bar";
        tips := "Underhand grip, focus on biceps engagement." |};
     {| name := "Inverted Rows"; muscle := "Back"; difficulty := 1;
        equipment := "none";
        tips := "Keep body straight, pull chest to bar." |};
     {| name := "Bent Over Rows"; muscle := "Back"; difficulty := 2;
        equipment := "barbell";
        tips := "Hinge at hips, pull to lower chest." |};
     {| name := "Dumbbell Rows"; muscle := "Back"; difficulty := 2;
        equipment := "dumbbells";
        tips := "Keep back flat, pull elbow past torso." |};
     {| name := "Lat Pulldown"; muscle := "Lats"; difficulty := 2;
        equipment := "cable";
        tips := "Pull to upper chest, control the return." |};
     {| name := "Deadlift"; muscle := "Back, Hamstrings"; difficulty := 3;
        equipment := "barbell";
        tips := "Keep back flat, push through heels." |};
     {| name := "Face Pulls"; muscle := "Rear Delts"; difficulty := 1;
        equipment := "cable";
        tips := "Pull rope to face, externally rotate." |}]);
  ("shoulders", [
     {| name := "Pike Push-Ups"; muscle := "Shoulders"; difficulty := 2;
        equipment := "none";
        tips := "Form inverted V, lower head toward floor." |};
     {| name := "Overhead Press"; muscle := "Shoulders"; difficulty := 2;
        equipment := "barbell";
        tips := "Brace core, press straight up." |};
     {| name := "Dumbbell Shoulder Press"; muscle := "Shoulders"; difficulty := 2;
        equipment := "dumbbells";
        tips := "Press up and slightly in." |};
     {| name := "Lateral Raises"; muscle := "Side Delts"; difficulty := 1;
        equipment := "dumbbells";
        tips := "Lead with elbows, slight bend in arms." |};
     {| name := "Front Raises"; muscle := "Front Delts"; difficulty := 1;
        equipment := "dumbbells";
        tips := "Alternate arms, control the movement." |};
     {| name := "Arnold Press"; muscle := "Shoulders"; difficulty := 2;
        equipment := "dumbbells";
        tips := "Rotate palms as you press." |};
     {| name := "Reverse Flyes"; muscle := "Rear Delts"; difficulty := 1;
        equipment := "dumbbells";
        tips := "Bend over, squeeze shoulder blades." |}]);
  ("arms", [
     {| name := "Bicep Curls"; muscle := "Biceps"; difficulty := 1;
        equipment := "dumbbells";
        tips := "Keep elbows pinned, control negative." |};
     {| name := "Hammer Curls"; muscle := "Biceps, Forearms"; difficulty := 1;
        equipment := "dumbbells";
        tips := "Neutral grip, curl to shoulder." |};
     {| name := "Tricep Dips"; muscle := "Triceps"; difficulty := 2;
        equipment := "none";
        tips := "Keep elbows close, lower 90 degrees." |};
     {| name := "Tricep Pushdowns"; muscle := "Triceps"; difficulty := 1;
        equipment := "cable";
        tips := "Pin elbows, fully extend." |};
     {| name := "Skull Crushers"; muscle := "Triceps"; difficulty := 2;
        equipment := "barbell";
        tips := "Lower to forehead, keep elbows in." |};
     {| name := "Concentration Curls"; muscle := "Biceps"; difficulty := 1;
        equipment := "dumbbells";
        tips := "Isolate bicep, slow controlled reps." |};
     {| name := "Close Grip Bench Press"; muscle := "Triceps"; difficulty := 2;
        equipment := "barbell";
        tips := "Hands shoulder-width, elbows tucked." |}]);
  ("legs", [
     {| name := "Bodyweight Squats"; muscle := "Quads, Glutes"; difficulty := 1;
        equipment := "none";
        tips := "Chest up, knees track over toes." |};
     {| name := "Lunges"; muscle := "Quads, Glutes"; difficulty := 1;
        equipment := "none";
        tips := "Step forward, lower back knee." |};
     {| name := "Barbell Squats"; muscle := "Quads, Glutes"; difficulty := 2;
        equipment := "barbell";
        tips := "Break at hips first, drive through heels." |};
     {| name := "Front Squats"; muscle := "Quads"; difficulty := 3;
        equipment := "barbell";
        tips := "Keep elbows high, torso upright." |};
     {| name := "Romanian Deadlifts"; muscle := "Hamstrings, Glutes"; difficulty := 2;
        equipment := "barbell";
        tips := "Hinge at hips, slight knee bend." |};
     {| name := "Leg Press"; muscle := "Quads"; difficulty := 2;
        equipment := "machine";
        tips := "Feet shoulder-width, dont lock knees." |};
     {| name := "Leg Curls"; muscle := "Hamstrings"; difficulty := 1;
        equipment := "machine";
        tips := "Control the negative, squeeze at top." |};
     {| name := "Leg Extensions"; muscle := "Quads"; difficulty := 1;
        equipment := "machine";
        tips := "Full extension, pause at top." |};
     {| name := "Calf Raises"; muscle := "Calves"; difficulty := 1;
        equipment := "none";
        tips := "Full range of motion, squeeze at top." |};
     {| name := "Bulgarian Split Squats"; muscle := "Quads, Glutes"; difficulty := 2;
        equipment := "none";
        tips := "Rear foot elevated, stay balanced." |};
     {| name := "Hip Thrusts"; muscle := "Glutes"; difficulty := 2;
        equipment := "barbell";
        tips := "Drive through heels, squeeze glutes." |}]);
  ("core", [
     {| name := "Plank"; muscle := "Core"; difficulty := 1;
        equipment := "none";
        tips := "Straight line from head to heels." |};
     {| name := "Crunches"; muscle := "Abs"; difficulty := 1;
        equipment := "none";
        tips := "Curl shoulders off floor, dont pull neck." |};
     {| name := "Leg Raises"; muscle := "Lower Abs"; difficulty := 2;
        equipment := "none";
        tips := "Keep lower back pressed to floor." |};
     {| name := "Russian Twists"; muscle := "Obliques"; difficulty := 2;
        equipment := "none";
        tips := "Rotate torso, keep feet elevated." |};
     {| name := "Mountain Climbers"; muscle := "Core"; difficulty := 2;
        equipment := "none";
        tips := "Drive knees to chest, maintain plank." |};
     {| name := "Dead Bug"; muscle := "Core"; difficulty := 1;
        equipment := "none";
        tips := "Keep lower back pressed down." |};
     {| name := "Bicycle Crunches"; muscle := "Abs, Obliques"; difficulty := 2;
        equipment := "none";
        tips := "Opposite elbow to knee, control tempo." |};
     {| name := "Hanging Leg Raises"; muscle := "Lower Abs"; difficulty := 3;
        equipment := "pullup_bar";
        tips := "Control the swing, lift with abs." |}]);
  ("cardio", [
     {| name := "Jumping Jacks"; muscle := "Full Body"; difficulty := 1;
        equipment := "none";
        tips := "Stay light on feet, coordinate arms." |};
     {| name := "High Knees"; muscle := "Cardio"; difficulty := 1;
        equipment := "none";
        tips := "Drive knees up, pump arms." |};
     {| name := "Burpees"; muscle := "Full Body"; difficulty := 3;
        equipment := "none";
        tips := "Explosive jump, soft landing." |};
     {| name := "Box Jumps"; muscle := "Legs"; difficulty := 2;
        equipment := "box";
        tips := "Land softly, step down." |};
     {| name := "Jump Rope"; muscle := "Cardio"; difficulty := 2;
        equipment := "rope";
        tips := "Stay on balls of feet, small jumps." |};
     {| name := "Running"; muscle := "Cardio"; difficulty := 2;
        equipment := "none";
        tips := "Maintain steady pace, controlled breathing." |};
     {| name := "Cycling"; muscle := "Legs, Cardio"; difficulty := 2;
        equipment := "bike";
        tips := "Keep cadence steady, adjust resistance." |}])
].

(** [this.exerciseDatabase[group]], [undefined] for a missing group. *)
Definition exerciseDatabase (group : string) : option (list Exercise) :=
  assoc getExerciseDatabase group.

(** [splits[days]?.[goal] || splits[4].general].  [days] is the number
    selected at onboarding. *)
Definition splits : list (Z * list (string * list WorkoutType)) := [
  (3, [("general", [full; rest; full; rest; full; rest; rest]);
       ("build_muscle", [push; rest; pull; rest; legs; rest; rest]);
       ("lose_weight", [hiit; rest; full; rest; cardio; rest; rest])]);
  (4, [("general", [upper; lower; rest; push; pull; rest; rest]);
       ("build_muscle", [chest; back; rest; shoulders; legs; rest; rest]);
       ("lose_weight", [hiit; lower; rest; upper; cardio; rest; rest])]);
  (5, [("general", [push; pull; legs; rest; upper; lower; rest]);
       ("build_muscle", [chest; back; legs; rest; shoulders; arms; rest]);
       ("lose_weight", [hiit; lower; cardio; rest; upper; hiit; rest])]);
  (6, [("general", [push; pull; legs; push; pull; legs; rest]);
       ("build_muscle", [chest; back; legs; shoulders; arms; full; rest]);
       ("lose_weight", [hiit; upper; cardio; lower; hiit; cardio; rest])])
].

Definition splits_4_general : list WorkoutType :=
  [upper; lower; rest; push; pull; rest; rest].

Fixpoint assocZ {A} (l : list (Z * A)) (key : Z) : option A :=
  match l with
  | [] => None
  | (k, v) :: l' => if k =? key then Some v else assocZ l' key
  end.

(** [Inherited] stands for a truthy value that is not an array. *)
Definition getWorkoutSplit (days : Z) (goal : string) : Property (list WorkoutType) :=
  match assocZ splits days with
  | Some byGoal =>
      match getProperty byGoal goal with
      | Own split => Own split
      | Inherited => Inherited
      | Undefined => Own splits_4_general
      end
  | None => Own splits_4_general
  end.

Definition getWorkoutTypeName (type : WorkoutType) : string :=
  match type with
  | full => "Full Body"
  | upper => "Upper Body"
  | lower => "Lower Body"
  | push => "Push Day"
  | pull => "Pull Day"
  | legs => "Leg Day"
  | chest => "Chest Focus"
  | back => "Back Focus"
  | shoulders => "Shoulder Day"
  | arms => "Arm Day"
  | hiit => "HIIT Training"
  | cardio => "Cardio Session"
  | rest => "Workout"
  end.

Definition getMuscleGroups (workoutType : WorkoutType) : list string :=
  match workoutType with
  | full => ["chest"; "back"; "legs"; "core"]
  | upper => ["chest"; "back"; "shoulders"; "arms"]
  | lower => ["legs"; "core"]
  | push => ["chest"; "shoulders"; "arms"]
  | pull => ["back"; "arms"]
  | legs => ["legs"; "core"]
  | chest => ["chest"; "shoulders"]
  | back => ["back"]
  | shoulders => ["shoulders"; "arms"]
  | arms => ["arms"]
  | hiit => ["cardio"; "core"]
  | cardio => ["cardio"]
  | rest => ["full"]
  end.

Record SetsConfig := {
  cfg_sets : Z;
  cfg_reps : list Z;
  cfg_rest : Z
}.

Definition setsConfig : list (string * SetsConfig) := [
  ("beginner", {| cfg_sets := 3; cfg_reps := [12; 10; 10]; cfg_rest := 60 |});
  ("intermediate", {| cfg_sets := 4; cfg_reps := [12; 10; 8; 8]; cfg_rest := 75 |});
  ("advanced", {| cfg_sets := 4; cfg_reps := [10; 8; 6; 6]; cfg_rest := 90 |})
].

Definition setsConfig_intermediate : SetsConfig :=
  {| cfg_sets := 4; cfg_reps := [12; 10; 8; 8]; cfg_rest := 75 |}.

(** The loop [for (let i = 0; i < config.sets; i++)]; [reps] is
    [config.reps[i] || config.reps[config.reps.length - 1]]. *)
Definition makeSets (config : SetsConfig) (exercise : Exercise) : list ExerciseSet :=
  map (fun i : nat =>
         {| reps := JS.num_or (cfg_reps config !! i)
                      (default 0 (last (cfg_reps config)));
            weight := 0;
            unit := if String.eqb (equipment exercise) "none"
                    then "bodyweight" else "kg" |})
      (seq 0 (Z.to_nat (cfg_sets config))).

(** With a [fitnessLevel] that names an inherited property, [config] is
    that function or object: [config.sets] and [config.rest] are
    [undefined], so the loop body never runs. *)
Definition createExerciseWithSets (exercise : Exercise) (fitnessLevel : string)
  : PlannedExercise :=
  match getProperty setsConfig fitnessLevel with
  | Inherited =>
      {| pe_name := name exercise; pe_muscle := muscle exercise; pe_sets := [];
         pe_rest := None; pe_tips := tips exercise; pe_completed := false |}
  | prop =>
      let config := match prop with Own c => c | _ => setsConfig_intermediate end in
      {| pe_name := name exercise; pe_muscle := muscle exercise;
         pe_sets := makeSets config exercise;
         pe_rest := Some (cfg_rest config);
         pe_tips := tips exercise; pe_completed := false |}
  end.

Definition calculateWorkoutXP (exercises : list PlannedExercise) : Z :=
  50 + Z.of_nat (length exercises) * 5.

(** [arr.slice(0, n)]: a negative [n] counts from the end. *)
Definition slice0 {A} (l : list A) (n : Z) : list A :=
  if 0 <=? n then take (Z.to_nat n) l
  else take (Z.to_nat (Z.of_nat (length l) + n)) l.

Definition maxDifficultyOf (fitnessLevel : string) : Z :=
  if String.eqb fitnessLevel "beginner" then 1
  else if String.eqb fitnessLevel "intermediate" then 2
  else 3.

Section Methods.

(** [shuffle n l] is the array that the [n]-th
    [[...l].sort(() => Math.random() - 0.5)] of the page leaves. *)
Variable shuffle : nat -> list Exercise -> list Exercise.

(** The state is the number of shuffles done so far. *)
Definition M (A : Type) : Type := ST nat A.

Definition shuffled (l : list Exercise) : M (list Exercise) :=
  fun n => (shuffle n l, S n).

(** [Math.floor((duration / 45) * 2)] on an integral number of minutes:
    the quotient by 45 is either exact or at least 1/45 away from the
    integers, so the binary64 result is the floor of [duration * 2 / 45]. *)
Definition exercisesPerGroupOf (duration : Z) : Z := (duration * 2) / 45.

Definition selectExercises (workoutType : WorkoutType) (fitnessLevel : string)
    (equipment_ : list string) (duration : Z) : M (list PlannedExercise) :=
  let maxDifficulty := maxDifficultyOf fitnessLevel in
  let muscleGroups := getMuscleGroups workoutType in
  let exercisesPerGroup := exercisesPerGroupOf duration in
  let totalExercises := Z.min (Z.of_nat (length muscleGroups) * exercisesPerGroup) 8 in
  selectedExercises <-
    forOf muscleGroups (fun group selectedExercises =>
      let availableExercises :=
        match exerciseDatabase group with
        | Some exs =>
            List.filter (fun ex =>
              (difficulty ex <=? maxDifficulty)
              && (JS.includes equipment_ "none"
                  || JS.includes equipment_ (equipment ex))) exs
        | None => []
        end in
      shuffledExercises <- shuffled availableExercises ;;
      let selected := slice0 shuffledExercises exercisesPerGroup in
      ret (selectedExercises
           ++ map (fun exercise => createExerciseWithSets exercise fitnessLevel) selected))
      [] ;;
  ret (slice0 selectedExercises totalExercises).

Definition dayNames : list string := ["Mon"; "Tue"; "Wed"; "Thu"; "Fri"; "Sat"; "Sun"].

(** The callback of [split.forEach], called with [(workoutType, index)]. *)
Definition planDay (fitnessLevel : string) (equipment_ : list string) (duration : Z)
    (workoutType : WorkoutType) (index : nat) : M PlanDay :=
  match workoutType with
  | rest =>
      ret {| day_name := dayNames !! index; day_date := Z.of_nat index + 1;
             day_type := "Rest Day"; isRest := true; totalXp := 20;
             completed := false; exercises := None |}
  | _ =>
      exs <- selectExercises workoutType fitnessLevel equipment_ duration ;;
      ret {| day_name := dayNames !! index; day_date := Z.of_nat index + 1;
             day_type := getWorkoutTypeName workoutType; isRest := false;
             totalXp := calculateWorkoutXP exs;
             completed := false; exercises := Some exs |}
  end.

(** [split.forEach] throws a [TypeError] when [split] is not an array. *)
Definition generatePlan (userProfile : UserProfile) : M (Result Plan) :=
  let fitnessLevel_ := default "beginner" (fitnessLevel userProfile) in
  let goal_ := default "general" (goal userProfile) in
  let daysPerWeek_ := default 4 (daysPerWeek userProfile) in
  let equipment_ := default ["none"] (profile_equipment userProfile) in
  let duration := default 45 (profile_duration userProfile) in
  match getWorkoutSplit daysPerWeek_ goal_ with
  | Own split =>
      weeklyPlan <-
        forOf (imap (fun index workoutType => (workoutType, index)) split)
          (fun '(workoutType, index) weeklyPlan =>
             day <- planDay fitnessLevel_ equipment_ duration workoutType index ;;
             ret (weeklyPlan ++ [day]))
          [] ;;
      ret (Returns {| weekNumber := 1; plan_goal := goal_;
                      plan_fitnessLevel := fitnessLevel_; days := weeklyPlan |})
  | _ => ret Throws
  end.

End Methods.

End PlanGenerator.

(** ** sw.js: the service worker *)

Module ServiceWorker.

Definition CACHE_VERSION : string := "v1.0.0".
Definition CACHE_NAME : string := "GamifyFit-cache-" +:+ CACHE_VERSION.
Definition DYNAMIC_CACHE : string := "GamifyFit-dynamic-" +:+ CACHE_VERSION.
Definition API_CACHE : string := "GamifyFit-api-" +:+ CACHE_VERSION.

Definition STATIC_ASSETS : list string := [
  "/"; "/index.html"; "/auth.html"; "/onboarding.html"; "/dashboard.html";
  "/challenges.html"; "/plan.html"; "/progress.html"; "/leaderboard.html";
  "/achievements.html"; "/profile.html"; "/offline.html"; "/manifest.json";
  "/css/global.css"; "/css/dashboard.css"; "/css/challenges.css";
  "/css/plan.css"; "/css/leaderboard.css";
  "/js/auth.js"; "/js/onboarding.js"; "/js/dashboard.js"; "/js/googlefit.js";
  "/js/planGenerator.js"; "/js/gamification.js"; "/js/leaderboard.js";
  "/js/pwa.js"; "/js/notifications.js";
  "/assets/icons/icon-192x192.png"; "/assets/icons/icon-512x512.png";
  "/assets/icons/maskable-icon-192x192.png";
  "/assets/icons/maskable-icon-512x512.png"
].

Definition API_ENDPOINTS : list string :=
  ["/backend/api.php"; "/api/"; "https://www.googleapis.com/fitness/"].

(** The parts of [new URL(request.url)] that the worker reads. *)
Record URL := {
  href : string;
  protocol : string;
  pathname : string
}.

Record Request := {
  method : string;
  url : URL;
  mode : string
}.

Inductive Body :=
| Text (s : string)
| Json (fields : list (string * string)).

Record Response := {
  status : Z;
  contentType : string;
  body : Body
}.

(** [response.ok]: the status is in the range 200 to 299. *)
Definition ok (r : Response) : bool := (200 <=? status r) && (status r <=? 299).

(** What [await fetch(...)] does: it throws, or it yields a response. *)
Inductive FetchOutcome :=
| NetworkError
| Fetched (r : Response).

(** *** Classification of requests *)

Definition isApiRequest (u : URL) : bool :=
  existsb (fun endpoint => JS.str_includes (href u) endpoint) API_ENDPOINTS.

Definition staticExtensions : list string :=
  [".css"; ".js"; ".png"; ".jpg"; ".jpeg"; ".gif"; ".svg"; ".ico"; ".woff"; ".woff2"].

Definition isStaticAsset (u : URL) : bool :=
  existsb (fun ext => JS.endsWith (pathname u) ext) staticExtensions
  || JS.includes STATIC_ASSETS (pathname u).

Inductive Strategy :=
| NetworkFirstWithCache (cacheName : string)
| CacheFirstWithNetwork (cacheName : string)
| NavigationHandler
| StaleWhileRevalidate (cacheName : string).

(** The [fetch] listener: the strategy handed to [event.respondWith], or
    [None] when the listener returns without responding. *)
Definition fetchListener (request : Request) : option Strategy :=
  if negb (String.eqb (method request) "GET") then None
  else if negb (JS.startsWith (protocol (url request)) "http") then None
  else if isApiRequest (url request) then Some (NetworkFirstWithCache API_CACHE)
  else if isStaticAsset (url request) then Some (CacheFirstWithNetwork CACHE_NAME)
  else if String.eqb (mode request) "navigate" then Some NavigationHandler
  else Some (StaleWhileRevalidate DYNAMIC_CACHE).

(** *** The Cache API *)

(** [caches]: the named caches in creation order, each mapping a request
    URL to the stored response. *)
Definition CacheStorage : Type := list (string * gmap string Response).

Fixpoint caches_open (caches : CacheStorage) (cacheName : string) : CacheStorage :=
  match caches with
  | [] => [(cacheName, ∅)]
  | (n, c) :: rest =>
      if String.eqb n cacheName then caches else (n, c) :: caches_open rest cacheName
  end.

Fixpoint cache_of (caches : CacheStorage) (cacheName : string) : gmap string Response :=
  match caches with
  | [] => ∅
  | (n, c) :: rest => if String.eqb n cacheName then c else cache_of rest cacheName
  end.

(** [caches.match(key)]: the first cache holding an entry answers. *)
Fixpoint caches_match (caches : CacheStorage) (key : string) : option Response :=
  match caches with
  | [] => None
  | (_, c) :: rest =>
      match c !! key with
      | Some r => Some r
      | None => caches_match rest key
      end
  end.

(** The entry for [key] written into the cache [cacheName], which is
    created when missing. *)
Fixpoint cache_store (caches : CacheStorage) (cacheName key : string) (r : Response)
  : CacheStorage :=
  match caches with
  | [] => [(cacheName, {[ key := r ]})]
  | (n, c) :: rest =>
      if String.eqb n cacheName then (n, <[key := r]> c) :: rest
      else (n, c) :: cache_store rest cacheName key r
  end.

(** What [cache.put(request, response)] accepts: a GET request over http
    or https, and a response that is not partial (status 206), although
    [response.ok] holds for a partial one.  ([put] also rejects a response
    with a [Vary: *] header; a [Response] here has no such header.) *)
Definition cacheable (request : Request) (r : Response) : bool :=
  String.eqb (method request) "GET"
  && (String.eqb (protocol (url request)) "http:"
      || String.eqb (protocol (url request)) "https:")
  && negb (status r =? 206).

(** [caches.open(cacheName)] followed by [cache.put(request, response)].
    The cache is opened, and so created when missing.  When [put] rejects,
    nothing is stored; the strategies do not await [put], so the rejection
    goes unnoticed.  Storage is taken to have room for what [put]
    accepts. *)
Definition cache_put (caches : CacheStorage) (cacheName : string) (request : Request)
    (r : Response) : CacheStorage :=
  if cacheable request r then cache_store caches cacheName (href (url request)) r
  else caches_open caches cacheName.

Section Strategies.

(** The origin that ['/offline.html'] is resolved against. *)
Variable origin : string.

Definition offlineUrl : string := origin +:+ "/offline.html".

Definition offlineJson : Response :=
  {| status := 503;
     contentType := "application/json";
     body := Json [("error", "offline"); ("message", "You are currently offline")] |}.

(** Each strategy maps the caches, the request and the outcome of
    [fetch(request)] to the value the promise resolves to ([None] for
    [undefined] or [null]) and the caches afterwards. *)
Definition cacheFirstWithNetwork (request : Request) (cacheName : string)
    (net : FetchOutcome) (caches : CacheStorage) : option Response * CacheStorage :=
  match caches_match caches (href (url request)) with
  | Some cachedResponse => (Some cachedResponse, caches)
  | None =>
      match net with
      | Fetched networkResponse =>
          (Some networkResponse,
           if ok networkResponse
           then cache_put caches cacheName request networkResponse
           else caches)
      | NetworkError => (caches_match caches offlineUrl, caches)
      end
  end.

Definition networkFirstWithCache (request : Request) (cacheName : string)
    (net : FetchOutcome) (caches : CacheStorage) : option Response * CacheStorage :=
  match net with
  | Fetched networkResponse =>
      (Some networkResponse,
       if ok networkResponse
       then cache_put caches cacheName request networkResponse
       else caches)
  | NetworkError =>
      match caches_match caches (href (url request)) with
      | Some cachedResponse => (Some cachedResponse, caches)
      | None => (Some offlineJson, caches)
      end
  end.

(** [fetchPromise] is a promise object, hence truthy: in
    [cachedResponse || fetchPromise || caches.match('/offline.html')] the
    third operand is never evaluated, and without a cached response the
    result is what [fetchPromise] resolves to, [null] after a failure. *)
Definition staleWhileRevalidate (request : Request) (cacheName : string)
    (net : FetchOutcome) (caches : CacheStorage) : option Response * CacheStorage :=
  let caches1 := caches_open caches cacheName in
  let cachedResponse := cache_of caches1 cacheName !! href (url request) in
  let fetchPromise :=
    match net with
    | Fetched networkResponse => Some networkResponse
    | NetworkError => None
    end in
  let caches2 :=
    match net with
    | Fetched networkResponse =>
        if ok networkResponse
        then cache_put caches1 cacheName request networkResponse
        else caches1
    | NetworkError => caches1
    end in
  (match cachedResponse with
   | Some r => Some r
   | None => fetchPromise
   end, caches2).

Definition navigationHandler (request : Request)
    (net : FetchOutcome) (caches : CacheStorage) : option Response * CacheStorage :=
  match net with
  | Fetched networkResponse =>
      (Some networkResponse,
       if ok networkResponse
       then cache_put caches DYNAMIC_CACHE request networkResponse
       else caches)
  | NetworkError =>
      match caches_match caches (href (url request)) with
      | Some cachedResponse => (Some cachedResponse, caches)
      | None => (caches_match caches offlineUrl, caches)
      end
  end.

Definition respondWith (s : Strategy) (request : Request)
    (net : FetchOutcome) (caches : CacheStorage) : option Response * CacheStorage :=
  match s with
  | NetworkFirstWithCache cacheName => networkFirstWithCache request cacheName net caches
  | CacheFirstWithNetwork cacheName => cacheFirstWithNetwork request cacheName net caches
  | NavigationHandler => navigationHandler request net caches
  | StaleWhileRevalidate cacheName => staleWhileRevalidate request cacheName net caches
  end.

End Strategies.

(** *** Background sync *)

(** An entry of the [offline_sync_queue] object store, as [queueForSync]
    adds it; the store assigns the key [id]. *)
Record QueuedAction := {
  action_type : string;
  payload : string;
  queued_at : Z;
  synced : bool
}.

(** A POST issued by a sync handler. *)
Record Post := {
  post_url : string;
  post_body : string
}.

(** What happens outside the worker during one sync event: [net id] is
    the outcome of the POST for item [id]; [opens], [reads] and [deletes]
    tell whether the IndexedDB requests of [openIndexedDB],
    [getAllFromStore] and [deleteFromStore] succeed ([onsuccess]) or are
    rejected ([onerror]). *)
Record SyncEnv := {
  net : Z -> FetchOutcome;
  opens : bool;
  reads : bool;
  deletes : Z -> bool
}.

(** The entries of the store with their keys, as [store.getAll()] on a
    store with [keyPath: 'id'] returns them.  The handlers treat each
    entry on its own, so the order of the snapshot only shows in the order
    of the POSTs. *)
Definition getAllFromStore (db : gmap Z QueuedAction) : list (Z * QueuedAction) :=
  map_to_list db.

Definition deleteFromStore (db : gmap Z QueuedAction) (key : Z) : gmap Z QueuedAction :=
  delete key db.

(** The body of the loop shared by the two handlers: for an item of the
    snapshot with the given [action_type], POST its payload, and delete the
    item when the response is ok.  A throwing [fetch] and a rejected delete
    both end in the inner [catch], which only logs.  The state is the
    store and the POSTs issued so far. *)
Definition syncItem (actionType endpoint : string) (env : SyncEnv)
    (st : gmap Z QueuedAction * list Post) (item : Z * QueuedAction)
  : gmap Z QueuedAction * list Post :=
  let '(db, posts) := st in
  let '(id, action) := item in
  if String.eqb (action_type action) actionType then
    let posts' := posts ++ [{| post_url := endpoint; post_body := payload action |}] in
    match net env id with
    | Fetched response =>
        if ok response
        then (if deletes env id then deleteFromStore db id else db, posts')
        else (db, posts')
    | NetworkError => (db, posts')
    end
  else (db, posts).

(** The outer [try]: when the database cannot be opened or read, the outer
    [catch] logs and nothing is attempted. *)
Definition syncQueue (actionType endpoint : string) (env : SyncEnv)
    (db : gmap Z QueuedAction) : gmap Z QueuedAction * list Post :=
  if opens env && reads env then
    let queue := getAllFromStore db in
    foldl (syncItem actionType endpoint env) (db, []) queue
  else (db, []).

Definition syncChallengeCompletions (env : SyncEnv) (db : gmap Z QueuedAction)
  : gmap Z QueuedAction * list Post :=
  syncQueue "challenge_complete" "/backend/api.php?action=complete_challenge" env db.

Definition syncActivityData (env : SyncEnv) (db : gmap Z QueuedAction)
  : gmap Z QueuedAction * list Post :=
  syncQueue "activity_data" "/backend/api.php?action=save_activity" env db.

(** The [sync] listener. *)
Definition syncListener (tag : string) (env : SyncEnv) (db : gmap Z QueuedAction)
  : gmap Z QueuedAction * list Post :=
  if String.eqb tag "sync-challenge-completion" then syncChallengeCompletions env db
  else if String.eqb tag "sync-activity-data" then syncActivityData env db
  else (db, []).

(** A run of sync events with the same tag, one environment each. *)
Fixpoint syncEvents (tag : string) (envs : list SyncEnv)
    (db : gmap Z QueuedAction) : gmap Z QueuedAction :=
  match envs with
  | [] => db
  | env :: envs' => syncEvents tag envs' (fst (syncListener tag env db))
  end.

End ServiceWorker.

(** ** The OAuth callback handler (/api/auth/callback) *)

Module OAuthCallback.

(** [s.split(c)] for a one-character separator. *)
Fixpoint split_on (c : Ascii.ascii) (s : string) : list string :=
  match s with
  | EmptyString => [EmptyString]
  | String a s' =>
      if Ascii.eqb a c then EmptyString :: split_on c s'
      else match split_on c s' with
           | [] => [String a EmptyString]
           | w :: ws => String a w :: ws
           end
  end.

(** The ASCII white space that [trim] strips. *)
Definition is_space (a : Ascii.ascii) : bool :=
  let n := Ascii.nat_of_ascii a in
  (n =? 32)%nat || ((9 <=? n)%nat && (n <=? 13)%nat).

Fixpoint trimStart (s : string) : string :=
  match s with
  | EmptyString => EmptyString
  | String a s' => if is_space a then trimStart s' else s
  end.

Definition trim (s : string) : string :=
  String.rev (trimStart (String.rev (trimStart s))).

(** [cookies[name] = value] on the object literal: the last assignment to a
    name wins. *)
Definition parseCookies (cookieHeader : option string) : list (string * string) :=
  match cookieHeader with
  | None => []
  | Some h =>
      if String.eqb h "" then []
      else
        foldl (fun cookies part =>
                 match split_on "="%char (trim part) with
                 | name :: value :: _ =>
                     if negb (String.eqb name "") && negb (String.eqb value "")
                     then (name, value) :: cookies
                     else cookies
                 | _ => cookies
                 end)
              [] (split_on ";"%char h)
  end.

(** [cookies.name]: the most recent assignment. *)
Fixpoint cookie (cookies : list (string * string)) (name : string) : option string :=
  match cookies with
  | [] => None
  | (n, v) :: rest => if String.eqb n name then Some v else cookie rest name
  end.

Record Req := {
  query_code : option string;
  query_state : option string;
  query_error : option string;
  header_cookie : option string;
  header_x_forwarded_proto : option string;
  header_x_forwarded_host : option string;
  header_host : option string
}.

Record Res := {
  statusCode : Z;
  location : string;
  setCookie : list string
}.

Record User := {
  user_id : string;
  email : string;
  user_name : string;
  picture : string
}.

(** [if (x)] on an optional string: [undefined] and [''] are falsy. *)
Definition truthy (o : option string) : bool :=
  match o with
  | Some s => negb (String.eqb s "")
  | None => false
  end.

(** The token endpoint: [fetch] throws; the response is not ok, and
    reading its text succeeds or throws; or it is ok, and [json()] throws
    ([None]) or yields the tokens, of which [access_token] is read as it
    appears in the [Bearer] template. *)
Inductive TokenExchange :=
| TokenFetchThrows
| TokenNotOk (textThrows : bool)
| TokenOk (access_token : option string).

Inductive UserInfo :=
| UserFetchThrows
| UserNotOk
| UserOk (user : option User).

(** The world outside the handler. *)
Record Env := {
  GOOGLE_CLIENT_ID : string;
  GOOGLE_CLIENT_SECRET : string;
  production : bool;
  fetchToken : list (string * string) -> TokenExchange;
  fetchUserInfo : string -> UserInfo;
  signJWT : User -> option string
}.

Definition redirect (url : string) : Res :=
  {| statusCode := 302; location := url; setCookie := [] |}.

Definition getBaseUrl (req : Req) : string :=
  let protocol := JS.str_or (header_x_forwarded_proto req) "https" in
  let host := JS.str_or (header_x_forwarded_host req)
                (default "undefined" (header_host req)) in
  protocol +:+ "://" +:+ host.

(** [[...].filter(Boolean).join('; ')] *)
Definition join_nonempty (parts : list string) : string :=
  match List.filter (fun s => negb (String.eqb s "")) parts with
  | [] => ""
  | p :: ps => foldl (fun acc s => acc +:+ "; " +:+ s) p ps
  end.

(** The [URLSearchParams] posted to the token endpoint. *)
Definition tokenRequestBody (env : Env) (req : Req) : list (string * string) :=
  let baseUrl := getBaseUrl req in
  [("client_id", GOOGLE_CLIENT_ID env);
   ("client_secret", GOOGLE_CLIENT_SECRET env);
   ("code", default "undefined" (query_code req));
   ("grant_type", "authorization_code");
   ("redirect_uri", baseUrl +:+ "/api/auth/callback")].

Section Handler.

Variable encodeURIComponent : string -> string.

(** The body of the [try] block; every [throw] inside it lands in the
    [catch], which redirects with [callback_failed]. *)
Definition tryBlock (env : Env) (req : Req) : Res :=
  match fetchToken env (tokenRequestBody env req) with
  | TokenFetchThrows => redirect "/auth.html?error=callback_failed"
  | TokenNotOk textThrows =>
      if textThrows then redirect "/auth.html?error=callback_failed"
      else redirect "/auth.html?error=token_exchange_failed"
  | TokenOk None => redirect "/auth.html?error=callback_failed"
  | TokenOk (Some access_token) =>
      match fetchUserInfo env ("Bearer " +:+ access_token) with
      | UserFetchThrows => redirect "/auth.html?error=callback_failed"
      | UserNotOk => redirect "/auth.html?error=failed_to_get_user"
      | UserOk None => redirect "/auth.html?error=callback_failed"
      | UserOk (Some user) =>
          match signJWT env user with
          | None => redirect "/auth.html?error=callback_failed"
          | Some sessionToken =>
              let cookieOptions :=
                join_nonempty
                  ["session=" +:+ sessionToken; "Path=/"; "HttpOnly";
                   "SameSite=Lax"; "Max-Age=604800";
                   if production env then "Secure" else ""] in
              {| statusCode := 302;
                 location := "/onboarding.html";
                 setCookie := [cookieOptions;
                               "oauth_state=; Path=/; HttpOnly; Max-Age=0"] |}
          end
      end
  end.

Definition handler (env : Env) (req : Req) : Res :=
  if truthy (query_error req) then
    redirect ("/auth.html?error="
              +:+ encodeURIComponent (default "" (query_error req)))
  else
    let cookies := parseCookies (header_cookie req) in
    (* state !== cookies.oauth_state, both possibly undefined *)
    if negb (bool_decide (query_state req = cookie cookies "oauth_state"))
    then redirect "/auth.html?error=invalid_state"
    else tryBlock env req.

End Handler.

End OAuthCallback.

(** * The stored workout plan (planGenerator.js) *)

Module PlanStore.
Import PlanGenerator.

(** The part of the page that the plan methods touch: the localStorage
    entry under [this.storageKey], the number of shuffles done so far, and
    the workouts handed to [window.Gamification.logWorkout].

    The entry is absent or was written by [savePlan].  A plan holds
    strings, finite numbers, booleans and arrays, and a field that is
    [undefined] is left out by [JSON.stringify] and is [undefined] again
    after [JSON.parse]; so what [loadPlan] parses has the fields of what
    [savePlan] was given, and the entry is kept as the plan. *)
Record World := {
  stored_plan : option Plan;
  shuffles : nat;
  logWorkout_calls : list GamificationManager.Workout
}.

Definition set_exercise_completed (v : bool) (e : PlannedExercise) : PlannedExercise :=
  {| pe_name := pe_name e; pe_muscle := pe_muscle e; pe_sets := pe_sets e;
     pe_rest := pe_rest e; pe_tips := pe_tips e; pe_completed := v |}.

Definition set_day_completed (v : bool) (d : PlanDay) : PlanDay :=
  {| day_name := day_name d; day_date := day_date d; day_type := day_type d;
     isRest := isRest d; totalXp := totalXp d; completed := v;
     exercises := exercises d |}.

Definition set_day_exercises (exs : option (list PlannedExercise)) (d : PlanDay)
  : PlanDay :=
  {| day_name := day_name d; day_date := day_date d; day_type := day_type d;
     isRest := isRest d; totalXp := totalXp d; completed := completed d;
     exercises := exs |}.

Definition set_days (ds : list PlanDay) (p : Plan) : Plan :=
  {| weekNumber := weekNumber p; plan_goal := plan_goal p;
     plan_fitnessLevel := plan_fitnessLevel p; days := ds |}.

Section Methods.

Variable shuffle : nat -> list Exercise -> list Exercise.

(** Whether [window.Gamification] is set. *)
Variable Gamification : bool.

Definition M (A : Type) : Type := ST World A.

Definition savePlan (plan : Plan) : M Plan :=
  fun w => (plan, {| stored_plan := Some plan; shuffles := shuffles w;
                     logWorkout_calls := logWorkout_calls w |}).

Definition loadPlan : M (option Plan) := fun w => (stored_plan w, w).

(** [this.generatePlan(userProfile)], which draws its shuffles. *)
Definition generate (userProfile : UserProfile) : M (Result Plan) :=
  fun w =>
    let (r, n) := generatePlan shuffle userProfile (shuffles w) in
    (r, {| stored_plan := stored_plan w; shuffles := n;
           logWorkout_calls := logWorkout_calls w |}).

Definition logWorkout (workout : GamificationManager.Workout) : M Datatypes.unit :=
  fun w => (tt, {| stored_plan := stored_plan w; shuffles := shuffles w;
                   logWorkout_calls := logWorkout_calls w ++ [workout] |}).

(** [regenerate] is the truth value of [userProfile.regenerate].  A throw
    of [generatePlan] leaves the method before [savePlan]. *)
Definition getPlan (userProfile : UserProfile) (regenerate : bool) : M (Result Plan) :=
  plan <- loadPlan ;;
  match plan, regenerate with
  | Some saved, false => ret (Returns saved)
  | _, _ =>
      r <- generate userProfile ;;
      match r with
      | Returns plan => savePlan plan ;; ret (Returns plan)
      | Throws => ret Throws
      end
  end.

(** The indices are array indices; any other value reads [undefined], as
    an index out of range does.  An [exercises] array is truthy even when
    empty, and assigning to [exercises[exerciseIndex].completed] throws a
    [TypeError] when there is no such exercise. *)
Definition completeExercise (dayIndex exerciseIndex : nat) : M (Result (option Plan)) :=
  plan <- loadPlan ;;
  match plan with
  | Some p =>
      match days p !! dayIndex with
      | Some day =>
          match exercises day with
          | Some exs =>
              match exs !! exerciseIndex with
              | Some ex =>
                  let exs' := <[exerciseIndex := set_exercise_completed true ex]> exs in
                  let p' := set_days (<[dayIndex := set_day_exercises (Some exs') day]>
                                        (days p)) p in
                  savePlan p' ;;
                  ret (Returns (Some p'))
              | None => ret Throws
              end
          | None => ret (Returns (Some p))
          end
      | None => ret (Returns (Some p))
      end
  | None => ret (Returns None)
  end.

Definition completeDay (dayIndex : nat) : M (option Plan) :=
  plan <- loadPlan ;;
  match plan with
  | Some p =>
      match days p !! dayIndex with
      | Some day =>
          let p' := set_days (<[dayIndex := set_day_completed true day]> (days p)) p in
          savePlan p' ;;
          (if Gamification
           then logWorkout {| GamificationManager.w_duration := Some 45;
                              GamificationManager.w_calories := Some 300;
                              GamificationManager.w_type := Some (day_type day) |}
           else ret tt) ;;
          ret (Some p')
      | None => ret (Some p)
      end
  | None => ret None
  end.

Definition resetDay (d : PlanDay) : PlanDay :=
  set_day_exercises (option_map (map (set_exercise_completed false)) (exercises d))
    (set_day_completed false d).

Definition nextWeek : M (option Plan) :=
  plan <- loadPlan ;;
  match plan with
  | Some p =>
      let p' := {| weekNumber := weekNumber p + 1; plan_goal := plan_goal p;
                   plan_fitnessLevel := plan_fitnessLevel p;
                   days := map resetDay (days p) |} in
      savePlan p' ;;
      ret (Some p')
  | None => ret None
  end.

End Methods.

End PlanStore.

(** * Queueing for background sync (pwa.js) *)

Module PWAManager.
Import ServiceWorker.

(** What the two methods meet outside themselves: whether [openDB]
    resolves, whether [store.add] returns without throwing, whether
    [this.swRegistration] is set and has a [sync] manager, and whether
    [sync.register] resolves for a tag. *)
Record QueueEnv := {
  opensDB : bool;
  adds : bool;
  swRegistration : bool;
  syncManager : bool;
  registers : string -> bool
}.

(** The object store with its key generator ([autoIncrement]), and the
    tags registered for background sync, oldest first. *)
Record Offline := {
  store : gmap Z QueuedAction;
  nextKey : Z;
  tags : list string
}.

Definition register (env : QueueEnv) (tag : string) (o : Offline) : option Offline :=
  if registers env tag
  then Some {| store := store o; nextKey := nextKey o; tags := tags o ++ [tag] |}
  else None.

(** Every failure ends in the [catch], which only logs; what was done
    before it stays done. *)
Definition queueForSync (env : QueueEnv) (now : Z) (actionType payload_ : string)
    (o : Offline) : Offline :=
  if opensDB env && adds env then
    let o1 := {| store := <[nextKey o := {| action_type := actionType;
                                            payload := payload_;
                                            queued_at := now;
                                            synced := false |}]> (store o);
                 nextKey := nextKey o + 1;
                 tags := tags o |} in
    if swRegistration env && syncManager env
    then default o1 (register env ("sync-" +:+ actionType) o1)
    else o1
  else o.

Definition syncOfflineData (env : QueueEnv) (o : Offline) : Offline :=
  if negb (swRegistration env) then o
  else if syncManager env then
    match register env "sync-challenge-completion" o with
    | Some o1 => default o1 (register env "sync-activity-data" o1)
    | None => o
    end
  else o.

End PWAManager.

(** * The other authentication handlers *)

Module OAuthStart.
Import OAuthCallback.

(** [randomUUID] is the value of [crypto.randomUUID()] and [toString] the
    serialisation of [URLSearchParams]. *)
Definition handler (clientId randomUUID : string)
    (toString : list (string * string) -> string) (req : Req) : Res :=
  let redirectUri := getBaseUrl req +:+ "/api/auth/callback" in
  let state := randomUUID in
  let params :=
    [("client_id", clientId); ("redirect_uri", redirectUri);
     ("response_type", "code"); ("scope", "openid email profile");
     ("state", state); ("access_type", "offline"); ("prompt", "consent")] in
  {| statusCode := 302;
     location := "https://accounts.google.com/o/oauth2/v2/auth?" +:+ toString params;
     setCookie := ["oauth_state=" +:+ state
                   +:+ "; Path=/; HttpOnly; SameSite=Lax; Max-Age=600"] |}.

End OAuthStart.

Module SessionCheck.
Import OAuthCallback.

(** The claims read off a verified token; each may be missing. *)
Record Payload := {
  sub : option string;
  payload_email : option string;
  payload_name : option string;
  payload_picture : option string
}.

(** The JSON body: [{ user: null }] or [{ user: { id, email, name,
    picture } }]. *)
Inductive Body :=
| UserNull
| UserOf (id email name picture : option string).

(** [jwtVerify token] is [None] when [jwtVerify] rejects, for an invalid
    or expired token. *)
Definition handler (jwtVerify : string -> option Payload)
    (cookieHeader : option string) : Z * Body :=
  let cookies := parseCookies cookieHeader in
  let sessionToken := cookie cookies "session" in
  if negb (truthy sessionToken) then (200, UserNull)
  else
    match jwtVerify (default "" sessionToken) with
    | Some payload =>
        (200, UserOf (sub payload) (payload_email payload) (payload_name payload)
                     (payload_picture payload))
    | None => (200, UserNull)
    end.

End SessionCheck.

Module Logout.

Inductive Answer :=
| AnswerJson (status : Z) (success : bool)
| AnswerRedirect (status : Z) (location : string).

Record Res := {
  setCookie : string;
  answer : Answer
}.

(** [accept] is [req.headers.accept]. *)
Definition handler (accept : option string) : Res :=
  {| setCookie := "session=; Path=/; HttpOnly; SameSite=Lax; Max-Age=0";
     answer :=
       match accept with
       | Some a =>
           if JS.str_includes a "application/json" then AnswerJson 200 true
           else AnswerRedirect 302 "/"
       | None => AnswerRedirect 302 "/"
       end |}.

End Logout.

(** * Reasoning rules for the state monad *)

Section StateMonadRules.
Context {S : Type}.

(** [preserves R c]: running [c] relates the state before to the state
    after by [R], whatever it returns. *)
Definition preserves {A} (R : S -> S -> Prop) (c : ST S A) : Prop :=
  forall s, R s (snd (c s)).

Lemma preserves_ret {A} (R : S -> S -> Prop) (a : A) :
  Reflexive R -> preserves R (ret a).
Proof. intros HR s. apply HR. Qed.

Lemma preserves_bind {A B} (R : S -> S -> Prop) (c : ST S A) (k : A -> ST S B) :
  Transitive R -> preserves R c -> (forall a, preserves R (k a)) ->
  preserves R (bind c k).
Proof.
  intros HT Hc Hk s. unfold bind.
  specialize (Hc s). destruct (c s) as [a s1]. simpl in Hc.
  specialize (Hk a s1). etransitivity; eassumption.
Qed.

Lemma preserves_forOf {A B} (R : S -> S -> Prop) (l : list A)
      (body : A -> B -> ST S B) :
  Reflexive R -> Transitive R ->
  (forall x acc, preserves R (body x acc)) ->
  forall acc, preserves R (forOf l body acc).
Proof.
  intros HR HT Hbody. induction l as [|x l IH]; intros acc; simpl.
  - by apply preserves_ret.
  - apply preserves_bind; auto.
Qed.

(** [post c s Q]: [Q] holds of the result and final state of [c] run
    from [s]. *)
Definition post {A} (c : ST S A) (s : S) (Q : A -> S -> Prop) : Prop :=
  Q (fst (c s)) (snd (c s)).

Lemma post_bind {A B} (c : ST S A) (k : A -> ST S B) s Q :
  post c s (fun a s1 => post (k a) s1 Q) -> post (bind c k) s Q.
Proof. unfold post, bind. by destruct (c s). Qed.

Lemma post_mono {A} (c : ST S A) s (Q K : A -> S -> Prop) :
  post c s Q -> (forall a s', Q a s' -> K a s') -> post c s K.
Proof. unfold post. auto. Qed.

Lemma post_preserves {A} R (c : ST S A) s (Q : A -> S -> Prop) :
  preserves R c -> (forall a s', R s s' -> Q a s') -> post c s Q.
Proof. intros Hc HQ. apply HQ, Hc. Qed.

Lemma forOf_post {A B} (I : B -> S -> Prop) (body : A -> B -> ST S B) :
  (forall x acc s, I acc s -> post (body x acc) s I) ->
  forall l acc s, I acc s -> post (forOf l body acc) s I.
Proof.
  intros Hbody. induction l as [|x l IH]; intros acc s HI; simpl.
  - exact HI.
  - apply post_bind. eapply post_mono; [by apply Hbody|]. intros a s'. apply IH.
Qed.

End StateMonadRules.

(** Splits a method body along its binds, branches and loops, leaving the
    primitive steps and the calls of other methods to [tac]. *)
Ltac walk tac :=
  repeat lazymatch goal with
  | |- preserves _ (bind _ _) =>
      apply preserves_bind; [ typeclasses eauto | | intros ? ]
  | |- preserves _ (ret _) => apply preserves_ret; typeclasses eauto
  | |- preserves _ (if ?b then _ else _) => destruct b
  | |- preserves _ (match ?o with Some _ => _ | None => _ end) => destruct o
  | |- preserves _ (let '(_, _) := ?p in _) => destruct p
  | |- preserves _ (forOf _ _ _) =>
      apply preserves_forOf; [ typeclasses eauto | typeclasses eauto | intros ? ? ]
  | |- preserves _ _ => tac
  end.

(** * Properties of the gamification manager *)

Section GamificationProofs.
Import GData GamificationManager.

Variable clock : nat -> Z.
Variable toDateString : Z -> Z.
Variable this : Manager.

Lemma preserves_getData (R : State -> State -> Prop) :
  Reflexive R -> preserves R getData.
Proof. intros HR s. apply HR. Qed.

(** A relation that only looks at [this.data]. *)
Definition on_data (Rd : Data -> Data -> Prop) : State -> State -> Prop :=
  fun s s' => Rd (data s) (data s').

#[local] Instance on_data_refl Rd : Reflexive Rd -> Reflexive (on_data Rd).
Proof. intros H s. apply H. Qed.

#[local] Instance on_data_trans Rd : Transitive Rd -> Transitive (on_data Rd).
Proof. intros H s1 s2 s3. unfold on_data. apply H. Qed.

Lemma on_data_newDate Rd : Reflexive Rd -> preserves (on_data Rd) (newDate clock).
Proof. intros HR s. apply HR. Qed.

Lemma on_data_dispatchEvent Rd e : Reflexive Rd -> preserves (on_data Rd) (dispatchEvent e).
Proof. intros HR s. apply HR. Qed.

Lemma on_data_setItem Rd k v : Reflexive Rd -> preserves (on_data Rd) (setItem k v).
Proof. intros HR s. apply HR. Qed.

Lemma on_data_save Rd : Reflexive Rd -> preserves (on_data Rd) (save this).
Proof. intros HR s. apply HR. Qed.

Lemma on_data_onLevelUp Rd a b : Reflexive Rd -> preserves (on_data Rd) (onLevelUp a b).
Proof. intros HR s. apply HR. Qed.

Lemma on_data_modifyData (Rd : Data -> Data -> Prop) f :
  (forall d, Rd d (f d)) -> preserves (on_data Rd) (modifyData f).
Proof. intros H s. apply H. Qed.

(** The steps of a method that cannot touch [this.data] are closed here;
    calls of other methods go to the lemma given for them ([I] for one not
    proved yet) and a [modifyData] step is left to [prim]. *)
Ltac via_calls forL cbsL awL usL prim :=
  lazymatch goal with
  | |- preserves _ getData => apply preserves_getData; typeclasses eauto
  | |- preserves (on_data _) (newDate _) => apply on_data_newDate; typeclasses eauto
  | |- preserves (on_data _) (dispatchEvent _) =>
      apply on_data_dispatchEvent; typeclasses eauto
  | |- preserves (on_data _) (save _) => apply on_data_save; typeclasses eauto
  | |- preserves (on_data _) (setItem _ _) => apply on_data_setItem; typeclasses eauto
  | |- preserves (on_data _) (onLevelUp _ _) =>
      apply on_data_onLevelUp; typeclasses eauto
  | |- preserves _ (checkBadge _ _ _ _) => apply forL
  | |- preserves _ (checkBadges _ _) => apply cbsL
  | |- preserves _ (awardXP _ _ _ _) => apply awL
  | |- preserves _ (updateStreak _ _ _) => apply usL
  | |- preserves _ _ => prim
  end.

(** ** Level and XP *)

Definition consistent (d : Data) : Prop :=
  level d = calculateLevel this (xp d).

(** Either the level has been recomputed from the XP, or neither moved. *)
Definition level_rel (d d' : Data) : Prop :=
  consistent d' \/ (xp d' = xp d /\ level d' = level d).

#[local] Instance level_rel_refl : Reflexive level_rel.
Proof. intros d. right. auto. Qed.

#[local] Instance level_rel_trans : Transitive level_rel.
Proof.
  intros d1 d2 d3 H12 H23. unfold level_rel, consistent in *.
  destruct H23 as [H|[Hx Hl]]; [by left|].
  destruct H12 as [H|[Hx' Hl']].
  - left. congruence.
  - right. split; congruence.
Qed.

Lemma level_rel_consistent d d' : level_rel d d' -> consistent d -> consistent d'.
Proof.
  unfold level_rel, consistent. intros [H|[Hx Hl]] Hc; [done|congruence].
Qed.

Lemma checkBadge_level entry nb :
  preserves (on_data level_rel) (checkBadge clock this entry nb).
Proof.
  intros s. destruct entry as [badgeId badge].
  unfold checkBadge, bind, getData, on_data, level_rel, consistent. simpl.
  destruct (JS.includes _ _); simpl; [by right|].
  destruct (condition badge _); simpl; [by left|by right].
Qed.

Lemma checkBadges_level : preserves (on_data level_rel) (checkBadges clock this).
Proof.
  unfold checkBadges.
  walk ltac:(idtac; via_calls checkBadge_level I I I ltac:(idtac)).
Qed.

Definition keeps_consistent (d d' : Data) : Prop := consistent d -> consistent d'.

#[local] Instance keeps_consistent_refl : Reflexive keeps_consistent.
Proof. intros d H. exact H. Qed.

#[local] Instance keeps_consistent_trans : Transitive keeps_consistent.
Proof. unfold keeps_consistent. intros d1 d2 d3. auto. Qed.

Lemma checkBadges_keeps_consistent :
  preserves (on_data keeps_consistent) (checkBadges clock this).
Proof. intros s H. eapply level_rel_consistent; [apply checkBadges_level|exact H]. Qed.

Lemma awardXP_consistent amount source s :
  consistent (data (snd (awardXP clock this amount source s))).
Proof.
  change (post (awardXP clock this amount source) s
            (fun _ s' => consistent (data s'))).
  unfold awardXP.
  do 6 (apply post_bind; unfold post at 1; simpl).
  apply (post_preserves (on_data keeps_consistent)).
  - walk ltac:(idtac; via_calls I checkBadges_keeps_consistent I I ltac:(idtac)).
  - intros _ s' Hs'. apply Hs'. reflexivity.
Qed.

Lemma awardXP_level amount source :
  preserves (on_data level_rel) (awardXP clock this amount source).
Proof. intros s. left. apply awardXP_consistent. Qed.

(** Steps that leave [xp] and [level] alone. *)
Ltac level_prim :=
  apply on_data_modifyData; intros ?; right; split; reflexivity.

Ltac level_walk usL :=
  walk ltac:(idtac; via_calls checkBadge_level checkBadges_level awardXP_level usL ltac:(level_prim)).

Lemma updateStreak_level :
  preserves (on_data level_rel) (updateStreak clock toDateString this).
Proof. unfold updateStreak. level_walk I. Qed.

Lemma logSteps_level steps :
  preserves (on_data level_rel) (logSteps clock this steps).
Proof. unfold logSteps. level_walk I. Qed.

Lemma logWorkout_level w :
  preserves (on_data level_rel) (logWorkout clock toDateString this w).
Proof. unfold logWorkout. level_walk updateStreak_level. Qed.

Lemma completeChallenge_level c :
  preserves (on_data level_rel) (completeChallenge clock this c).
Proof. unfold completeChallenge. level_walk I. Qed.

(** The operations C8 lists. *)
Definition xp_mutating (c : Call) : bool :=
  match c with
  | CallAwardXP _ _ | CallCheckBadges | CallLogWorkout _ | CallLogSteps _
  | CallCompleteChallenge _ | CallUpdateStreak => true
  | _ => false
  end.

(** C8. Level-XP consistency: each of awardXP, checkBadges, logWorkout,
    logSteps, completeChallenge and updateStreak leaves either
    [data.level = calculateLevel(data.xp)], or both [data.xp] and
    [data.level] as they were; so the equation, once true, stays true, and
    every call that changes the XP ends with the level recomputed. *)
Theorem level_xp_consistency (c : Call) (s : State) :
  xp_mutating c = true ->
  let s' := run clock toDateString this c s in
  level_rel (data s) (data s') /\
  (consistent (data s) -> consistent (data s')).
Proof.
  intros Hc s'.
  assert (H : level_rel (data s) (data s')).
  { subst s'. destruct c; simpl in Hc; try discriminate; simpl.
    - apply awardXP_level.
    - apply checkBadges_level.
    - apply updateStreak_level.
    - apply logWorkout_level.
    - apply logSteps_level.
    - apply completeChallenge_level. }
  split; [exact H|]. by apply level_rel_consistent.
Qed.

(** ** Streaks *)

Definition same_streak (d d' : Data) : Prop := streak d' = streak d.

#[local] Instance same_streak_refl : Reflexive same_streak.
Proof. by intros d. Qed.

#[local] Instance same_streak_trans : Transitive same_streak.
Proof. unfold same_streak. intros d1 d2 d3. congruence. Qed.

Ltac streak_prim :=
  apply on_data_modifyData; intros ?; reflexivity.

Lemma checkBadge_streak entry nb :
  preserves (on_data same_streak) (checkBadge clock this entry nb).
Proof. unfold checkBadge. walk ltac:(idtac; via_calls I I I I ltac:(streak_prim)). Qed.

Lemma checkBadges_streak : preserves (on_data same_streak) (checkBadges clock this).
Proof.
  unfold checkBadges.
  walk ltac:(idtac; via_calls checkBadge_streak I I I ltac:(streak_prim)).
Qed.

Lemma awardXP_streak amount source :
  preserves (on_data same_streak) (awardXP clock this amount source).
Proof.
  unfold awardXP. walk ltac:(idtac; via_calls I checkBadges_streak I I ltac:(streak_prim)).
Qed.

(** What [updateStreak] leaves in [data.streak] and returns, by the day
    of the last activity. *)
Lemma updateStreak_spec s :
  let now := clock (ticks (browser s)) in
  let today := toDateString now in
  let lastDay := option_map toDateString (lastActivity (streak (data s))) in
  let cur := current (streak (data s)) in
  let cur' := if bool_decide (lastDay = Some (today - 1)) then cur + 1 else 1 in
  post (updateStreak clock toDateString this) s (fun r s' =>
    if bool_decide (lastDay = Some today) then
      data s' = data s /\
      r = {| streakUpdated := false; res_current := cur;
             res_longest := None; bonus := None |}
    else
      streak (data s') =
        {| current := cur';
           longest := if longest (streak (data s)) <? cur' then cur'
                      else longest (streak (data s));
           lastActivity := Some now |} /\
      streakUpdated r = true /\ res_current r = cur').
Proof.
  intros now today lastDay cur cur'.
  unfold updateStreak. apply post_bind. unfold post at 1. simpl.
  apply post_bind. unfold post at 1. simpl. fold now today lastDay.
  destruct (bool_decide (lastDay = Some today)) eqn:Htoday.
  { unfold post. simpl. done. }
  apply post_bind.
  apply (post_mono _ _ (fun _ s1 =>
            streak (data s1) =
              {| current := cur'; longest := longest (streak (data s));
                 lastActivity := lastActivity (streak (data s)) |})).
  { subst cur'. destruct (bool_decide (lastDay = Some (today - 1)));
      unfold post; simpl; reflexivity. }
  intros u1 s1 Hs1.
  apply post_bind. unfold post at 1. simpl.
  apply post_bind.
  apply (post_mono _ _ (fun _ s2 =>
            streak (data s2) =
              {| current := cur';
                 longest := if longest (streak (data s)) <? cur' then cur'
                            else longest (streak (data s));
                 lastActivity := lastActivity (streak (data s)) |})).
  { rewrite Hs1. simpl.
    destruct (longest (streak (data s)) <? cur'); unfold post; simpl;
      rewrite Hs1; reflexivity. }
  intros u2 s2 Hs2.
  apply post_bind. unfold post at 1. simpl.
  apply post_bind. unfold post at 1. simpl.
  apply post_bind.
  apply (post_preserves (on_data same_streak)).
  { walk ltac:(idtac; via_calls I I awardXP_streak I ltac:(idtac)). }
  intros u3 s3 Hs3. unfold on_data, same_streak in Hs3. simpl in Hs3.
  apply post_bind.
  apply (post_preserves (on_data same_streak)); [apply checkBadges_streak|].
  intros u4 s4 Hs4. unfold on_data, same_streak in Hs4.
  apply post_bind. unfold post at 1. simpl.
  apply post_bind. unfold post. simpl.
  rewrite Hs4, Hs3, Hs2. simpl. done.
Qed.


(** ** Badges *)

Lemma includes_elem_of (l : list string) (x : string) :
  JS.includes l x = true <-> x ∈ l.
Proof.
  unfold JS.includes. rewrite existsb_exists. split.
  - intros (y & Hy & Heq). apply String.eqb_eq in Heq. subst.
    by apply list_elem_of_In.
  - intros Hx. exists x. split; [by apply list_elem_of_In|apply String.eqb_refl].
Qed.

(** Nothing is ever taken out of [data.badges]. *)
Definition badges_grow (d d' : Data) : Prop := badges d `prefix_of` badges d'.

#[local] Instance badges_grow_refl : Reflexive badges_grow.
Proof. intros d. unfold badges_grow. reflexivity. Qed.

#[local] Instance badges_grow_trans : Transitive badges_grow.
Proof. intros d1 d2 d3. unfold badges_grow. etransitivity; eauto. Qed.

Ltac grow_prim :=
  apply on_data_modifyData; intros ?; unfold badges_grow; simpl;
  first [ reflexivity | by apply prefix_app_r ].

Lemma checkBadge_grow entry nb :
  preserves (on_data badges_grow) (checkBadge clock this entry nb).
Proof. unfold checkBadge. walk ltac:(idtac; via_calls I I I I ltac:(grow_prim)). Qed.

Lemma checkBadges_grow : preserves (on_data badges_grow) (checkBadges clock this).
Proof. unfold checkBadges. walk ltac:(idtac; via_calls checkBadge_grow I I I ltac:(grow_prim)). Qed.

Lemma awardXP_grow amount source :
  preserves (on_data badges_grow) (awardXP clock this amount source).
Proof. unfold awardXP. walk ltac:(idtac; via_calls I checkBadges_grow I I ltac:(grow_prim)). Qed.

Lemma updateStreak_grow :
  preserves (on_data badges_grow) (updateStreak clock toDateString this).
Proof.
  unfold updateStreak. walk ltac:(idtac; via_calls I checkBadges_grow awardXP_grow I ltac:(grow_prim)).
Qed.

Lemma run_grow (c : Call) (s : State) :
  c <> CallReset ->
  badges_grow (data s) (data (run clock toDateString this c s)).
Proof.
  intros Hc. revert s.
  change (preserves (on_data badges_grow)
            (fun s => (tt, run clock toDateString this c s))).
  assert (Hsnd : forall A (m : M A),
            preserves (on_data badges_grow) m ->
            preserves (on_data badges_grow) (fun s => (tt, snd (m s))))
    by (intros A m Hm s; apply Hm).
  destruct c; try done; apply Hsnd.
  - apply awardXP_grow.
  - apply checkBadges_grow.
  - apply updateStreak_grow.
  - unfold logWorkout.
    walk ltac:(idtac; via_calls I checkBadges_grow awardXP_grow updateStreak_grow ltac:(grow_prim)).
  - unfold logSteps.
    walk ltac:(idtac; via_calls I checkBadges_grow awardXP_grow I ltac:(grow_prim)).
  - unfold completeChallenge.
    walk ltac:(idtac; via_calls I checkBadges_grow awardXP_grow I ltac:(grow_prim)).
  - unfold joinChallenge. walk ltac:(idtac; via_calls I I I I ltac:(grow_prim)).
  - apply on_data_save. typeclasses eauto.
Qed.

(** How often the history records badge [b] being granted. *)
Definition is_grant (b : string) (e : HistoryEntry) : bool :=
  match e with
  | HistBadge b' _ _ => String.eqb b b'
  | HistXP _ _ _ => false
  end.

Definition grants (b : string) (h : list HistoryEntry) : nat :=
  length (List.filter (is_grant b) h).

(** Every id is earned at most once, and rewarded at most once and only
    if earned. *)
Definition badge_inv (d : Data) : Prop :=
  NoDup (badges d) /\
  forall b, (grants b (history d) <= 1)%nat /\
            (b ∉ badges d -> grants b (history d) = 0%nat).

Definition keeps_badge_inv (d d' : Data) : Prop := badge_inv d -> badge_inv d'.

#[local] Instance keeps_badge_inv_refl : Reflexive keeps_badge_inv.
Proof. intros d H. exact H. Qed.

#[local] Instance keeps_badge_inv_trans : Transitive keeps_badge_inv.
Proof. unfold keeps_badge_inv. intros d1 d2 d3. auto. Qed.

Lemma grants_app b h1 h2 : grants b (h1 ++ h2) = (grants b h1 + grants b h2)%nat.
Proof. unfold grants. by rewrite List.filter_app, length_app. Qed.

Lemma checkBadge_inv entry nb :
  preserves (on_data keeps_badge_inv) (checkBadge clock this entry nb).
Proof.
  intros s. destruct entry as [badgeId badge].
  unfold checkBadge, bind, getData, on_data, keeps_badge_inv. simpl.
  destruct (JS.includes _ _) eqn:Hinc; simpl; [done|].
  destruct (condition badge _); simpl; [|done].
  assert (Hni : badgeId ∉ badges (data s)).
  { intros Hin. apply includes_elem_of in Hin. congruence. }
  intros [Hnd Hg]. split; simpl.
  - apply NoDup_app. split; [done|]. split; [|apply NoDup_singleton].
    intros x Hx ->%list_elem_of_singleton. done.
  - intros b. rewrite grants_app. unfold grants at 2 4. simpl.
    destruct (String.eqb_spec b badgeId) as [->|Hne]; simpl.
    + destruct (Hg badgeId) as [_ H0]. rewrite (H0 Hni). split; [lia|].
      intros Hb. exfalso. apply Hb. apply elem_of_app. right. by apply list_elem_of_singleton.
    + destruct (Hg b) as [H1 H0]. split; [lia|].
      intros Hb. rewrite H0; [done|].
      intros Hin. apply Hb. apply elem_of_app. by left.
Qed.

Lemma grants_snoc_xp b h amount source t :
  grants b (h ++ [HistXP amount source t]) = grants b h.
Proof. rewrite grants_app. unfold grants at 2. simpl. lia. Qed.

Ltac inv_prim :=
  let d := fresh "d" in
  let Hnd := fresh "Hnd" in
  let Hg := fresh "Hg" in
  let b := fresh "b" in
  apply on_data_modifyData; intros d [Hnd Hg]; split; simpl;
  [ exact Hnd | intros b; rewrite ?grants_snoc_xp; apply Hg ].

Lemma checkBadges_inv : preserves (on_data keeps_badge_inv) (checkBadges clock this).
Proof. unfold checkBadges. walk ltac:(idtac; via_calls checkBadge_inv I I I ltac:(inv_prim)). Qed.

Lemma awardXP_inv amount source :
  preserves (on_data keeps_badge_inv) (awardXP clock this amount source).
Proof. unfold awardXP. walk ltac:(idtac; via_calls I checkBadges_inv I I ltac:(inv_prim)). Qed.

Lemma updateStreak_inv :
  preserves (on_data keeps_badge_inv) (updateStreak clock toDateString this).
Proof.
  unfold updateStreak. walk ltac:(idtac; via_calls I checkBadges_inv awardXP_inv I ltac:(inv_prim)).
Qed.

Lemma run_inv (c : Call) (s : State) :
  keeps_badge_inv (data s) (data (run clock toDateString this c s)).
Proof.
  revert s.
  change (preserves (on_data keeps_badge_inv)
            (fun s => (tt, run clock toDateString this c s))).
  assert (Hsnd : forall A (m : M A),
            preserves (on_data keeps_badge_inv) m ->
            preserves (on_data keeps_badge_inv) (fun s => (tt, snd (m s))))
    by (intros A m Hm s; apply Hm).
  destruct c; apply Hsnd.
  - apply awardXP_inv.
  - apply checkBadges_inv.
  - apply updateStreak_inv.
  - unfold logWorkout.
    walk ltac:(idtac; via_calls I checkBadges_inv awardXP_inv updateStreak_inv ltac:(inv_prim)).
  - unfold logSteps.
    walk ltac:(idtac; via_calls I checkBadges_inv awardXP_inv I ltac:(inv_prim)).
  - unfold completeChallenge.
    walk ltac:(idtac; via_calls I checkBadges_inv awardXP_inv I ltac:(inv_prim)).
  - unfold joinChallenge. walk ltac:(idtac; via_calls I I I I ltac:(inv_prim)).
  - apply on_data_save. typeclasses eauto.
  - intros s _. split; simpl; [apply NoDup_nil_2|].
    intros b. unfold grants. simpl. split; [lia|done].
Qed.

(** The XP that one [checkBadges] adds is the sum of the rewards of the
    badges it returns, one new entry of [data.badges] each. *)
Definition reward_sum (l : list BadgeDef) : Z :=
  foldr (fun b acc => badge_xp b + acc) 0 l.

Lemma reward_sum_snoc l b : reward_sum (l ++ [b]) = reward_sum l + badge_xp b.
Proof. induction l as [|x l IH]; simpl; lia. Qed.

Lemma checkBadges_reward s :
  post (checkBadges clock this) s (fun r s' =>
    xp (data s') = xp (data s) + reward_sum r /\
    length (badges (data s')) = (length (badges (data s)) + length r)%nat).
Proof.
  unfold checkBadges. apply post_bind.
  eapply post_mono.
  { apply (forOf_post (fun nb s1 =>
      xp (data s1) = xp (data s) + reward_sum nb /\
      length (badges (data s1)) = (length (badges (data s)) + length nb)%nat)).
    - intros [badgeId badge] acc s1 [Hx Hl].
      unfold checkBadge, post, bind, getData. simpl.
      destruct (JS.includes _ _); simpl; [done|].
      destruct (condition badge _); simpl; [|done].
      rewrite reward_sum_snoc, !length_app, Hx, Hl. simpl. split; lia.
    - simpl. split; lia. }
  intros nb s1 [Hx Hl]. apply post_bind.
  destruct (0 <? Z.of_nat (length nb)); unfold post; simpl; done.
Qed.

(** C9. Badges are unique and only grow: every method keeps the earned
    list free of duplicates with at most one reward entry per badge id in
    the history; every method other than [reset] keeps the earned list as
    a prefix of the new one; an iteration of [checkBadges] on an id that is
    already earned changes nothing; and the XP that [checkBadges] adds is
    the sum of the rewards of the badges it newly pushes. *)
Theorem badges_unique_and_monotone (c : Call) (s : State) :
  let s' := run clock toDateString this c s in
  (badge_inv (data s) -> badge_inv (data s')) /\
  (c <> CallReset -> badges (data s) `prefix_of` badges (data s')) /\
  (forall badgeId badge nb,
     badgeId ∈ badges (data s) ->
     checkBadge clock this (badgeId, badge) nb s = (nb, s)) /\
  (let r := fst (checkBadges clock this s) in
   let s1 := snd (checkBadges clock this s) in
   xp (data s1) = xp (data s) + reward_sum r /\
   length (badges (data s1)) = (length (badges (data s)) + length r)%nat).
Proof.
  intros s'. split; [apply run_inv|]. split; [intros Hc; by apply run_grow|].
  split; [|apply checkBadges_reward].
  intros badgeId badge nb Hin. apply includes_elem_of in Hin.
  unfold checkBadge, bind, getData. simpl. rewrite Hin.
  by destruct s.
Qed.

(** ** Writes to [localStorage] *)

Section StorageFrame.

Variable k : string.
Hypothesis Hk : k <> storageKey this.

(** The entry under [k] is left as it was. *)
Definition storage_frame (s s' : State) : Prop :=
  localStorage (browser s') !! k = localStorage (browser s) !! k.

#[local] Instance storage_frame_refl : Reflexive storage_frame.
Proof. by intros s. Qed.

#[local] Instance storage_frame_trans : Transitive storage_frame.
Proof. unfold storage_frame. intros s1 s2 s3. congruence. Qed.

Lemma save_frame : preserves storage_frame (save this).
Proof.
  intros s. unfold storage_frame. simpl. by rewrite lookup_insert_ne.
Qed.

Ltac frame_calls cbsL awL usL :=
  lazymatch goal with
  | |- preserves _ (save _) => apply save_frame
  | |- preserves _ (checkBadges _ _) => apply cbsL
  | |- preserves _ (awardXP _ _ _ _) => apply awL
  | |- preserves _ (updateStreak _ _ _) => apply usL
  | |- preserves _ getData => intros ?; reflexivity
  | |- preserves _ (modifyData _) => intros ?; reflexivity
  | |- preserves _ (newDate _) => intros ?; reflexivity
  | |- preserves _ (dispatchEvent _) => intros ?; reflexivity
  | |- preserves _ (onLevelUp _ _) => intros ?; reflexivity
  end.

Lemma checkBadges_frame : preserves storage_frame (checkBadges clock this).
Proof. unfold checkBadges, checkBadge. walk ltac:(idtac; frame_calls I I I). Qed.

Lemma awardXP_frame amount source :
  preserves storage_frame (awardXP clock this amount source).
Proof. unfold awardXP. walk ltac:(idtac; frame_calls checkBadges_frame I I). Qed.

Lemma updateStreak_frame :
  preserves storage_frame (updateStreak clock toDateString this).
Proof.
  unfold updateStreak. walk ltac:(idtac; frame_calls checkBadges_frame awardXP_frame I).
Qed.

Lemma run_frame (c : Call) (s : State) :
  storage_frame s (run clock toDateString this c s).
Proof.
  revert s.
  change (preserves storage_frame (fun s => (tt, run clock toDateString this c s))).
  assert (Hsnd : forall A (m : M A),
            preserves storage_frame m ->
            preserves storage_frame (fun s => (tt, snd (m s))))
    by (intros A m Hm s; apply Hm).
  destruct c; apply Hsnd;
    [ | | | unfold logWorkout | unfold logSteps | unfold completeChallenge
      | unfold joinChallenge | | unfold reset ];
    walk ltac:(idtac; frame_calls checkBadges_frame awardXP_frame updateStreak_frame).
Qed.

End StorageFrame.

End GamificationProofs.

Section GamificationConcrete.
Import GData GamificationManager.

(** The manager that [new GamificationManager()] builds starts out with
    level and XP in agreement. *)
Lemma default_consistent : consistent constructor getDefaultData.
Proof. vm_compute. reflexivity. Qed.

Lemma default_badge_inv : badge_inv getDefaultData.
Proof.
  split; simpl; [apply NoDup_nil_2|]. intros b. split; [unfold grants; simpl; lia|done].
Qed.


End GamificationConcrete.

(** * Properties of the activity tracker *)

(** The methods of [window.Gamification] leave the entry under [k]
    alone. *)
Definition hooks_leave {G} (Gamification : option (ActivityTrackerManager.GamificationAPI G))
    (k : string) : Prop :=
  forall api, Gamification = Some api ->
  forall gb,
    (forall n, localStorage (snd (ActivityTrackerManager.api_logSteps api n gb)) !! k
               = localStorage (snd gb) !! k) /\
    (forall w, localStorage (snd (ActivityTrackerManager.api_logWorkout api w gb)) !! k
               = localStorage (snd gb) !! k).

Section ActivityProofs.
Import AData ActivityTrackerManager.

Variable G : Type.
Variable Gamification : option (GamificationAPI G).
Variable clock : nat -> Z.
Variable isoDate : Z -> string.
Variable minusDays : Z -> Z -> Z.
Variable Math_random : nat -> Z -> Z.

Variable k : string.
Hypothesis Hk : k <> storageKey.
Hypothesis Hapi : hooks_leave Gamification k.

Definition world_frame (w w' : World G) : Prop :=
  localStorage (browser w') !! k = localStorage (browser w) !! k.

#[local] Instance world_frame_refl : Reflexive world_frame.
Proof. by intros w. Qed.

#[local] Instance world_frame_trans : Transitive world_frame.
Proof. unfold world_frame. intros w1 w2 w3. congruence. Qed.

Lemma tracker_save_frame : preserves world_frame (save G).
Proof.
  intros w. unfold world_frame. simpl. by rewrite lookup_insert_ne.
Qed.

Lemma ifGamification_frame m :
  (forall api gb, Gamification = Some api ->
     localStorage (snd (m api gb)) !! k = localStorage (snd gb) !! k) ->
  preserves world_frame (ifGamification G Gamification m).
Proof.
  intros Hm w. unfold world_frame, ifGamification.
  destruct Gamification as [api|] eqn:HG; [|done].
  specialize (Hm api (gamification w, browser w) eq_refl).
  destruct (m api (gamification w, browser w)) as [g' b']. exact Hm.
Qed.

Ltac tracker_frame :=
  lazymatch goal with
  | |- preserves _ (save _) => apply tracker_save_frame
  | |- preserves _ (ifGamification _ _ _) =>
      apply ifGamification_frame; intros api gb HG;
      destruct (Hapi api HG gb) as [Hsteps Hworkout];
      first [ apply Hsteps | apply Hworkout ]
  | |- preserves _ (getData _) => intros ?; reflexivity
  | |- preserves _ (modifyData _ _) => intros ?; reflexivity
  | |- preserves _ (newDate _ _) => intros ?; reflexivity
  | |- preserves _ (dispatchEvent _ _) => intros ?; reflexivity
  end.

Lemma tracker_run_frame (c : Call) (w : World G) :
  world_frame w (run G Gamification clock isoDate minusDays Math_random c w).
Proof.
  revert w.
  change (preserves world_frame
            (fun w => (tt, run G Gamification clock isoDate minusDays Math_random c w))).
  assert (Hsnd : forall A (m : M G A),
            preserves world_frame m ->
            preserves world_frame (fun w => (tt, snd (m w))))
    by (intros A m Hm w; apply Hm).
  destruct c; apply Hsnd;
    unfold enableTracking, isEnabled, logSteps, logCalories, logActiveMinutes,
      logWater, logActivity, logWeight, setGoals, getWeekTotals, getWeekSummary,
      getStatus, resetToday, seedDemoData, dispatchUpdate, getTodaySummary,
      getDaySummary, getDay, updateDay, readDay, todayKey;
    walk ltac:(idtac; tracker_frame).
Qed.

End ActivityProofs.

(** * The two managers together *)

Section Ownership.
Import ActivityTrackerManager.

Lemma realGamification_leaves (clock : nat -> Z) (toDateString : Z -> Z) (k : string) :
  k <> "GamifyFit_gamification" ->
  hooks_leave (Some (realGamification clock toDateString)) k.
Proof.
  intros Hk api [= <-] gb. split.
  - intros n.
    apply (run_frame clock toDateString GamificationManager.constructor k Hk
             (GamificationManager.CallLogSteps n)).
  - intros w.
    apply (run_frame clock toDateString GamificationManager.constructor k Hk
             (GamificationManager.CallLogWorkout w)).
Qed.

(** C7. Each state manager owns one [localStorage] key: no method of the
    gamification manager changes the entry of a key other than
    ['GamifyFit_gamification']; no method of the activity tracker changes
    the entry of a key other than ['GamifyFit_activity'] unless one of the
    methods of [window.Gamification] that it calls does; with the real
    gamification manager installed, the entries of all keys other than
    these two are left alone. *)
Theorem each_manager_owns_one_key :
  GamificationManager.storageKey GamificationManager.constructor
    = "GamifyFit_gamification" /\
  storageKey = "GamifyFit_activity" /\
  (forall clock toDateString (c : GamificationManager.Call) s k,
     k <> "GamifyFit_gamification" ->
     localStorage (GamificationManager.browser
       (GamificationManager.run clock toDateString GamificationManager.constructor c s)) !! k
     = localStorage (GamificationManager.browser s) !! k) /\
  (forall G (Gamification : option (GamificationAPI G))
          clock isoDate minusDays Math_random (c : Call) (w : World G) k,
     k <> "GamifyFit_activity" ->
     hooks_leave Gamification k ->
     localStorage (browser (run G Gamification clock isoDate minusDays Math_random c w)) !! k
     = localStorage (browser w) !! k) /\
  (forall clock toDateString isoDate minusDays Math_random (c : Call) w k,
     k <> "GamifyFit_activity" ->
     k <> "GamifyFit_gamification" ->
     localStorage (browser (run GData.Data (Some (realGamification clock toDateString))
                              clock isoDate minusDays Math_random c w)) !! k
     = localStorage (browser w) !! k).
Proof.
  split; [reflexivity|]. split; [reflexivity|]. split; [|split].
  - intros clock toDateString c s k Hk. by apply run_frame.
  - intros G Gamification clock isoDate minusDays Math_random c w k Hk Hapi.
    by apply tracker_run_frame.
  - intros clock toDateString isoDate minusDays Math_random c w k Hk1 Hk2.
    apply tracker_run_frame; [done|]. by apply realGamification_leaves.
Qed.

End Ownership.

(** * Properties of the plan generator *)

Section PlanProofs.
Import PlanGenerator.

(** A planned exercise comes from a database entry that is within the
    difficulty allowed for the level. *)
Definition exercise_ok (level : string) (e : PlannedExercise) : Prop :=
  exists group pool x,
    exerciseDatabase group = Some pool /\ x ∈ pool /\
    difficulty x <= maxDifficultyOf level /\
    e = createExerciseWithSets x level.

Definition day_ok (level : string) (d : PlanDay) : Prop :=
  (isRest d = true /\ totalXp d = 20 /\ exercises d = None) \/
  (isRest d = false /\
   exists exs, exercises d = Some exs /\ (length exs <= 8)%nat /\
               Forall (exercise_ok level) exs).

(** What C10 says of the plan generated for [p] after [n] shuffles. *)
Definition plan_ok (shuffle : nat -> list Exercise -> list Exercise)
    (p : UserProfile) (n : nat) : Prop :=
  exists plan,
    fst (generatePlan shuffle p n) = Returns plan /\
    map day_name (days plan) = map Some dayNames /\
    Forall (day_ok (default "beginner" (fitnessLevel p))) (days plan).

Variable shuffle : nat -> list Exercise -> list Exercise.
Hypothesis shuffle_perm : forall n l, shuffle n l ≡ₚ l.

Lemma length_slice0_nonneg {A} (l : list A) (n : Z) :
  0 <= n -> (Z.of_nat (length (slice0 l n)) <= n).
Proof.
  intros Hn. unfold slice0. rewrite (proj2 (Z.leb_le 0 n) Hn).
  rewrite length_take. lia.
Qed.

Lemma slice0_subseteq {A} (l : list A) (n : Z) : slice0 l n ⊆ l.
Proof.
  unfold slice0. destruct (0 <=? n); intros x Hx;
    apply list_elem_of_lookup in Hx as [i Hi];
    apply lookup_take_Some in Hi as [Hi _];
    by eapply list_elem_of_lookup_2.
Qed.

Lemma selectExercises_ok workoutType level equipment_ duration n :
  0 <= duration ->
  post (selectExercises shuffle workoutType level equipment_ duration) n
    (fun exs _ => (length exs <= 8)%nat /\ Forall (exercise_ok level) exs).
Proof.
  intros Hd. unfold selectExercises. apply post_bind.
  eapply post_mono.
  { apply (forOf_post (fun acc (_ : nat) => Forall (exercise_ok level) acc)).
    - intros group acc m Hacc. apply post_bind. unfold post at 1, shuffled. simpl.
      unfold post. simpl. apply Forall_app. split; [exact Hacc|].
      apply Forall_forall. intros e He.
      apply list_elem_of_fmap in He as (x & -> & Hx).
      apply slice0_subseteq in Hx. rewrite shuffle_perm in Hx.
      destruct (exerciseDatabase group) as [pool|] eqn:Hpool;
        [|by apply elem_of_nil in Hx].
      apply list_elem_of_In, List.filter_In in Hx as [Hx Hf].
      apply andb_prop in Hf as [Hdiff _]. apply Z.leb_le in Hdiff.
      exists group, pool, x. split; [done|]. split; [by apply list_elem_of_In|]. done.
    - apply Forall_nil_2. }
  intros acc m Hacc. unfold post. simpl. split.
  - assert (H8 : Z.of_nat (length (slice0 acc
        (Z.min (Z.of_nat (length (getMuscleGroups workoutType))
                * exercisesPerGroupOf duration) 8))) <= 8).
    { etransitivity; [apply length_slice0_nonneg|apply Z.le_min_r].
      apply Z.min_glb; [|lia].
      apply Z.mul_nonneg_nonneg; [lia|].
      unfold exercisesPerGroupOf. apply Z.div_pos; lia. }
    lia.
  - apply Forall_forall. intros e He. apply slice0_subseteq in He.
    by eapply Forall_forall in Hacc.
Qed.

Lemma planDay_ok level equipment_ duration workoutType index n :
  0 <= duration ->
  post (planDay shuffle level equipment_ duration workoutType index) n
    (fun day _ => day_name day = dayNames !! index /\ day_ok level day).
Proof.
  intros Hd.
  assert (Hwork : post
    (exs <- selectExercises shuffle workoutType level equipment_ duration ;;
     ret {| day_name := dayNames !! index; day_date := Z.of_nat index + 1;
            day_type := getWorkoutTypeName workoutType; isRest := false;
            totalXp := calculateWorkoutXP exs;
            completed := false; exercises := Some exs |}) n
    (fun day _ => day_name day = dayNames !! index /\ day_ok level day)).
  { apply post_bind. eapply post_mono; [by apply selectExercises_ok|].
    intros exs m [Hlen Hall]. unfold post. simpl. split; [done|].
    right. split; [done|]. by exists exs. }
  destruct workoutType; try exact Hwork.
  unfold post, planDay. simpl. split; [done|]. left. done.
Qed.

(** Case analysis on the two table lookups of [getWorkoutSplit]. *)
Ltac split_cases :=
  unfold getWorkoutSplit, splits, getProperty;
  repeat (cbn [assocZ assoc];
          lazymatch goal with
          | |- context [if ?k =? ?d then _ else _] => destruct (k =? d)
          | |- context [if String.eqb ?k ?g then _ else _] => destruct (String.eqb k g)
          | |- context [if JS.includes ?l ?g then _ else _] => destruct (JS.includes l g)
          end);
  cbn [assocZ assoc].

Lemma getWorkoutSplit_length days_ goal_ split :
  getWorkoutSplit days_ goal_ = Own split -> length split = 7%nat.
Proof.
  split_cases; intros H; try discriminate H; injection H as <-; reflexivity.
Qed.

Lemma getWorkoutSplit_own days_ goal_ :
  JS.includes objectPrototypeKeys goal_ = false ->
  exists split, getWorkoutSplit days_ goal_ = Own split.
Proof. intros Hg. unfold getWorkoutSplit, getProperty. rewrite Hg. split_cases; eauto. Qed.

Lemma weeklyPlan_ok level equipment_ duration (l : list (WorkoutType * nat)) :
  0 <= duration ->
  forall acc n,
  post (forOf l
          (fun '(workoutType, index) weeklyPlan =>
             day <- planDay shuffle level equipment_ duration workoutType index ;;
             ret (weeklyPlan ++ [day])) acc) n
    (fun r _ => exists new,
       r = acc ++ new /\
       map day_name new = map (fun p => dayNames !! snd p) l /\
       Forall (day_ok level) new).
Proof.
  intros Hd. induction l as [|[wt i] l IH]; intros acc n; simpl.
  - unfold post. simpl. exists []. by rewrite app_nil_r.
  - apply post_bind. apply post_bind.
    eapply post_mono; [by apply planDay_ok|].
    intros day m [Hname Hok]. unfold post at 1. simpl.
    eapply post_mono; [apply IH|].
    intros r m' (new & -> & Hnames & Hall). simpl.
    exists (day :: new). rewrite <- app_assoc. simpl.
    split; [done|]. split; [by rewrite Hname, Hnames|]. by constructor.
Qed.

(** What the generator does deliver.  For every user profile whose
    duration is not negative and whose goal is not the name of a property
    inherited from [Object.prototype] (unrecognised [daysPerWeek] numbers
    and [goal] strings included, which fall back to the 4-day general
    split), [generatePlan] returns a plan of exactly 7 days named Mon to
    Sun in order, each either a rest day with [totalXp = 20] or a workout
    day with at most 8 exercises, each made from a database entry whose
    difficulty is at most the maximum for the profile's fitness level.
    (A [UserProfile] holds a number for [daysPerWeek] and an array for
    [equipment].) *)
Theorem generatePlan_seven_days_bounded (p : UserProfile) (n : nat) :
  0 <= default 45 (profile_duration p) ->
  JS.includes objectPrototypeKeys (default "general" (goal p)) = false ->
  plan_ok shuffle p n.
Proof.
  intros Hd Hg. unfold plan_ok, generatePlan.
  destruct (getWorkoutSplit_own (default 4 (daysPerWeek p)) _ Hg) as [split Hsplit].
  rewrite Hsplit.
  pose proof (getWorkoutSplit_length _ _ _ Hsplit) as Hlen.
  pose proof (weeklyPlan_ok (default "beginner" (fitnessLevel p))
                (default ["none"] (profile_equipment p))
                (default 45 (profile_duration p))
                (imap (fun index workoutType => (workoutType, index)) split)
                Hd [] n) as H.
  unfold post in H. destruct H as (new & Hr & Hnames & Hall). simpl in Hr.
  unfold bind at 1.
  match goal with
  | |- context [forOf ?l ?b ?a n] => destruct (forOf l b a n) as [wp m] eqn:Hrun
  end.
  simpl in *. subst wp. eexists. split; [reflexivity|]. simpl. split; [|done].
  rewrite Hnames.
  do 8 (destruct split as [|? split]; simpl in Hlen; try lia). reflexivity.
Qed.

End PlanProofs.

Section PlanConcrete.
Import PlanGenerator.

(** A database exercise is identified by its name, so the difficulty of a
    planned exercise is that of the entry it was made from. *)
Lemma exercise_names_unique :
  NoDup (map name (concat (map snd getExerciseDatabase))).
Proof. apply (bool_decide_unpack _). vm_compute. reflexivity. Qed.

Definition no_shuffle (n : nat) (l : list Exercise) : list Exercise := l.

Definition profile_negative_duration : UserProfile :=
  {| fitnessLevel := Some "advanced"; goal := None; daysPerWeek := None;
     profile_equipment := None; profile_duration := Some (-45) |}.

Definition profile_inherited_goal : UserProfile :=
  {| fitnessLevel := None; goal := Some "toString"; daysPerWeek := Some 3;
     profile_equipment := None; profile_duration := None |}.

Lemma negative_duration_day :
  exists plan day exs,
    fst (generatePlan no_shuffle profile_negative_duration 0%nat) = Returns plan /\
    days plan !! 0%nat = Some day /\ exercises day = Some exs /\
    length exs = 14%nat.
Proof. vm_compute. do 3 eexists. repeat split; reflexivity. Qed.

(** C10. The code breaks the claim at two inputs.  A negative duration
    makes [exercisesPerGroup] and [totalExercises] negative, and
    [slice(0, n)] then counts from the end, past the cap of 8 that
    [Math.min] was meant to set: the first day has 14 exercises.  A goal
    naming a property inherited from [Object.prototype] gets past the
    fallback [|| splits[4].general], because the inherited function is
    truthy, and [split.forEach] throws: no plan is returned. *)
Lemma generatePlan_counterexample :
  ~ plan_ok no_shuffle profile_negative_duration 0%nat /\
  ~ plan_ok no_shuffle profile_inherited_goal 0%nat.
Proof.
  split.
  - intros (plan & Hplan & _ & Hall).
    destruct negative_duration_day as (plan' & day & exs & Hplan' & Hday & Hexs & Hlen).
    rewrite Hplan in Hplan'. injection Hplan' as <-.
    eapply Forall_lookup_1 in Hall; [|exact Hday].
    destruct Hall as [(_ & _ & Hnone)|(_ & exs' & Hexs' & Hle & _)]; [congruence|].
    rewrite Hexs in Hexs'. injection Hexs' as <-. lia.
  - intros (plan & Hplan & _). vm_compute in Hplan. discriminate.
Qed.

End PlanConcrete.

(** * Facts about strings *)

Section StringFacts.

Lemma append_cons a s t : String a s +:+ t = String a (s +:+ t).
Proof. reflexivity. Qed.

Lemma append_nil_r s : s +:+ "" = s.
Proof. induction s as [|a s IH]; [done|]. by rewrite append_cons, IH. Qed.

Lemma append_assoc s t u : (s +:+ t) +:+ u = s +:+ t +:+ u.
Proof. induction s as [|a s IH]; [done|]. by rewrite !append_cons, IH. Qed.

Lemma rev_app_rev_app s1 s2 s3 :
  String.rev_app (String.rev_app s1 s2) s3 = String.rev_app s2 (s1 +:+ s3).
Proof.
  revert s2 s3. induction s1 as [|a s1 IH]; intros s2 s3; [done|].
  rewrite append_cons. simpl. by rewrite IH.
Qed.

Lemma rev_involutive s : String.rev (String.rev s) = s.
Proof. unfold String.rev. rewrite rev_app_rev_app. apply append_nil_r. Qed.

Lemma rev_app_append s t : String.rev_app s t = String.rev s +:+ t.
Proof.
  unfold String.rev. revert t. induction s as [|a s IH]; intros t; [done|].
  simpl. rewrite (IH (String a t)), (IH (String a "")), append_assoc. reflexivity.
Qed.

Lemma rev_append s t : String.rev (s +:+ t) = String.rev t +:+ String.rev s.
Proof.
  unfold String.rev at 1. revert t. induction s as [|a s IH]; intros t.
  - change ("" +:+ t) with t. by rewrite append_nil_r.
  - rewrite append_cons. simpl.
    assert (H : forall u v, String.rev_app (u +:+ t) v
                            = String.rev_app t (String.rev_app u v)).
    { clear. induction u as [|b u IHu]; intros v; [done|].
      rewrite append_cons. simpl. apply IHu. }
    rewrite H, rev_app_append. reflexivity.
Qed.

(** [s] begins with [p], ends with [p], contains [p]. *)
Definition has_prefix (s p : string) : Prop := exists post, s = p +:+ post.
Definition has_suffix (s p : string) : Prop := exists pre, s = pre +:+ p.
Definition occurs_in (p s : string) : Prop := exists pre post, s = pre +:+ p +:+ post.

Lemma prefix_has_prefix p s : String.prefix p s = true <-> has_prefix s p.
Proof.
  unfold has_prefix. revert s. induction p as [|a p IH]; intros s.
  - split; [intros _; by exists s|intros _; by destruct s].
  - destruct s as [|b s]; simpl.
    + split; [done|]. intros [post H]. rewrite append_cons in H. discriminate H.
    + destruct (Ascii.ascii_dec a b) as [->|Hne].
      * rewrite IH. split; intros [post H]; exists post.
        -- by rewrite append_cons, H.
        -- rewrite append_cons in H. by injection H.
      * split; [done|]. intros [post H]. rewrite append_cons in H.
        injection H as H1 H2. congruence.
Qed.

Lemma startsWith_has_prefix s p : JS.startsWith s p = true <-> has_prefix s p.
Proof. apply prefix_has_prefix. Qed.

Lemma endsWith_has_suffix s p : JS.endsWith s p = true <-> has_suffix s p.
Proof.
  unfold JS.endsWith. rewrite prefix_has_prefix. split.
  - intros [post H]. exists (String.rev post).
    rewrite <- (rev_involutive s), H, rev_append. by rewrite rev_involutive.
  - intros [pre ->]. exists (String.rev pre). apply rev_append.
Qed.

Lemma str_includes_unfold s p :
  JS.str_includes s p
  = if String.prefix p s then true
    else match s with
         | EmptyString => false
         | String _ s' => JS.str_includes s' p
         end.
Proof. by destruct s. Qed.

Lemma str_includes_occurs_in s p : JS.str_includes s p = true <-> occurs_in p s.
Proof.
  unfold occurs_in. split.
  - induction s as [|a s IH]; rewrite str_includes_unfold;
      destruct (String.prefix p _) eqn:Hp.
    + intros _. apply prefix_has_prefix in Hp as [post ->]. by exists "", post.
    + done.
    + intros _. apply prefix_has_prefix in Hp as [post ->]. by exists "", post.
    + intros H. destruct (IH H) as (pre & post & ->). by exists (String a pre), post.
  - intros (pre & post & ->). induction pre as [|a pre IH].
    + rewrite str_includes_unfold.
      assert (H : String.prefix p ("" +:+ p +:+ post) = true)
        by (apply prefix_has_prefix; by exists post).
      by rewrite H.
    + rewrite str_includes_unfold, append_cons.
      destruct (String.prefix p _); [done|exact IH].
Qed.

End StringFacts.

(** * Properties of the service worker *)

Section FetchProofs.
Import ServiceWorker.

(** The URL classes as the specification words them: a URL "matches an
    API endpoint" when its text contains one of the three endpoint
    strings, and "is a static asset" when its path ends in one of the ten
    extensions or is on the precache list. *)
Definition api_url (u : URL) : Prop :=
  occurs_in "/backend/api.php" (href u) \/
  occurs_in "/api/" (href u) \/
  occurs_in "https://www.googleapis.com/fitness/" (href u).

Definition static_url (u : URL) : Prop :=
  (exists ext,
     ext ∈ [".css"; ".js"; ".png"; ".jpg"; ".jpeg"; ".gif"; ".svg"; ".ico";
            ".woff"; ".woff2"] /\
     has_suffix (pathname u) ext) \/
  pathname u ∈ STATIC_ASSETS.

(** The selection rule: the first of four tests that succeeds decides. *)
Inductive chosen (request : Request) : Strategy -> Prop :=
| chosen_api :
    api_url (url request) ->
    chosen request (NetworkFirstWithCache API_CACHE)
| chosen_static :
    ~ api_url (url request) ->
    static_url (url request) ->
    chosen request (CacheFirstWithNetwork CACHE_NAME)
| chosen_navigate :
    ~ api_url (url request) ->
    ~ static_url (url request) ->
    mode request = "navigate" ->
    chosen request NavigationHandler
| chosen_other :
    ~ api_url (url request) ->
    ~ static_url (url request) ->
    mode request <> "navigate" ->
    chosen request (StaleWhileRevalidate DYNAMIC_CACHE).

Lemma chosen_unique request s1 s2 :
  chosen request s1 -> chosen request s2 -> s1 = s2.
Proof.
  intros H1 H2. inversion H1; subst; inversion H2; subst; done.
Qed.

Lemma isStaticAsset_spec (u : URL) :
  isStaticAsset u = true <->
  (exists ext, ext ∈ staticExtensions /\ JS.endsWith (pathname u) ext = true) \/
  pathname u ∈ STATIC_ASSETS.
Proof.
  unfold isStaticAsset. rewrite orb_true_iff, existsb_exists, includes_elem_of.
  split; (intros [(ext & Hin & He)|H]; [left|by right]); exists ext;
    (split; [by apply list_elem_of_In|done]).
Qed.

Lemma isStaticAsset_static_url (u : URL) : isStaticAsset u = true <-> static_url u.
Proof.
  rewrite isStaticAsset_spec. unfold static_url, staticExtensions.
  split; (intros [(ext & Hin & He)|H]; [left|by right]); exists ext;
    (split; [done|by apply endsWith_has_suffix]).
Qed.

Lemma isApiRequest_api_url (u : URL) : isApiRequest u = true <-> api_url u.
Proof.
  unfold isApiRequest, api_url, API_ENDPOINTS. simpl.
  rewrite orb_false_r, !orb_true_iff, !str_includes_occurs_in. tauto.
Qed.

Lemma fetchListener_handled request :
  method request = "GET" ->
  has_prefix (protocol (url request)) "http" ->
  exists s, fetchListener request = Some s /\ chosen request s.
Proof.
  intros Hm Hp%startsWith_has_prefix. unfold fetchListener. rewrite Hm, Hp. simpl.
  destruct (isApiRequest (url request)) eqn:Hapi.
  { eexists. split; [reflexivity|]. constructor. by apply isApiRequest_api_url. }
  assert (Hnapi : ~ api_url (url request)).
  { intros H. apply isApiRequest_api_url in H. congruence. }
  destruct (isStaticAsset (url request)) eqn:Hstatic.
  { eexists. split; [reflexivity|]. constructor; [done|].
    by apply isStaticAsset_static_url. }
  assert (Hnstatic : ~ static_url (url request)).
  { intros H. apply isStaticAsset_static_url in H. congruence. }
  destruct (String.eqb_spec (mode request) "navigate") as [Hnav|Hnav].
  { eexists. split; [reflexivity|]. by constructor. }
  eexists. split; [reflexivity|]. by constructor.
Qed.

(** C3. For a GET request whose URL protocol begins with [http] (as
    [http:] and [https:] do), the fetch listener responds with exactly one
    strategy, the one the priority order selects: network-first when the
    URL contains [/backend/api.php], [/api/] or
    [https://www.googleapis.com/fitness/]; else cache-first when the path
    ends in one of the ten static extensions or is on the precache list;
    else the navigation handler for mode [navigate]; else
    stale-while-revalidate.  Any other request is not handled. *)
Theorem fetchListener_selects_by_priority (request : Request) :
  (method request = "GET" ->
   has_prefix (protocol (url request)) "http" ->
   exists s, fetchListener request = Some s /\ chosen request s /\
             forall s', chosen request s' -> s' = s) /\
  (method request <> "GET" -> fetchListener request = None) /\
  (~ has_prefix (protocol (url request)) "http" -> fetchListener request = None).
Proof.
  split; [|split].
  - intros Hm Hp. destruct (fetchListener_handled request Hm Hp) as (s & Hs & Hc).
    exists s. split; [done|]. split; [done|].
    intros s' Hs'. by eapply chosen_unique.
  - intros Hm. unfold fetchListener.
    destruct (String.eqb_spec (method request) "GET"); [done|reflexivity].
  - intros Hp. unfold fetchListener.
    destruct (JS.startsWith (protocol (url request)) "http") eqn:Hs.
    + exfalso. apply Hp. by apply startsWith_has_prefix.
    + by destruct (negb (String.eqb (method request) "GET")).
Qed.

(** ** Responses when the network fails *)

Variable origin : string.

(** C2 as stated: the response is a response cached for the request, or
    the offline page. *)
Definition cached_or_offline_page (request : Request) (caches : CacheStorage)
    (r : option Response) : Prop :=
  (exists c, r = Some c /\ caches_match caches (href (url request)) = Some c) \/
  r = caches_match caches (offlineUrl origin).

(** The response cached for the request; or else, when there is none, the
    page cached for [/offline.html]; or else, when that is not cached
    either, nothing ([undefined]). *)
Definition cached_else_offline_page (request : Request) (caches : CacheStorage)
    (r : option Response) : Prop :=
  (exists c, caches_match caches (href (url request)) = Some c /\ r = Some c) \/
  (caches_match caches (href (url request)) = None /\
   exists page, caches_match caches (offlineUrl origin) = Some page /\ r = Some page) \/
  (caches_match caches (href (url request)) = None /\
   caches_match caches (offlineUrl origin) = None /\ r = None).

Lemma cache_of_caches_open caches cacheName :
  cache_of (caches_open caches cacheName) cacheName = cache_of caches cacheName.
Proof.
  induction caches as [|[n c] caches IH]; simpl.
  - by rewrite String.eqb_refl.
  - destruct (String.eqb n cacheName) eqn:Hn; simpl; rewrite Hn; [done|apply IH].
Qed.

(** C2, as amended. When [fetch] throws on an intercepted GET request:
    cache-first and the navigation handler answer with the response cached
    for the request, or else with the cached [/offline.html] page (and with
    nothing only when neither is cached); network-first answers with the
    response cached for the request, or else with the 503 JSON offline
    response; stale-while-revalidate answers with the response its cache
    holds for the request, when there is one. *)
Theorem offline_fallback_by_strategy (request : Request) (caches : CacheStorage)
    (s : Strategy) :
  fetchListener request = Some s ->
  let r := fst (respondWith origin s request NetworkError caches) in
  match s with
  | CacheFirstWithNetwork _ | NavigationHandler =>
      cached_else_offline_page request caches r
  | NetworkFirstWithCache _ =>
      (exists c, r = Some c /\ caches_match caches (href (url request)) = Some c) \/
      (caches_match caches (href (url request)) = None /\ r = Some offlineJson)
  | StaleWhileRevalidate cacheName =>
      forall c, cache_of caches cacheName !! href (url request) = Some c -> r = Some c
  end.
Proof.
  intros _ r. subst r.
  assert (Hpage : forall o,
            caches_match caches (href (url request)) = None ->
            o = caches_match caches (offlineUrl origin) ->
            cached_else_offline_page request caches o).
  { intros o Hnone ->. right.
    destruct (caches_match caches (offlineUrl origin)) as [page|] eqn:Hoff.
    - left. split; [done|]. by exists page.
    - right. done. }
  destruct s as [cacheName|cacheName| |cacheName]; simpl.
  - unfold networkFirstWithCache.
    destruct (caches_match caches (href (url request))) as [c|]; simpl; eauto.
  - unfold cacheFirstWithNetwork.
    destruct (caches_match caches (href (url request))) as [c|] eqn:Hc; simpl.
    + left. by exists c.
    + by apply Hpage.
  - unfold navigationHandler.
    destruct (caches_match caches (href (url request))) as [c|] eqn:Hc; simpl.
    + left. by exists c.
    + by apply Hpage.
  - intros c Hc. rewrite cache_of_caches_open, Hc. reflexivity.
Qed.

End FetchProofs.

Section FetchConcrete.
Import ServiceWorker.

Definition example_origin : string := "https://gamifyfit.example".

Definition api_request : Request :=
  {| method := "GET";
     url := {| href := "https://gamifyfit.example/backend/api.php?action=leaderboard";
               protocol := "https:";
               pathname := "/backend/api.php" |};
     mode := "cors" |}.

Definition offline_page : Response :=
  {| status := 200; contentType := "text/html"; body := Text "offline" |}.

Definition precached : CacheStorage :=
  [(CACHE_NAME, {[ offlineUrl example_origin := offline_page ]})].

(** C2 as stated fails for an API request that was never cached: the
    worker answers with the 503 JSON body, not with the offline page. *)
Lemma api_request_gets_json_not_offline_page :
  fetchListener api_request = Some (NetworkFirstWithCache API_CACHE) /\
  ~ cached_or_offline_page example_origin api_request precached
      (fst (respondWith example_origin (NetworkFirstWithCache API_CACHE)
              api_request NetworkError precached)).
Proof.
  split; [vm_compute; reflexivity|].
  intros [(c & _ & Hc)|H].
  - vm_compute in Hc. discriminate.
  - vm_compute in H. discriminate.
Qed.

(** In [staleWhileRevalidate] the fallback to the offline page is never
    reached: without an entry in its cache, a failed fetch resolves to
    [null] even though the offline page is cached. *)
Lemma staleWhileRevalidate_uncached_failure_is_null :
  fst (staleWhileRevalidate
         {| method := "GET";
            url := {| href := "https://gamifyfit.example/data/tips";
                      protocol := "https:"; pathname := "/data/tips" |};
            mode := "cors" |}
         DYNAMIC_CACHE NetworkError precached) = None /\
  caches_match precached (offlineUrl example_origin) = Some offline_page.
Proof. split; vm_compute; reflexivity. Qed.

End FetchConcrete.

Section SyncProofs.
Import ServiceWorker.

(** The POST for item [id] came back with an ok status. *)
Definition delivered (env : SyncEnv) (id : Z) : bool :=
  match net env id with
  | Fetched response => ok response
  | NetworkError => false
  end.

(** The IndexedDB requests of the event all succeed. *)
Definition store_works (env : SyncEnv) : Prop :=
  opens env = true /\ reads env = true /\ forall key, deletes env key = true.

(** The handler that the [sync] listener runs for [tag] processes
    [item]. *)
Definition processed (tag : string) (item : QueuedAction) : Prop :=
  (tag = "sync-challenge-completion" /\ action_type item = "challenge_complete") \/
  (tag = "sync-activity-data" /\ action_type item = "activity_data").

Definition endpoint_of (tag : string) : string :=
  if String.eqb tag "sync-challenge-completion"
  then "/backend/api.php?action=complete_challenge"
  else "/backend/api.php?action=save_activity".

Section Loop.

Variables actionType endpoint : string.
Variable env : SyncEnv.

Lemma sync_loop_kept (queue : list (Z * QueuedAction)) db posts id :
  (forall a, (id, a) ∈ queue -> action_type a = actionType -> delivered env id = false) ->
  fst (foldl (syncItem actionType endpoint env) (db, posts) queue) !! id = db !! id.
Proof.
  revert db posts. induction queue as [|[i a] queue IH]; intros db posts Hid; [done|].
  assert (Hrest : forall a', (id, a') ∈ queue -> action_type a' = actionType ->
                             delivered env id = false).
  { intros a' Hin. apply Hid. by right. }
  simpl. destruct (String.eqb_spec (action_type a) actionType) as [Hty|Hty];
    [|by apply IH].
  destruct (net env i) as [|response] eqn:Hnet; [by apply IH|].
  destruct (ok response) eqn:Hok; [|by apply IH].
  destruct (deletes env i); [|by apply IH].
  rewrite IH by done. unfold deleteFromStore.
  destruct (decide (i = id)) as [->|Hne]; [|by rewrite lookup_delete_ne].
  specialize (Hid a (list_elem_of_here _ _) Hty).
  unfold delivered in Hid. rewrite Hnet in Hid. congruence.
Qed.

Lemma sync_loop_gone (queue : list (Z * QueuedAction)) db posts id :
  db !! id = None ->
  fst (foldl (syncItem actionType endpoint env) (db, posts) queue) !! id = None.
Proof.
  revert db posts. induction queue as [|[i a] queue IH]; intros db posts Hnone; [done|].
  simpl. destruct (String.eqb (action_type a) actionType); [|by apply IH].
  destruct (net env i) as [|response]; [by apply IH|].
  destruct (ok response); [|by apply IH].
  destruct (deletes env i); [|by apply IH].
  apply IH. unfold deleteFromStore. rewrite lookup_delete. by case_decide.
Qed.

Lemma sync_loop_deleted (queue : list (Z * QueuedAction)) db posts id a :
  (id, a) ∈ queue -> action_type a = actionType ->
  delivered env id = true -> deletes env id = true ->
  fst (foldl (syncItem actionType endpoint env) (db, posts) queue) !! id = None.
Proof.
  revert db posts. induction queue as [|[i a'] queue IH];
    intros db posts Hin Hty Hd Hdel.
  { by apply elem_of_nil in Hin. }
  simpl. apply elem_of_cons in Hin as [[= <- <-]|Hin].
  - rewrite <- (String.eqb_eq (action_type a) actionType) in Hty. rewrite Hty.
    unfold delivered in Hd. destruct (net env id) as [|response]; [done|].
    rewrite Hd, Hdel.
    apply sync_loop_gone. unfold deleteFromStore. apply lookup_delete_eq.
  - destruct (String.eqb (action_type a') actionType); [|by eapply IH].
    destruct (net env i) as [|response]; [by eapply IH|].
    destruct (ok response); [|by eapply IH].
    destruct (deletes env i); by eapply IH.
Qed.

Lemma sync_loop_posts_grow (queue : list (Z * QueuedAction)) db posts p :
  p ∈ posts -> p ∈ snd (foldl (syncItem actionType endpoint env) (db, posts) queue).
Proof.
  revert db posts. induction queue as [|[i a] queue IH]; intros db posts Hp; [done|].
  simpl. destruct (String.eqb (action_type a) actionType); [|by apply IH].
  assert (Hp' : p ∈ posts ++ [{| post_url := endpoint; post_body := payload a |}])
    by (apply elem_of_app; by left).
  destruct (net env i) as [|response]; [by apply IH|].
  destruct (ok response); [|by apply IH].
  destruct (deletes env i); by apply IH.
Qed.

Lemma sync_loop_posts (queue : list (Z * QueuedAction)) db posts id a :
  (id, a) ∈ queue -> action_type a = actionType ->
  {| post_url := endpoint; post_body := payload a |}
    ∈ snd (foldl (syncItem actionType endpoint env) (db, posts) queue).
Proof.
  revert db posts. induction queue as [|[i a'] queue IH]; intros db posts Hin Hty.
  { by apply elem_of_nil in Hin. }
  simpl. apply elem_of_cons in Hin as [[= <- <-]|Hin].
  - rewrite <- (String.eqb_eq (action_type a) actionType) in Hty. rewrite Hty.
    assert (Hp : {| post_url := endpoint; post_body := payload a |}
                 ∈ posts ++ [{| post_url := endpoint; post_body := payload a |}])
      by (apply elem_of_app; right; by apply list_elem_of_singleton).
    destruct (net env id) as [|response]; [by apply sync_loop_posts_grow|].
    destruct (ok response); [|by apply sync_loop_posts_grow].
    destruct (deletes env id); by apply sync_loop_posts_grow.
  - destruct (String.eqb (action_type a') actionType); [|by apply IH].
    destruct (net env i) as [|response]; [by apply IH|].
    destruct (ok response); [|by apply IH].
    destruct (deletes env i); by apply IH.
Qed.

End Loop.

Lemma syncListener_handler tag item :
  processed tag item ->
  forall env db,
    syncListener tag env db = syncQueue (action_type item) (endpoint_of tag) env db.
Proof.
  intros [[-> Hty]|[-> Hty]] env db; rewrite Hty; reflexivity.
Qed.

(** An item that was not delivered is still there, whatever the store
    does. *)
Lemma syncListener_keeps tag env db id item :
  db !! id = Some item -> processed tag item -> delivered env id = false ->
  fst (syncListener tag env db) !! id = Some item.
Proof.
  intros Hitem Hproc Hd. rewrite (syncListener_handler tag item Hproc).
  unfold syncQueue. destruct (opens env && reads env); [|done].
  rewrite (sync_loop_kept _ _ env _ db [] id); [done|]. intros; done.
Qed.

Lemma syncListener_deletes tag env db id item :
  db !! id = Some item -> processed tag item -> store_works env ->
  delivered env id = true ->
  fst (syncListener tag env db) !! id = None.
Proof.
  intros Hitem Hproc (Ho & Hr & Hdel) Hd.
  rewrite (syncListener_handler tag item Hproc).
  unfold syncQueue. rewrite Ho, Hr. simpl.
  eapply sync_loop_deleted; [|reflexivity|done|done].
  by apply elem_of_map_to_list.
Qed.

Lemma syncListener_posts tag env db id item :
  db !! id = Some item -> processed tag item ->
  opens env = true -> reads env = true ->
  {| post_url := endpoint_of tag; post_body := payload item |}
    ∈ snd (syncListener tag env db).
Proof.
  intros Hitem Hproc Ho Hr. rewrite (syncListener_handler tag item Hproc).
  unfold syncQueue. rewrite Ho, Hr. simpl.
  eapply (sync_loop_posts _ _ env _ db [] id); [|reflexivity].
  by apply elem_of_map_to_list.
Qed.

(** C1, as amended. When the IndexedDB requests of a sync event succeed
    (the database opens, the queue is read, and the delete is not
    rejected), an item of the offline sync queue that the handler
    processes is gone from the queue afterwards if and only if the POST
    for it came back with an ok (2xx) status.  Whatever IndexedDB does,
    after a network error or a non-ok response the queue holds the item
    unchanged; and after any number of sync events that failed for it, the
    item is still there and the next sync event that can read the queue
    posts it again: no counter, limit or backoff. *)
Theorem sync_deletes_iff_ok (tag : string) (env : SyncEnv)
    (db : gmap Z QueuedAction) (id : Z) (item : QueuedAction) :
  db !! id = Some item ->
  processed tag item ->
  let db' := fst (syncListener tag env db) in
  (store_works env -> (db' !! id = None <-> delivered env id = true)) /\
  (delivered env id = false -> db' !! id = Some item) /\
  (forall (envs : list SyncEnv) (env' : SyncEnv),
     Forall (fun e => delivered e id = false) envs ->
     let later := syncEvents tag envs db in
     later !! id = Some item /\
     (opens env' = true -> reads env' = true ->
      {| post_url := endpoint_of tag; post_body := payload item |}
        ∈ snd (syncListener tag env' later))).
Proof.
  intros Hitem Hproc db'. split; [|split].
  - intros Hworks. subst db'. destruct (delivered env id) eqn:Hd.
    + rewrite (syncListener_deletes tag env db id item) by done. done.
    + rewrite (syncListener_keeps tag env db id item) by done. done.
  - intros Hd. by apply syncListener_keeps.
  - intros envs env' Hfail later.
    assert (Hlater : later !! id = Some item).
    { subst later. clear db'. revert db Hitem.
      induction Hfail as [|e envs He Hfail IH]; intros db Hitem; [done|].
      simpl. apply IH. by apply syncListener_keeps. }
    split; [done|]. intros Ho Hr.
    by apply (syncListener_posts tag env' later id item).
Qed.

(** Items that the handler does not process stay in the queue. *)
Lemma sync_leaves_other_items tag env db id item :
  db !! id = Some item -> ~ processed tag item ->
  fst (syncListener tag env db) !! id = Some item.
Proof.
  intros Hitem Hnot. unfold syncListener, processed in *.
  assert (Hin : forall a, (id, a) ∈ getAllFromStore db -> a = item).
  { intros a Ha. apply elem_of_map_to_list in Ha. congruence. }
  destruct (String.eqb_spec tag "sync-challenge-completion") as [->|_];
    [|destruct (String.eqb_spec tag "sync-activity-data") as [->|_]; [|done]].
  - unfold syncChallengeCompletions, syncQueue.
    destruct (opens env && reads env); [|done].
    rewrite (sync_loop_kept _ _ env _ db [] id); [done|].
    intros a Ha Hty. apply Hin in Ha as ->. exfalso. apply Hnot. by left.
  - unfold syncActivityData, syncQueue.
    destruct (opens env && reads env); [|done].
    rewrite (sync_loop_kept _ _ env _ db [] id); [done|].
    intros a Ha Hty. apply Hin in Ha as ->. exfalso. apply Hnot. by right.
Qed.

End SyncProofs.

(** * Properties of the OAuth callback *)

Section OAuthProofs.
Import OAuthCallback.

Variable encodeURIComponent : string -> string.

(** The request gets past the two checks made before the [try] block. *)
Definition reaches_exchange (req : Req) : Prop :=
  truthy (query_error req) = false /\
  query_state req = cookie (parseCookies (header_cookie req)) "oauth_state".

(** Something inside the [try] block throws. *)
Definition exception_thrown (env : Env) (req : Req) : Prop :=
  match fetchToken env (tokenRequestBody env req) with
  | TokenFetchThrows => True
  | TokenNotOk textThrows => textThrows = true
  | TokenOk None => True
  | TokenOk (Some access_token) =>
      match fetchUserInfo env ("Bearer " +:+ access_token) with
      | UserFetchThrows => True
      | UserNotOk => False
      | UserOk None => True
      | UserOk (Some user) => signJWT env user = None
      end
  end.

(** The ways authentication fails, each with the value of the [error]
    parameter that names it. *)
Inductive auth_failure (env : Env) (req : Req) : string -> Prop :=
| provider_error e :
    query_error req = Some e -> e <> "" ->
    auth_failure env req (encodeURIComponent e)
| state_mismatch :
    truthy (query_error req) = false ->
    query_state req <> cookie (parseCookies (header_cookie req)) "oauth_state" ->
    auth_failure env req "invalid_state"
| token_exchange_not_ok :
    reaches_exchange req ->
    fetchToken env (tokenRequestBody env req) = TokenNotOk false ->
    auth_failure env req "token_exchange_failed"
| userinfo_not_ok access_token :
    reaches_exchange req ->
    fetchToken env (tokenRequestBody env req) = TokenOk (Some access_token) ->
    fetchUserInfo env ("Bearer " +:+ access_token) = UserNotOk ->
    auth_failure env req "failed_to_get_user"
| exception :
    reaches_exchange req ->
    exception_thrown env req ->
    auth_failure env req "callback_failed".

Lemma handler_reaches env req :
  reaches_exchange req -> handler encodeURIComponent env req = tryBlock env req.
Proof.
  intros [He Hs]. unfold handler. rewrite He.
  by rewrite bool_decide_eq_true_2.
Qed.

(** C5. Whenever authentication fails in the OAuth callback (the
    provider reports an error, the state does not match the [oauth_state]
    cookie, the token exchange is not ok, the userinfo request is not ok,
    or something throws), the handler answers with a 302 redirect to
    [/auth.html?error=<code>], the code naming the failure, and sets no
    cookie. *)
Theorem auth_failure_redirects_without_session (env : Env) (req : Req) (code : string) :
  auth_failure env req code ->
  handler encodeURIComponent env req =
    {| statusCode := 302;
       location := "/auth.html?error=" +:+ code;
       setCookie := [] |}.
Proof.
  intros Hfail. destruct Hfail as [e He Hne|He Hs|Hr Ht|t Hr Ht Hu|Hr Hex].
  - unfold handler, truthy. rewrite He.
    destruct (String.eqb_spec e ""); [done|reflexivity].
  - unfold handler. rewrite He. by rewrite bool_decide_eq_false_2.
  - rewrite handler_reaches by done. unfold tryBlock. by rewrite Ht.
  - rewrite handler_reaches by done. unfold tryBlock. by rewrite Ht, Hu.
  - rewrite handler_reaches by done. unfold tryBlock, exception_thrown in *.
    destruct (fetchToken env (tokenRequestBody env req)) as [|textThrows|[t|]];
      [done|by rewrite Hex| |done].
    destruct (fetchUserInfo env ("Bearer " +:+ t)) as [| |[user|]];
      [done|done| |done].
    by rewrite Hex.
Qed.

(** Every request either fails in one of these ways or is granted a
    session: the listed failures are all there are. *)
Lemma handler_fails_or_grants (env : Env) (req : Req) :
  (exists code, auth_failure env req code) \/
  (exists cookieOptions,
     handler encodeURIComponent env req =
       {| statusCode := 302; location := "/onboarding.html";
          setCookie := [cookieOptions; "oauth_state=; Path=/; HttpOnly; Max-Age=0"] |}).
Proof.
  destruct (truthy (query_error req)) eqn:He.
  { left. unfold truthy in He. destruct (query_error req) as [e|] eqn:Hq; [|done].
    exists (encodeURIComponent e). apply provider_error; [done|].
    intros ->. done. }
  destruct (decide (query_state req
                    = cookie (parseCookies (header_cookie req)) "oauth_state"))
    as [Hs|Hs]; [|left; eexists; by apply state_mismatch].
  assert (Hr : reaches_exchange req) by done.
  rewrite handler_reaches by done. unfold tryBlock.
  destruct (fetchToken env (tokenRequestBody env req)) as [|[|]|[t|]] eqn:Ht.
  - left. eexists. apply exception; [done|]. unfold exception_thrown. by rewrite Ht.
  - left. eexists. apply exception; [done|]. unfold exception_thrown. by rewrite Ht.
  - left. eexists. by apply token_exchange_not_ok.
  - destruct (fetchUserInfo env ("Bearer " +:+ t)) as [| |[user|]] eqn:Hu.
    + left. eexists. apply exception; [done|]. unfold exception_thrown. by rewrite Ht, Hu.
    + left. eexists. by eapply userinfo_not_ok.
    + destruct (signJWT env user) as [tok|] eqn:Hsig.
      * right. eexists. reflexivity.
      * left. eexists. apply exception; [done|].
        unfold exception_thrown. by rewrite Ht, Hu.
    + left. eexists. apply exception; [done|]. unfold exception_thrown. by rewrite Ht, Hu.
  - left. eexists. apply exception; [done|]. unfold exception_thrown. by rewrite Ht.
Qed.

End OAuthProofs.

(** * The theorems at concrete inputs *)

Section Witnesses.

(** A clock that advances one millisecond per reading, and UTC days. *)
Definition clock0 (n : nat) : Z := 1700000000000 + Z.of_nat n.
Definition toDateString0 (t : Z) : Z := t / 86400000.

Definition browser0 : Browser :=
  {| localStorage := ∅; dispatched := []; ticks := 0 |}.

Definition fresh : GamificationManager.State :=
  {| GamificationManager.data := GamificationManager.getDefaultData;
     GamificationManager.browser := browser0 |}.

(** A state whose last activity was [daysAgo] days before the next clock
    reading, with a streak of 3. *)
Definition active (daysAgo : Z) : GamificationManager.State :=
  {| GamificationManager.data :=
       GamificationManager.with_streak
         {| GData.current := 3; GData.longest := 5;
            GData.lastActivity := Some (clock0 0 - daysAgo * 86400000) |}
         GamificationManager.getDefaultData;
     GamificationManager.browser := browser0 |}.

Lemma level_xp_consistency_witness :
  xp_mutating (GamificationManager.CallLogSteps 250) = true /\
  consistent GamificationManager.constructor (GamificationManager.data fresh) /\
  consistent GamificationManager.constructor
    (GamificationManager.data
       (GamificationManager.run clock0 toDateString0 GamificationManager.constructor
          (GamificationManager.CallLogSteps 250) fresh)).
Proof.
  split; [reflexivity|]. split; [vm_compute; reflexivity|].
  apply (level_xp_consistency clock0 toDateString0 GamificationManager.constructor
           (GamificationManager.CallLogSteps 250) fresh eq_refl).
  vm_compute. reflexivity.
Defined.


Lemma badges_unique_and_monotone_witness :
  badge_inv (GamificationManager.data fresh) /\
  GamificationManager.CallLogWorkout
    {| GamificationManager.w_duration := Some 45;
       GamificationManager.w_calories := Some 300;
       GamificationManager.w_type := None |} <> GamificationManager.CallReset /\
  let s' := GamificationManager.run clock0 toDateString0 GamificationManager.constructor
              (GamificationManager.CallLogWorkout
                 {| GamificationManager.w_duration := Some 45;
                    GamificationManager.w_calories := Some 300;
                    GamificationManager.w_type := None |}) fresh in
  badge_inv (GamificationManager.data s') /\
  GData.badges (GamificationManager.data fresh)
    `prefix_of` GData.badges (GamificationManager.data s').
Proof.
  split; [apply default_badge_inv|]. split; [discriminate|].
  intros s'.
  destruct (badges_unique_and_monotone clock0 toDateString0
              GamificationManager.constructor
              (GamificationManager.CallLogWorkout
                 {| GamificationManager.w_duration := Some 45;
                    GamificationManager.w_calories := Some 300;
                    GamificationManager.w_type := None |}) fresh)
    as (Hinv & Hgrow & _).
  split; [apply Hinv, default_badge_inv|apply Hgrow; discriminate].
Defined.

Definition world0 : ActivityTrackerManager.World GData.Data :=
  {| ActivityTrackerManager.data := ActivityTrackerManager.load ∅;
     ActivityTrackerManager.gamification := GamificationManager.getDefaultData;
     ActivityTrackerManager.browser := browser0 |}.

Definition isoDate0 (t : Z) : string :=
  if t <? 1700006400000 then "2023-11-14" else "2023-11-15".

Lemma each_manager_owns_one_key_witness :
  "GamifyFit_workout_plan" <> "GamifyFit_activity" /\
  "GamifyFit_workout_plan" <> "GamifyFit_gamification" /\
  localStorage (ActivityTrackerManager.browser
    (ActivityTrackerManager.run GData.Data
       (Some (ActivityTrackerManager.realGamification clock0 toDateString0))
       clock0 isoDate0 (fun t i => t - i * 86400000) (fun _ _ => 0)
       (ActivityTrackerManager.CallLogSteps 250) world0)) !! "GamifyFit_workout_plan"
  = localStorage (ActivityTrackerManager.browser world0) !! "GamifyFit_workout_plan".
Proof.
  split; [discriminate|]. split; [discriminate|].
  destruct each_manager_owns_one_key as (_ & _ & _ & _ & H).
  apply H; discriminate.
Defined.

Definition challenge_item : ServiceWorker.QueuedAction :=
  {| ServiceWorker.action_type := "challenge_complete";
     ServiceWorker.payload := "challenge 7";
     ServiceWorker.queued_at := 1700000000000;
     ServiceWorker.synced := false |}.

Definition offline_env : ServiceWorker.SyncEnv :=
  {| ServiceWorker.net := fun _ => ServiceWorker.NetworkError;
     ServiceWorker.opens := true;
     ServiceWorker.reads := true;
     ServiceWorker.deletes := fun _ => true |}.

(** IndexedDB rejects every delete; the backend answers every POST with
    200. *)
Definition rejecting_env : ServiceWorker.SyncEnv :=
  {| ServiceWorker.net := fun _ =>
       ServiceWorker.Fetched
         {| ServiceWorker.status := 200;
            ServiceWorker.contentType := "application/json";
            ServiceWorker.body := ServiceWorker.Json [("success", "true")] |};
     ServiceWorker.opens := true;
     ServiceWorker.reads := true;
     ServiceWorker.deletes := fun _ => false |}.

(** C1 as stated fails when IndexedDB rejects the delete: the rejection
    lands in the inner [catch], so the POST was answered with an ok status
    and the item is still in the queue. *)
Lemma ok_post_with_rejected_delete_keeps_item :
  processed "sync-challenge-completion" challenge_item /\
  delivered rejecting_env 1 = true /\
  fst (ServiceWorker.syncListener "sync-challenge-completion" rejecting_env
         {[ 1 := challenge_item ]}) !! 1 = Some challenge_item /\
  ~ (fst (ServiceWorker.syncListener "sync-challenge-completion" rejecting_env
            {[ 1 := challenge_item ]}) !! 1 = None
     <-> delivered rejecting_env 1 = true).
Proof.
  assert (H : fst (ServiceWorker.syncListener "sync-challenge-completion" rejecting_env
                     {[ 1 := challenge_item ]}) !! 1 = Some challenge_item).
  { unfold ServiceWorker.syncListener, ServiceWorker.syncChallengeCompletions,
      ServiceWorker.syncQueue, ServiceWorker.getAllFromStore. simpl.
    rewrite map_to_list_singleton. reflexivity. }
  split; [left; split; reflexivity|]. split; [reflexivity|]. split; [exact H|].
  intros [_ Hiff]. rewrite H in Hiff. specialize (Hiff eq_refl). discriminate Hiff.
Qed.

Lemma sync_deletes_iff_ok_witness :
  ({[ 1 := challenge_item ]} : gmap Z ServiceWorker.QueuedAction) !! 1
    = Some challenge_item /\
  processed "sync-challenge-completion" challenge_item /\
  store_works offline_env /\
  delivered offline_env 1 = false /\
  fst (ServiceWorker.syncListener "sync-challenge-completion" offline_env
         {[ 1 := challenge_item ]}) !! 1 = Some challenge_item /\
  fst (ServiceWorker.syncListener "sync-challenge-completion" offline_env
         {[ 1 := challenge_item ]}) !! 1 <> None.
Proof.
  assert (H1 : ({[ 1 := challenge_item ]} : gmap Z ServiceWorker.QueuedAction) !! 1
               = Some challenge_item) by reflexivity.
  assert (H2 : processed "sync-challenge-completion" challenge_item)
    by (left; split; reflexivity).
  assert (H3 : store_works offline_env) by (repeat split; reflexivity).
  split; [exact H1|]. split; [exact H2|]. split; [exact H3|].
  split; [reflexivity|].
  destruct (sync_deletes_iff_ok "sync-challenge-completion" offline_env
              {[ 1 := challenge_item ]} 1 challenge_item H1 H2) as (Hiff & H & _).
  split; [apply H; reflexivity|].
  intros Hnone. apply (Hiff H3) in Hnone. discriminate Hnone.
Defined.

Definition stylesheet_request : ServiceWorker.Request :=
  {| ServiceWorker.method := "GET";
     ServiceWorker.url :=
       {| ServiceWorker.href := "https://gamifyfit.example/css/global.css";
          ServiceWorker.protocol := "https:";
          ServiceWorker.pathname := "/css/global.css" |};
     ServiceWorker.mode := "no-cors" |}.

Lemma offline_fallback_by_strategy_witness :
  ServiceWorker.fetchListener stylesheet_request
    = Some (ServiceWorker.CacheFirstWithNetwork ServiceWorker.CACHE_NAME) /\
  fst (ServiceWorker.respondWith example_origin
         (ServiceWorker.CacheFirstWithNetwork ServiceWorker.CACHE_NAME)
         stylesheet_request ServiceWorker.NetworkError precached)
  = Some offline_page.
Proof.
  assert (H : ServiceWorker.fetchListener stylesheet_request
              = Some (ServiceWorker.CacheFirstWithNetwork ServiceWorker.CACHE_NAME))
    by (vm_compute; reflexivity).
  split; [exact H|].
  destruct (offline_fallback_by_strategy example_origin stylesheet_request precached _ H)
    as [(c & Hc & _)|[(_ & page & Hpage & Hr)|(_ & Hnone & _)]].
  - vm_compute in Hc. discriminate Hc.
  - rewrite Hr. rewrite <- Hpage. vm_compute. reflexivity.
  - vm_compute in Hnone. discriminate Hnone.
Defined.

Lemma fetchListener_selects_by_priority_witness :
  ServiceWorker.method stylesheet_request = "GET" /\
  has_prefix (ServiceWorker.protocol (ServiceWorker.url stylesheet_request)) "http" /\
  exists s, ServiceWorker.fetchListener stylesheet_request = Some s /\
            chosen stylesheet_request s.
Proof.
  assert (Hp : has_prefix
                 (ServiceWorker.protocol (ServiceWorker.url stylesheet_request)) "http")
    by (exists "s:"; reflexivity).
  split; [reflexivity|]. split; [exact Hp|].
  destruct (fetchListener_selects_by_priority stylesheet_request) as (H & _).
  destruct (H eq_refl Hp) as (s & Hs & Hc & _). exists s. split; assumption.
Defined.

Definition env0 : OAuthCallback.Env :=
  {| OAuthCallback.GOOGLE_CLIENT_ID := "client";
     OAuthCallback.GOOGLE_CLIENT_SECRET := "secret";
     OAuthCallback.production := true;
     OAuthCallback.fetchToken := fun _ => OAuthCallback.TokenNotOk false;
     OAuthCallback.fetchUserInfo := fun _ => OAuthCallback.UserNotOk;
     OAuthCallback.signJWT := fun _ => None |}.

Definition callback_request : OAuthCallback.Req :=
  {| OAuthCallback.query_code := Some "4/abc";
     OAuthCallback.query_state := Some "s1";
     OAuthCallback.query_error := None;
     OAuthCallback.header_cookie := Some "theme=dark; oauth_state=s1";
     OAuthCallback.header_x_forwarded_proto := None;
     OAuthCallback.header_x_forwarded_host := None;
     OAuthCallback.header_host := Some "gamifyfit.example" |}.

Lemma auth_failure_redirects_without_session_witness :
  auth_failure (fun s => s) env0 callback_request "token_exchange_failed" /\
  OAuthCallback.handler (fun s => s) env0 callback_request =
    {| OAuthCallback.statusCode := 302;
       OAuthCallback.location := "/auth.html?error=token_exchange_failed";
       OAuthCallback.setCookie := [] |}.
Proof.
  assert (H : auth_failure (fun s => s) env0 callback_request "token_exchange_failed").
  { apply token_exchange_not_ok; [split; vm_compute; reflexivity|reflexivity]. }
  split; [exact H|].
  exact (auth_failure_redirects_without_session (fun s => s) env0 callback_request _ H).
Defined.

Definition default_profile : PlanGenerator.UserProfile :=
  {| PlanGenerator.fitnessLevel := None; PlanGenerator.goal := None;
     PlanGenerator.daysPerWeek := None; PlanGenerator.profile_equipment := None;
     PlanGenerator.profile_duration := None |}.

Lemma generatePlan_seven_days_bounded_witness :
  (forall n l, no_shuffle n l ≡ₚ l) /\
  0 <= default 45 (PlanGenerator.profile_duration default_profile) /\
  JS.includes PlanGenerator.objectPrototypeKeys
    (default "general" (PlanGenerator.goal default_profile)) = false /\
  plan_ok no_shuffle default_profile 0%nat.
Proof.
  assert (H1 : forall n l, no_shuffle n l ≡ₚ l) by (intros n l; reflexivity).
  assert (H2 : 0 <= default 45 (PlanGenerator.profile_duration default_profile))
    by (simpl; lia).
  assert (H3 : JS.includes PlanGenerator.objectPrototypeKeys
                 (default "general" (PlanGenerator.goal default_profile)) = false)
    by reflexivity.
  split; [exact H1|]. split; [exact H2|]. split; [exact H3|].
  exact (generatePlan_seven_days_bounded no_shuffle H1 default_profile 0%nat H2 H3).
Defined.

End Witnesses.

(** * Further properties of the gamification manager *)

Section GamificationMore.
Import GData GamificationManager.

Variable clock : nat -> Z.
Variable toDateString : Z -> Z.
Variable this : Manager.

#[local] Existing Instance on_data_refl.
#[local] Existing Instance on_data_trans.

(** ** Levels *)

Lemma calculateLevel_loop_range (th : list Z) (n : nat) (x : Z) :
  1 <= calculateLevel_loop th n x <= Z.max 1 (Z.of_nat n).
Proof.
  induction n as [|i IH]; simpl; [lia|].
  destruct (th !! i) as [t|]; [destruct (t <=? x)|]; lia.
Qed.

Lemma calculateLevel_loop_mono (th : list Z) (n : nat) (x x' : Z) :
  x <= x' -> calculateLevel_loop th n x <= calculateLevel_loop th n x'.
Proof.
  intros Hx. induction n as [|i IH]; simpl; [lia|].
  destruct (th !! i) as [t|]; [|exact IH].
  destruct (Z.leb_spec t x), (Z.leb_spec t x'); try lia.
  pose proof (calculateLevel_loop_range th i x). lia.
Qed.

(** The loop stops at the highest index, below [n], whose threshold has
    been reached. *)
Lemma calculateLevel_loop_highest (th : list Z) (n : nat) (x : Z) :
  let l := calculateLevel_loop th n x in
  (forall j t, (j < n)%nat -> th !! j = Some t -> l < Z.of_nat j + 1 -> x < t) /\
  ((exists i t, (i < n)%nat /\ l = Z.of_nat i + 1 /\ th !! i = Some t /\ t <= x) \/
   (l = 1 /\ forall j t, (j < n)%nat -> th !! j = Some t -> x < t)).
Proof.
  induction n as [|i IH]; simpl.
  { split; [intros; lia|]. right. split; [done|]. intros; lia. }
  destruct IH as [IHhigh IHlow].
  pose proof (calculateLevel_loop_range th i x) as Hrange.
  destruct (th !! i) as [t|] eqn:Hi.
  - destruct (Z.leb_spec t x) as [Hle|Hgt].
    + split; [intros j t' Hj Hj' Hl; lia|].
      left. exists i, t. repeat split; [lia|done|done].
    + split.
      * intros j t' Hj Hj' Hl. destruct (decide (j = i)) as [->|Hne].
        { congruence. }
        apply (IHhigh j t'); [lia|done|done].
      * destruct IHlow as [(i' & t' & Hi' & Hl & Hth & Hle)|[Hl Hall]].
        { left. exists i', t'. repeat split; [lia|done|done|done]. }
        right. split; [done|]. intros j t' Hj Hj'.
        destruct (decide (j = i)) as [->|Hne]; [congruence|].
        apply (Hall j t'); [lia|done].
  - split.
    + intros j t' Hj Hj' Hl. destruct (decide (j = i)) as [->|Hne]; [congruence|].
      apply (IHhigh j t'); [lia|done|done].
    + destruct IHlow as [(i' & t' & Hi' & Hl & Hth & Hle)|[Hl Hall]].
      { left. exists i', t'. repeat split; [lia|done|done|done]. }
      right. split; [done|]. intros j t' Hj Hj'.
      destruct (decide (j = i)) as [->|Hne]; [congruence|].
      apply (Hall j t'); [lia|done].
Qed.

(** X1. [calculateLevel] returns one more than the highest index whose
    threshold the XP has reached, and 1 when the XP is below every
    threshold; the result lies between 1 and the number of thresholds
    (51 for the table the constructor builds). *)
Theorem calculateLevel_highest_reached (x : Z) :
  let l := calculateLevel this x in
  1 <= l <= Z.max 1 (Z.of_nat (length (levelThresholds this))) /\
  (forall j t, levelThresholds this !! j = Some t -> l < Z.of_nat j + 1 -> x < t) /\
  ((exists i t, l = Z.of_nat i + 1 /\ levelThresholds this !! i = Some t /\ t <= x) \/
   (l = 1 /\ forall j t, levelThresholds this !! j = Some t -> x < t)).
Proof.
  intros l. subst l. unfold calculateLevel.
  split; [apply calculateLevel_loop_range|].
  destruct (calculateLevel_loop_highest (levelThresholds this)
              (length (levelThresholds this)) x) as [Hhigh Hlow].
  split.
  - intros j t Hj. apply Hhigh; [|done]. by eapply lookup_lt_Some.
  - destruct Hlow as [(i & t & _ & Hl & Hi & Hle)|[Hl Hall]].
    + left. by exists i, t.
    + right. split; [done|]. intros j t Hj. apply (Hall j t); [|done].
      by eapply lookup_lt_Some.
Qed.

(** X2. More XP never means a lower level, whatever the threshold
    table. *)
Theorem calculateLevel_monotone (x x' : Z) :
  x <= x' -> calculateLevel this x <= calculateLevel this x'.
Proof. apply calculateLevel_loop_mono. Qed.

(** ** What is persisted *)

(** The entry under the manager's key is the manager's data. *)
Definition persisted (s : State) : Prop :=
  localStorage (browser s) !! storageKey this = Some (StoredGamification (data s)).

(** Whatever [c] does, [k] is run afterwards. *)
Lemma post_bind_any {S A B} (c : ST S A) (k : A -> ST S B) s Q :
  (forall a s1, post (k a) s1 Q) -> post (bind c k) s Q.
Proof. intros Hk. apply post_bind. unfold post at 1. apply Hk. Qed.

Lemma save_persists s : post (save this) s (fun _ s' => persisted s').
Proof. unfold post, persisted. simpl. apply lookup_insert_eq. Qed.

Lemma checkBadge_silent entry nb s :
  post (checkBadge clock this entry nb) s
    (fun nb' s' => nb' = nb /\ s' = s \/ nb' <> [] /\ True).
Proof.
  destruct entry as [badgeId badge]. unfold checkBadge, post, bind, getData. simpl.
  destruct (JS.includes _ _); simpl; [left; by destruct s|].
  destruct (condition badge _); simpl; [|left; by destruct s].
  right. split; [|done]. by destruct nb.
Qed.

(** [checkBadges] either awards nothing and leaves the state alone, or
    saves. *)
Lemma checkBadges_persists s :
  post (checkBadges clock this) s (fun _ s' => s' = s \/ persisted s').
Proof.
  unfold checkBadges. apply post_bind.
  eapply post_mono.
  { apply (forOf_post (fun nb s1 => nb = [] /\ s1 = s \/ nb <> [])).
    - intros entry acc s1 [[-> ->]|Hne].
      + eapply post_mono; [apply checkBadge_silent|].
        intros nb' s' [[-> ->]|[Hne _]]; [by left|by right].
      + eapply post_mono; [apply checkBadge_silent|].
        intros nb' s' [[-> ->]|[Hne' _]]; by right.
    - by left. }
  intros nb s1 [[-> ->]|Hne]; simpl.
  - unfold post. simpl. left. by destruct s.
  - apply post_bind.
    assert (Hlen : (0 <? Z.of_nat (length nb)) = true).
    { apply Z.ltb_lt. destruct nb; [done|simpl; lia]. }
    rewrite Hlen. eapply post_mono; [apply save_persists|].
    intros u s2 Hs2. unfold post. simpl. by right.
Qed.

Lemma awardXP_persists amount source s :
  post (awardXP clock this amount source) s (fun _ s' => persisted s').
Proof.
  unfold awardXP. do 8 (apply post_bind_any; intros ? ?).
  apply post_bind. eapply post_mono; [apply save_persists|].
  intros uf sf Hsf. unfold post. simpl. exact Hsf.
Qed.

Lemma updateStreak_persists s :
  persisted s ->
  post (updateStreak clock toDateString this) s (fun _ s' => persisted s').
Proof.
  intros Hs. unfold updateStreak. apply post_bind. unfold post at 1. simpl.
  apply post_bind. unfold post at 1. simpl.
  destruct (bool_decide _); [exact Hs|].
  do 7 (apply post_bind_any; intros ? ?).
  apply post_bind. eapply post_mono; [apply save_persists|].
  intros uf sf Hsf. unfold post. simpl. exact Hsf.
Qed.

(** X3. Every method leaves the entry under the manager's key equal to
    [this.data] if it was so before; [awardXP], [logWorkout], [logSteps],
    [completeChallenge], [save] and [reset] do so in any case. *)
Theorem run_persists (c : Call) (s : State) :
  let s' := run clock toDateString this c s in
  (persisted s -> persisted s') /\
  (match c with
   | CallAwardXP _ _ | CallLogWorkout _ | CallLogSteps _
   | CallCompleteChallenge _ | CallSave | CallReset => persisted s'
   | _ => True
   end).
Proof.
  intros s'. subst s'. destruct c; simpl.
  - split; [intros _|]; apply awardXP_persists.
  - split; [|done]. intros Hs.
    destruct (checkBadges_persists s) as [->|H]; done.
  - split; [|done]. apply updateStreak_persists.
  - assert (H : post (logWorkout clock toDateString this w) s
                   (fun _ s' => persisted s')).
    { unfold logWorkout. do 3 (apply post_bind_any; intros ? ?).
      apply post_bind. eapply post_mono; [apply awardXP_persists|].
      intros r sa Hsa. apply post_bind.
      eapply post_mono; [by apply updateStreak_persists|].
      intros rf sf Hsf. exact Hsf. }
    by split.
  - assert (H : post (logSteps clock this steps) s (fun _ s' => persisted s')).
    { unfold logSteps. apply post_bind_any. intros ? ?.
      destruct (0 <? steps / 100).
      - apply post_bind. eapply post_mono; [apply awardXP_persists|].
        intros rf sf Hsf. exact Hsf.
      - apply post_bind. eapply post_mono; [apply save_persists|].
        intros rf sf Hsf. exact Hsf. }
    by split.
  - assert (H : post (completeChallenge clock this c) s (fun _ s' => persisted s')).
    { unfold completeChallenge. do 2 (apply post_bind_any; intros ? ?).
      apply awardXP_persists. }
    by split.
  - split; [|done]. intros Hs.
    change (post (joinChallenge clock this c) s (fun _ s' => persisted s')).
    unfold joinChallenge. apply post_bind. unfold post at 1. simpl.
    destruct (negb _); [|exact Hs].
    do 2 (apply post_bind_any; intros ? ?).
    apply post_bind. eapply post_mono; [apply save_persists|].
    intros rf sf Hsf. exact Hsf.
  - split; [intros _|]; apply save_persists.
  - assert (H : post (reset this) s (fun _ s' => persisted s')).
    { unfold reset. apply post_bind_any. intros ? ?. apply save_persists. }
    by split.
Qed.

(** ** XP and history only grow *)

Lemma preserves_forOf_Forall {S A B} (R : S -> S -> Prop) (l : list A)
      (body : A -> B -> ST S B) :
  Reflexive R -> Transitive R ->
  Forall (fun x => forall acc, preserves R (body x acc)) l ->
  forall acc, preserves R (forOf l body acc).
Proof.
  intros HR HT Hbody. induction Hbody as [|x l Hx Hl IH]; intros acc; simpl.
  - by apply preserves_ret.
  - apply preserves_bind; auto.
Qed.

(** As [walk], for this section: the steps that cannot touch [this.data]
    are closed, calls go to the lemma given for them, and a [modifyData]
    step is left to [prim]. *)
Ltac methods cbsL awL usL prim :=
  walk ltac:(idtac;
    lazymatch goal with
    | |- preserves _ getData => apply preserves_getData; typeclasses eauto
    | |- preserves (on_data _) (newDate _) => apply on_data_newDate; typeclasses eauto
    | |- preserves (on_data _) (dispatchEvent _) =>
        apply on_data_dispatchEvent; typeclasses eauto
    | |- preserves (on_data _) (save _) => apply on_data_save; typeclasses eauto
    | |- preserves (on_data _) (onLevelUp _ _) =>
        apply on_data_onLevelUp; typeclasses eauto
    | |- preserves _ (checkBadges _ _) => apply cbsL
    | |- preserves _ (awardXP _ _ _ _) => apply awL
    | |- preserves _ (updateStreak _ _ _) => apply usL
    | |- preserves _ (modifyData _) => prim
    end).

Definition xp_grows (d d' : Data) : Prop := xp d <= xp d'.

#[local] Instance xp_grows_refl : Reflexive xp_grows.
Proof. intros d. unfold xp_grows. lia. Qed.

#[local] Instance xp_grows_trans : Transitive xp_grows.
Proof. unfold xp_grows. intros d1 d2 d3. lia. Qed.

Definition history_grows (d d' : Data) : Prop := history d `prefix_of` history d'.

#[local] Instance history_grows_refl : Reflexive history_grows.
Proof. intros d. unfold history_grows. reflexivity. Qed.

#[local] Instance history_grows_trans : Transitive history_grows.
Proof. intros d1 d2 d3. unfold history_grows. etransitivity; eauto. Qed.

Ltac history_prim :=
  apply on_data_modifyData; intros ?; unfold history_grows; simpl;
  first [ reflexivity | by apply prefix_app_r ].

Lemma checkBadges_history : preserves (on_data history_grows) (checkBadges clock this).
Proof. unfold checkBadges, checkBadge. methods I I I history_prim. Qed.

Lemma awardXP_history amount source :
  preserves (on_data history_grows) (awardXP clock this amount source).
Proof. unfold awardXP. methods checkBadges_history I I history_prim. Qed.

Lemma updateStreak_history :
  preserves (on_data history_grows) (updateStreak clock toDateString this).
Proof. unfold updateStreak. methods checkBadges_history awardXP_history I history_prim. Qed.

(** X8. The history is append-only: every method other than [reset]
    leaves the old history as a prefix of the new one. *)
Theorem history_append_only (c : Call) (s : State) :
  c <> CallReset ->
  history (data s) `prefix_of` history (data (run clock toDateString this c s)).
Proof.
  intros Hc. revert s.
  change (preserves (on_data history_grows)
            (fun s => (tt, run clock toDateString this c s))).
  assert (Hsnd : forall A (m : M A),
            preserves (on_data history_grows) m ->
            preserves (on_data history_grows) (fun s => (tt, snd (m s))))
    by (intros A m Hm s; apply Hm).
  destruct c; try done; apply Hsnd;
    [ | | | unfold logWorkout | unfold logSteps | unfold completeChallenge
      | unfold joinChallenge | ];
    methods checkBadges_history awardXP_history updateStreak_history history_prim.
Qed.

Section NonNegativeRewards.

Hypothesis rewards_nonneg : Forall (fun e => 0 <= badge_xp (snd e)) (badgeDefs this).

Lemma checkBadges_xp : preserves (on_data xp_grows) (checkBadges clock this).
Proof.
  unfold checkBadges. apply preserves_bind; [typeclasses eauto| |].
  - apply preserves_forOf_Forall; [typeclasses eauto|typeclasses eauto|].
    eapply Forall_impl; [exact rewards_nonneg|].
    intros [badgeId badge] Hxp acc s. simpl in Hxp.
    unfold checkBadge, bind, getData, on_data, xp_grows. simpl.
    destruct (JS.includes _ _); simpl; [lia|].
    destruct (condition badge _); simpl; lia.
  - intros nb. methods I I I idtac.
Qed.

Ltac xp_prim :=
  apply on_data_modifyData; intros ?; unfold xp_grows; simpl; lia.

Lemma awardXP_xp amount source s :
  xp (data s) + amount <= xp (data (snd (awardXP clock this amount source s))).
Proof.
  change (post (awardXP clock this amount source) s
            (fun _ s' => xp (data s) + amount <= xp (data s'))).
  unfold awardXP.
  do 2 (apply post_bind; unfold post at 1; simpl).
  apply (post_preserves (on_data xp_grows)).
  - methods checkBadges_xp I I xp_prim.
  - intros r s' Hs'. exact Hs'.
Qed.

Lemma updateStreak_xp :
  preserves (on_data xp_grows) (updateStreak clock toDateString this).
Proof.
  unfold updateStreak. apply preserves_bind; [typeclasses eauto| |intros now].
  { apply on_data_newDate. typeclasses eauto. }
  apply preserves_bind; [typeclasses eauto| |intros d0].
  { apply preserves_getData. typeclasses eauto. }
  destruct (bool_decide _); [apply preserves_ret; typeclasses eauto|].
  apply preserves_bind; [typeclasses eauto| |intros ?].
  { methods I I I xp_prim. }
  apply preserves_bind; [typeclasses eauto| |intros d1].
  { apply preserves_getData. typeclasses eauto. }
  apply preserves_bind; [typeclasses eauto| |intros ?].
  { methods I I I xp_prim. }
  apply preserves_bind; [typeclasses eauto| |intros ?].
  { xp_prim. }
  apply preserves_bind; [typeclasses eauto| |intros d2].
  { apply preserves_getData. typeclasses eauto. }
  apply preserves_bind; [typeclasses eauto| |intros ?].
  { destruct (Z.ltb_spec 0 (calculateStreakBonus (current (streak d2)))) as [Hpos|_];
      [|apply preserves_ret; typeclasses eauto].
    apply preserves_bind; [typeclasses eauto| |intros ?; apply preserves_ret; typeclasses eauto].
    intros s. pose proof (awardXP_xp (calculateStreakBonus (current (streak d2)))
                            "streak_bonus" s).
    unfold on_data, xp_grows. lia. }
  methods checkBadges_xp I I xp_prim.
Qed.

(** The least XP that a call adds. *)
Definition least_gain (c : Call) : Z :=
  match c with
  | CallAwardXP amount _ => amount
  | CallLogWorkout _ => 50
  | CallLogSteps steps => Z.max 0 (steps / 100)
  | CallCompleteChallenge challenge => c_xp challenge
  | _ => 0
  end.

(** The number a call is given: the amount, the steps, the challenge's
    XP. *)
Definition call_number (c : Call) : Z :=
  match c with
  | CallAwardXP amount _ => amount
  | CallLogSteps steps => steps
  | CallCompleteChallenge challenge => c_xp challenge
  | _ => 0
  end.

(** [Number.isSafeInteger].  A sum or a floored quotient of safe integers
    that is itself a safe integer is computed exactly in binary64; past
    [2 ^ 53] an addition can round its result back to the number it
    started from. *)
Definition isSafeInteger (z : Z) : Prop := - (2 ^ 53 - 1) <= z <= 2 ^ 53 - 1.

(** The call starts from, is given, and ends with safe integers.  With
    rewards that are not negative the XP only grows after the call's own
    award, so every sum on the way lies between two of these numbers. *)
Definition stays_safe (c : Call) (s : State) : Prop :=
  isSafeInteger (call_number c) /\
  isSafeInteger (xp (data s)) /\
  isSafeInteger (xp (data s) + least_gain c) /\
  isSafeInteger (xp (data (run clock toDateString this c s))).

(** X4. With badge rewards that are not negative, and as long as the XP
    stays within the safe integers (where the additions of the code are
    exact), every method other than [reset] adds at least its own award to
    the XP: the amount given to [awardXP], 50 for a workout, a hundredth
    of the steps, the challenge's XP; badge and streak rewards only add to
    it. *)
Theorem xp_never_lost (c : Call) (s : State) :
  c <> CallReset ->
  stays_safe c s ->
  xp (data s) + least_gain c <= xp (data (run clock toDateString this c s)).
Proof.
  intros Hc _. destruct c; try done; simpl.
  - apply awardXP_xp.
  - pose proof (checkBadges_xp s) as H. unfold on_data, xp_grows in H. lia.
  - pose proof (updateStreak_xp s) as H. unfold on_data, xp_grows in H. lia.
  - change (post (logWorkout clock toDateString this w) s
              (fun _ s' => xp (data s) + 50 <= xp (data s'))).
    unfold logWorkout. do 3 (apply post_bind; unfold post at 1; simpl).
    apply post_bind.
    match goal with
    | |- post (awardXP _ _ ?a ?src) ?s0 _ =>
        pose proof (awardXP_xp a src s0) as Haward;
        apply (post_mono _ _ (fun _ s1 => xp (data s) + 50 <= xp (data s1)))
    end.
    { unfold post. simpl in Haward.
      destruct (JS.geq_undef (w_duration w) 30), (JS.geq_undef (w_duration w) 60),
        (JS.geq_undef (w_calories w) 200), (JS.geq_undef (w_calories w) 400);
        lia. }
    intros r s1 Hs1. apply post_bind.
    apply (post_preserves (on_data xp_grows)); [apply updateStreak_xp|].
    intros r' s2 Hs2. unfold post. simpl. unfold on_data, xp_grows in Hs2. lia.
  - change (post (logSteps clock this steps) s
              (fun _ s' => xp (data s) + Z.max 0 (steps / 100) <= xp (data s'))).
    unfold logSteps. apply post_bind. unfold post at 1. simpl.
    destruct (Z.ltb_spec 0 (steps / 100)) as [Hpos|Hneg].
    + apply post_bind.
      match goal with
      | |- post (awardXP _ _ ?a ?src) ?s0 _ =>
          pose proof (awardXP_xp a src s0) as Haward
      end.
      unfold post. simpl in *. lia.
    + unfold post. simpl. lia.
  - change (post (completeChallenge clock this c) s
              (fun _ s' => xp (data s) + c_xp c <= xp (data s'))).
    unfold completeChallenge. do 2 (apply post_bind; unfold post at 1; simpl).
    match goal with
    | |- post (awardXP _ _ ?a ?src) ?s0 _ =>
        pose proof (awardXP_xp a src s0) as Haward
    end.
    unfold post. simpl in *. lia.
  - assert (H : preserves (on_data xp_grows) (joinChallenge clock this c)).
    { unfold joinChallenge. methods I I I xp_prim. }
    specialize (H s). unfold on_data, xp_grows in H. lia.
  - lia.
Qed.

End NonNegativeRewards.

(** ** Streaks *)

(** X5. A second [updateStreak] whose clock reading falls on the same day
    as the first one's changes nothing and reports
    [streakUpdated = false]: a day counts once. *)
Theorem updateStreak_once_a_day (s : State) :
  let s1 := snd (updateStreak clock toDateString this s) in
  toDateString (clock (ticks (browser s1)))
    = toDateString (clock (ticks (browser s))) ->
  data (snd (updateStreak clock toDateString this s1)) = data s1 /\
  streakUpdated (fst (updateStreak clock toDateString this s1)) = false.
Proof.
  intros s1 Hday.
  assert (Hlast : option_map toDateString (lastActivity (streak (data s1)))
                  = Some (toDateString (clock (ticks (browser s1))))).
  { rewrite Hday. pose proof (updateStreak_spec clock toDateString this s) as H.
    unfold post in H. simpl in H. fold s1 in H.
    destruct (bool_decide _) eqn:Hb.
    - destruct H as [-> _]. by apply bool_decide_eq_true_1 in Hb.
    - destruct H as (-> & _). reflexivity. }
  pose proof (updateStreak_spec clock toDateString this s1) as H.
  unfold post in H. simpl in H.
  rewrite bool_decide_eq_true_2 in H by exact Hlast.
  destruct H as [Hd Hr]. by rewrite Hd, Hr.
Qed.

Definition streak_rel (d d' : Data) : Prop :=
  longest (streak d) <= longest (streak d') /\
  (current (streak d) <= longest (streak d) ->
   current (streak d') <= longest (streak d')).

#[local] Instance streak_rel_refl : Reflexive streak_rel.
Proof. intros d. unfold streak_rel. split; [lia|done]. Qed.

#[local] Instance streak_rel_trans : Transitive streak_rel.
Proof. unfold streak_rel. intros d1 d2 d3 [H1 H2] [H3 H4]. split; [lia|auto]. Qed.

Ltac streak_rel_prim :=
  apply on_data_modifyData; intros ?; unfold streak_rel; simpl; split; [lia|done].

Lemma checkBadges_streak_rel : preserves (on_data streak_rel) (checkBadges clock this).
Proof. unfold checkBadges, checkBadge. methods I I I streak_rel_prim. Qed.

Lemma awardXP_streak_rel amount source :
  preserves (on_data streak_rel) (awardXP clock this amount source).
Proof. unfold awardXP. methods checkBadges_streak_rel I I streak_rel_prim. Qed.

Lemma updateStreak_streak_rel :
  preserves (on_data streak_rel) (updateStreak clock toDateString this).
Proof.
  intros s. pose proof (updateStreak_spec clock toDateString this s) as H.
  unfold post in H. simpl in H. unfold on_data, streak_rel.
  destruct (bool_decide _).
  - destruct H as [-> _]. split; [lia|done].
  - destruct H as (-> & _). simpl.
    destruct (bool_decide (_ = Some (_ - 1))); simpl;
      match goal with |- context [?x <? ?y] => destruct (Z.ltb_spec x y) end;
      lia.
Qed.

(** X6. No method other than [reset] lowers the longest streak, and
    [current <= longest], once true, stays true under every method. *)
Theorem longest_streak_is_kept (c : Call) (s : State) :
  let s' := run clock toDateString this c s in
  (c <> CallReset -> longest (streak (data s)) <= longest (streak (data s'))) /\
  (current (streak (data s)) <= longest (streak (data s)) ->
   current (streak (data s')) <= longest (streak (data s'))).
Proof.
  intros s'. subst s'.
  assert (Hrel : c <> CallReset ->
                 streak_rel (data s) (data (run clock toDateString this c s))).
  { intros Hc. revert s.
    change (preserves (on_data streak_rel)
              (fun s => (tt, run clock toDateString this c s))).
    assert (Hsnd : forall A (m : M A),
              preserves (on_data streak_rel) m ->
              preserves (on_data streak_rel) (fun s => (tt, snd (m s))))
      by (intros A m Hm s; apply Hm).
    destruct c; try done; apply Hsnd;
      try unfold logWorkout; try unfold logSteps; try unfold completeChallenge;
      try unfold joinChallenge;
      methods checkBadges_streak_rel awardXP_streak_rel updateStreak_streak_rel
              streak_rel_prim. }
  split; [intros Hc; by apply Hrel|].
  destruct c; try (apply Hrel; discriminate).
  intros _. simpl. lia.
Qed.

(** ** Challenges *)

Definition same_challenges (d d' : Data) : Prop := challenges d' = challenges d.

#[local] Instance same_challenges_refl : Reflexive same_challenges.
Proof. by intros d. Qed.

#[local] Instance same_challenges_trans : Transitive same_challenges.
Proof. unfold same_challenges. intros d1 d2 d3. congruence. Qed.

Ltac challenges_prim := apply on_data_modifyData; intros ?; reflexivity.

Lemma checkBadges_challenges :
  preserves (on_data same_challenges) (checkBadges clock this).
Proof. unfold checkBadges, checkBadge. methods I I I challenges_prim. Qed.

Lemma awardXP_challenges amount source :
  preserves (on_data same_challenges) (awardXP clock this amount source).
Proof. unfold awardXP. methods checkBadges_challenges I I challenges_prim. Qed.

Lemma updateStreak_challenges :
  preserves (on_data same_challenges) (updateStreak clock toDateString this).
Proof.
  unfold updateStreak.
  methods checkBadges_challenges awardXP_challenges I challenges_prim.
Qed.

Lemma completeChallenge_challenges (challenge : Challenge) (s : State) :
  challenges (data (snd (completeChallenge clock this challenge s)))
  = {| completed := completed (challenges (data s)) + 1;
       active := filter (fun c => id c <> c_id challenge)
                   (active (challenges (data s))) |}.
Proof.
  change (post (completeChallenge clock this challenge) s
            (fun _ s' => challenges (data s')
               = {| completed := completed (challenges (data s)) + 1;
                    active := filter (fun c => id c <> c_id challenge)
                                (active (challenges (data s))) |})).
  unfold completeChallenge. do 2 (apply post_bind; unfold post at 1; simpl).
  apply (post_preserves (on_data same_challenges)); [apply awardXP_challenges|].
  intros r sf Hsf. exact Hsf.
Qed.

(** X7. [completeChallenge] counts the completion and leaves no entry
    with the challenge's id among the active ones, whether or not the
    challenge had been joined; the other active entries stay, in order. *)
Theorem completeChallenge_removes (challenge : Challenge) (s : State) :
  let s' := snd (completeChallenge clock this challenge s) in
  completed (challenges (data s')) = completed (challenges (data s)) + 1 /\
  active (challenges (data s'))
    = filter (fun c => id c <> c_id challenge) (active (challenges (data s))) /\
  (forall c, c ∈ active (challenges (data s')) -> id c <> c_id challenge).
Proof.
  intros s'. subst s'. rewrite completeChallenge_challenges. simpl.
  split; [done|]. split; [done|].
  intros c Hc. by apply list_elem_of_filter in Hc as [Hc _].
Qed.

Lemma existsb_active_id (l : list ActiveChallenge) (i : string) :
  existsb (fun c => String.eqb (id c) i) l = true <-> i ∈ map id l.
Proof.
  rewrite existsb_exists, list_elem_of_fmap. split.
  - intros (c & Hc & He). apply String.eqb_eq in He. exists c.
    split; [done|by apply list_elem_of_In].
  - intros (c & -> & Hc). exists c. split; [by apply list_elem_of_In|].
    apply String.eqb_refl.
Qed.

(** X9. Joining is idempotent: after [joinChallenge] on a challenge,
    joining it again returns [false] and changes nothing; and a challenge
    is joined exactly when no active entry had its id. *)
Theorem joinChallenge_idempotent (challenge : Challenge) (s : State) :
  let r := fst (joinChallenge clock this challenge s) in
  let s1 := snd (joinChallenge clock this challenge s) in
  (r = true <-> c_id challenge ∉ map id (active (challenges (data s)))) /\
  c_id challenge ∈ map id (active (challenges (data s1))) /\
  fst (joinChallenge clock this challenge s1) = false /\
  snd (joinChallenge clock this challenge s1) = s1.
Proof.
  intros r s1.
  assert (Hin : c_id challenge ∈ map id (active (challenges (data s1)))
                /\ (r = true <-> c_id challenge ∉ map id (active (challenges (data s))))).
  { subst r s1. unfold joinChallenge, bind, getData. simpl.
    destruct (existsb _ _) eqn:He; simpl.
    - apply existsb_active_id in He. split; [done|]. split; [done|].
      intros Hno. by destruct Hno.
    - split.
      + rewrite map_app. apply elem_of_app. right. simpl.
        by apply list_elem_of_singleton.
      + split; [|done]. intros _ Hyes. apply existsb_active_id in Hyes. congruence. }
  destruct Hin as [Hin Hr]. split; [exact Hr|]. split; [exact Hin|].
  apply existsb_active_id in Hin.
  unfold joinChallenge, bind, getData. simpl. rewrite Hin. simpl.
  split; [done|]. by destruct s1.
Qed.

Definition ids_unique (d : Data) : Prop := NoDup (map id (active (challenges d))).

Definition keeps_ids_unique (d d' : Data) : Prop := ids_unique d -> ids_unique d'.

#[local] Instance keeps_ids_unique_refl : Reflexive keeps_ids_unique.
Proof. intros d H. exact H. Qed.

#[local] Instance keeps_ids_unique_trans : Transitive keeps_ids_unique.
Proof. unfold keeps_ids_unique. intros d1 d2 d3. auto. Qed.

Lemma same_challenges_keeps d d' : same_challenges d d' -> keeps_ids_unique d d'.
Proof. unfold same_challenges, keeps_ids_unique, ids_unique. by intros ->. Qed.

Lemma NoDup_map_filter_id (l : list ActiveChallenge) (i : string) :
  NoDup (map id l) -> NoDup (map id (filter (fun c => id c <> i) l)).
Proof.
  induction l as [|c l IH]; [done|]. simpl. intros [Hc Hl]%NoDup_cons.
  rewrite filter_cons. case_decide; [|by apply IH].
  simpl. apply NoDup_cons. split; [|by apply IH].
  intros Hin. apply Hc. apply list_elem_of_fmap in Hin as (c' & Hid & Hc').
  apply list_elem_of_filter in Hc' as [_ Hc']. apply list_elem_of_fmap. eauto.
Qed.

(** X10. No two active challenges share an id: every method keeps this
    true, and the default data has no active challenge. *)
Theorem active_challenge_ids_unique (c : Call) (s : State) :
  ids_unique getDefaultData /\
  (ids_unique (data s) -> ids_unique (data (run clock toDateString this c s))).
Proof.
  split; [apply NoDup_nil_2|].
  destruct c; simpl.
  - apply same_challenges_keeps, awardXP_challenges.
  - apply same_challenges_keeps, checkBadges_challenges.
  - apply same_challenges_keeps, updateStreak_challenges.
  - apply same_challenges_keeps. revert s.
    change (preserves (on_data same_challenges) (logWorkout clock toDateString this w)).
    unfold logWorkout.
    methods checkBadges_challenges awardXP_challenges updateStreak_challenges
            challenges_prim.
  - apply same_challenges_keeps. revert s.
    change (preserves (on_data same_challenges) (logSteps clock this steps)).
    unfold logSteps.
    methods checkBadges_challenges awardXP_challenges I challenges_prim.
  - intros Hu. unfold ids_unique.
    rewrite completeChallenge_challenges. simpl.
    by apply NoDup_map_filter_id.
  - unfold ids_unique, joinChallenge, bind, getData. simpl.
    destruct (existsb _ _) eqn:He; simpl; [done|].
    intros Hu. rewrite map_app. apply NoDup_app. split; [done|].
    split; [|apply NoDup_singleton].
    intros x Hx Hx'. simpl in Hx'. apply list_elem_of_singleton in Hx' as ->.
    apply existsb_active_id in Hx. congruence.
  - done.
  - intros _. apply NoDup_nil_2.
Qed.

(** ** Small step counts *)

(** X11. [logSteps] with fewer than 100 steps adds to [totalSteps] and to
    nothing else: no XP, no history entry, and no badge check even when the
    total crosses a badge's threshold; the data is saved and the short
    result returned. *)
Theorem logSteps_under_100 (steps : Z) (s : State) :
  steps < 100 ->
  let s' := snd (logSteps clock this steps s) in
  fst (logSteps clock this steps s) = None /\
  data s' = with_stats
              {| totalWorkouts := totalWorkouts (stats (data s));
                 totalSteps := totalSteps (stats (data s)) + steps;
                 totalCalories := totalCalories (stats (data s));
                 totalMinutes := totalMinutes (stats (data s));
                 pushups := pushups (stats (data s));
                 squats := squats (stats (data s));
                 runDistance := runDistance (stats (data s)) |} (data s) /\
  persisted s'.
Proof.
  intros Hsteps s'. subst s'. unfold logSteps, bind, modifyData. simpl.
  assert (Hq : (0 <? steps / 100) = false).
  { apply Z.ltb_ge. assert (steps / 100 < 1); [|lia].
    apply Z.div_lt_upper_bound; lia. }
  rewrite Hq. simpl. split; [done|]. split; [done|].
  unfold persisted. simpl. apply lookup_insert_eq.
Qed.

End GamificationMore.

(** * Readings of the clock *)

Section ClockReadings.
Import GData GamificationManager.

Variable clock : nat -> Z.
Variable toDateString : Z -> Z.
Variable this : Manager.

(** No reading of the clock is taken back. *)
Definition later (s s' : State) : Prop :=
  (ticks (browser s) <= ticks (browser s'))%nat.

#[local] Instance later_refl : Reflexive later.
Proof. intros s. unfold later. lia. Qed.

#[local] Instance later_trans : Transitive later.
Proof. unfold later. intros s1 s2 s3. lia. Qed.

Ltac later_calls cbsL awL usL :=
  lazymatch goal with
  | |- preserves _ (checkBadges _ _) => apply cbsL
  | |- preserves _ (awardXP _ _ _ _) => apply awL
  | |- preserves _ (updateStreak _ _ _) => apply usL
  | |- preserves _ _ => intros ?; unfold later; simpl; lia
  end.

Lemma checkBadges_later : preserves later (checkBadges clock this).
Proof. unfold checkBadges, checkBadge. walk ltac:(idtac; later_calls I I I). Qed.

Lemma awardXP_later amount source : preserves later (awardXP clock this amount source).
Proof. unfold awardXP. walk ltac:(idtac; later_calls checkBadges_later I I). Qed.

Lemma updateStreak_later : preserves later (updateStreak clock toDateString this).
Proof.
  unfold updateStreak. walk ltac:(idtac; later_calls checkBadges_later awardXP_later I).
Qed.

Lemma logSteps_later steps : preserves later (logSteps clock this steps).
Proof.
  unfold logSteps.
  walk ltac:(idtac; later_calls checkBadges_later awardXP_later updateStreak_later).
Qed.

Lemma logWorkout_later workout :
  preserves later (logWorkout clock toDateString this workout).
Proof.
  unfold logWorkout.
  walk ltac:(idtac; later_calls checkBadges_later awardXP_later updateStreak_later).
Qed.

End ClockReadings.

(** * Further properties of the activity tracker *)

Section TrackerMore.
Import AData ActivityTrackerManager.

Variable G : Type.
Variable Gamification : option (GamificationAPI G).
Variable clock : nat -> Z.
Variable isoDate : Z -> string.
Variable minusDays : Z -> Z -> Z.
Variable Math_random : nat -> Z -> Z.

(** The hooks of [window.Gamification] cannot reach the tracker's data. *)
Lemma ifGamification_data m w :
  data (snd (ifGamification G Gamification m w)) = data w.
Proof.
  unfold ifGamification. destruct Gamification as [api|]; [|done].
  by destruct (m api _).
Qed.

(** ** Which day entries a call can write *)

(** The keys that the tracker computes from the [n]-th reading of the
    clock: its ISO date, and the dates of the week that ends with it. *)
Definition computed_from (n : nat) (k : string) : Prop :=
  isoDate (clock n) = k \/
  exists i, 0 <= i <= 6 /\ isoDate (minusDays (clock n) i) = k.

(** The hooks of [window.Gamification] read the clock like any other
    code: they add readings and take none back. *)
Definition hooks_keep_time : Prop :=
  forall api, Gamification = Some api ->
  forall gb,
    (forall n, (ticks (snd gb) <= ticks (snd (api_logSteps api n gb)))%nat) /\
    (forall wk, (ticks (snd gb) <= ticks (snd (api_logWorkout api wk gb)))%nat).

Lemma ifGamification_ticks m w :
  (forall api, Gamification = Some api ->
     forall gb, (ticks (snd gb) <= ticks (snd (m api gb)))%nat) ->
  (ticks (browser w) <= ticks (browser (snd (ifGamification G Gamification m w))))%nat.
Proof.
  intros Hm. unfold ifGamification. destruct Gamification as [api|]; [|simpl; lia].
  specialize (Hm api eq_refl (gamification w, browser w)).
  destruct (m api _) as [g' b']. exact Hm.
Qed.

Section DayFrame.

Variable dk : string.

Section Window.

(** Between the readings [lo] and [hi] of the clock, none yields [dk]. *)
Variables lo hi : nat.
Hypothesis Hwindow : forall n, (lo <= n < hi)%nat -> ~ computed_from n dk.
Hypothesis Hhooks : hooks_keep_time.

(** The clock is not turned back; and when [guard] holds, a step that
    starts and ends between the readings [lo] and [hi] leaves the entry
    under [dk] as it was. *)
Definition day_frame (guard : Prop) (w w' : World G) : Prop :=
  (ticks (browser w) <= ticks (browser w'))%nat /\
  (guard -> (lo <= ticks (browser w))%nat -> (ticks (browser w') <= hi)%nat ->
   days (data w') !! dk = days (data w) !! dk).

#[local] Instance day_frame_refl guard : Reflexive (day_frame guard).
Proof. intros w. split; [lia|done]. Qed.

#[local] Instance day_frame_trans guard : Transitive (day_frame guard).
Proof.
  intros w1 w2 w3 [Ht1 Hd1] [Ht2 Hd2]. split; [lia|].
  intros Hg Hlo Hhi. rewrite Hd2, Hd1; auto; lia.
Qed.

(** What a reading between [lo] and [hi] tells about the instant read. *)
Definition not_dated (t : Z) : Prop :=
  isoDate t <> dk /\ forall i, 0 <= i <= 6 -> isoDate (minusDays t i) <> dk.

Lemma reading_not_dated n : (lo <= n < hi)%nat -> not_dated (clock n).
Proof.
  intros Hn. pose proof (Hwindow n Hn) as Hnot. unfold computed_from in Hnot. split.
  - intros H. apply Hnot. by left.
  - intros i Hi H. apply Hnot. right. by exists i.
Qed.

Lemma newDate_bind {B} guard (k : Z -> M G B) :
  (forall t, preserves (day_frame (guard /\ not_dated t)) (k t)) ->
  preserves (day_frame guard) (bind (newDate G clock) k).
Proof.
  intros Hk w.
  destruct (Hk (clock (ticks (browser w))) (snd (newDate G clock w))) as [Ht Hd].
  change (snd (bind (newDate G clock) k w))
    with (snd (k (clock (ticks (browser w))) (snd (newDate G clock w)))).
  assert (Hw1 : ticks (browser (snd (newDate G clock w))) = S (ticks (browser w)))
    by reflexivity.
  split; [lia|]. intros Hg Hlo Hhi. rewrite Hd; [done| |lia|done].
  split; [done|]. apply reading_not_dated. lia.
Qed.

Lemma todayKey_bind {B} guard (k : string -> M G B) :
  (forall key, preserves (day_frame (guard /\ key <> dk)) (k key)) ->
  preserves (day_frame guard) (bind (todayKey G clock isoDate) k).
Proof.
  intros Hk w.
  destruct (Hk (isoDate (clock (ticks (browser w)))) (snd (newDate G clock w)))
    as [Ht Hd].
  change (snd (bind (todayKey G clock isoDate) k w))
    with (snd (k (isoDate (clock (ticks (browser w)))) (snd (newDate G clock w)))).
  assert (Hw1 : ticks (browser (snd (newDate G clock w))) = S (ticks (browser w)))
    by reflexivity.
  split; [lia|]. intros Hg Hlo Hhi. rewrite Hd; [done| |lia|done].
  split; [done|]. apply (reading_not_dated (ticks (browser w))). lia.
Qed.

Lemma week_forOf {B} guard (body : Z -> B -> M G B) :
  (forall i acc, 0 <= i <= 6 -> preserves (day_frame guard) (body i acc)) ->
  forall acc, preserves (day_frame guard) (forOf sixToZero body acc).
Proof.
  intros Hbody. apply preserves_forOf_Forall; [typeclasses eauto|typeclasses eauto|].
  unfold sixToZero.
  repeat (apply Forall_cons_2; [intros acc; apply Hbody; lia|]). apply Forall_nil_2.
Qed.

Lemma same_data_frame {A} guard (c : M G A) :
  (forall w, data (snd (c w)) = data w) ->
  (forall w, (ticks (browser w) <= ticks (browser (snd (c w))))%nat) ->
  preserves (day_frame guard) c.
Proof. intros Hd Ht w. split; [apply Ht|]. intros _ _ _. by rewrite Hd. Qed.

Lemma modifyData_frame guard f :
  (guard -> forall d, days (f d) !! dk = days d !! dk) ->
  preserves (day_frame guard) (modifyData G f).
Proof. intros Hf w. split; [simpl; lia|]. intros Hg _ _. by apply Hf. Qed.

Lemma getDay_frame guard k :
  (guard -> k <> dk) -> preserves (day_frame guard) (getDay G k).
Proof.
  intros Hk w. unfold day_frame, getDay, bind, getData. simpl.
  destruct (days (data w) !! k); simpl; (split; [lia|]); [done|].
  intros Hg _ _. rewrite lookup_insert_ne; [done|by apply Hk].
Qed.

Lemma updateDay_frame guard k f :
  (guard -> k <> dk) -> preserves (day_frame guard) (updateDay G k f).
Proof.
  intros Hk. apply modifyData_frame. intros Hg d. simpl.
  rewrite lookup_alter_ne; [done|by apply Hk].
Qed.

Lemma ifGamification_day_frame guard m :
  (forall api, Gamification = Some api ->
     forall gb, (ticks (snd gb) <= ticks (snd (m api gb)))%nat) ->
  preserves (day_frame guard) (ifGamification G Gamification m).
Proof.
  intros Hm. apply same_data_frame; [apply ifGamification_data|].
  intros w. by apply ifGamification_ticks.
Qed.

(** A key differs from [dk] by what the guard or the context says. *)
Ltac key_differs :=
  let Hg := fresh "Hg" in
  intros Hg; unfold not_dated in Hg;
  first [ assumption | tauto | intuition eauto ].

Ltac frame_steps :=
  repeat lazymatch goal with
  | |- preserves _ (bind (todayKey _ _ _) _) => apply todayKey_bind; intros ?
  | |- preserves _ (bind (newDate _ _) _) => apply newDate_bind; intros ?
  | |- preserves _ (bind _ _) =>
      apply preserves_bind; [typeclasses eauto| |intros ?]
  | |- preserves _ (ret _) => apply preserves_ret; typeclasses eauto
  | |- preserves _ (forOf sixToZero _ _) => apply week_forOf; intros ? ? ?
  | |- preserves _ (getDay _ _) => apply getDay_frame; key_differs
  | |- preserves _ (updateDay _ _ _) => apply updateDay_frame; key_differs
  | |- preserves _ (modifyData _ _) =>
      let H := fresh "H" in
      apply modifyData_frame; intros H ?; simpl;
      first [ reflexivity
            | rewrite lookup_delete_ne; [reflexivity|revert H; key_differs]
            | rewrite lookup_insert_ne; [reflexivity|revert H; key_differs] ]
  | |- preserves _ (ifGamification _ _ (fun api => api_logSteps api _)) =>
      apply ifGamification_day_frame; intros ? ? ?; by apply Hhooks
  | |- preserves _ (ifGamification _ _ (fun api => api_logWorkout api _)) =>
      apply ifGamification_day_frame; intros ? ? ?; by apply Hhooks
  | |- preserves _ _ =>
      apply same_data_frame; intros ?; simpl; first [reflexivity|lia]
  end.

Lemma run_day_frame (c : Call) :
  c <> CallGetDay dk -> c <> CallGetDaySummary dk ->
  preserves (day_frame True)
    (fun w => (tt, run G Gamification clock isoDate minusDays Math_random c w)).
Proof.
  intros Hget Hsum.
  assert (Hsnd : forall A (m : M G A),
            preserves (day_frame True) m ->
            preserves (day_frame True) (fun w => (tt, snd (m w))))
    by (intros A m Hm w; apply Hm).
  assert (Hk : forall k, CallGetDay k <> CallGetDay dk -> k <> dk) by congruence.
  assert (Hk' : forall k, CallGetDaySummary k <> CallGetDaySummary dk -> k <> dk)
    by congruence.
  destruct c; try (apply Hk in Hget); try (apply Hk' in Hsum); apply Hsnd;
    unfold enableTracking, isEnabled, logSteps, logCalories, logActiveMinutes,
      logWater, logActivity, logWeight, setGoals, getWeekTotals, getWeekSummary,
      getStatus, resetToday, seedDemoData, dispatchUpdate, getTodaySummary,
      getDaySummary, save, readDay;
    cbv zeta;
    frame_steps.
Qed.

End Window.

(** X12. A call writes only the day entries whose keys it computes.  When
    the hooks of [window.Gamification] take no clock reading back, an
    entry whose key is not the argument of [getDay] or [getDaySummary],
    and is neither the ISO date of a clock reading made during the call
    nor one of the six days before such a reading, is the same before and
    after the call. *)
Theorem calls_write_dated_entries_only (c : Call) (w : World G) :
  let w' := run G Gamification clock isoDate minusDays Math_random c w in
  hooks_keep_time ->
  c <> CallGetDay dk -> c <> CallGetDaySummary dk ->
  (forall n, (ticks (browser w) <= n < ticks (browser w'))%nat ->
     ~ computed_from n dk) ->
  days (data w') !! dk = days (data w) !! dk.
Proof.
  intros w' Hhooks Hget Hsum Hwindow.
  destruct (run_day_frame (ticks (browser w)) (ticks (browser w')) Hwindow Hhooks
              c Hget Hsum w) as [_ Hdays].
  apply Hdays; [exact I|lia|unfold w'; simpl; lia].
Qed.

End DayFrame.

(** ** Reading adds empty entries *)

Definition today (w : World G) : string := isoDate (clock (ticks (browser w))).

Definition entry (k : string) (w : World G) : Day :=
  default emptyDay (days (data w) !! k).

(** From [d] to [d'] the entries present stay as they are, the new ones
    are empty, and the goals and the tracking flag are the same. *)
Definition keeps_entries (d d' : Data) : Prop :=
  (forall k day, days d !! k = Some day -> days d' !! k = Some day) /\
  (forall k day, days d' !! k = Some day ->
     days d !! k = Some day \/ (days d !! k = None /\ day = emptyDay)) /\
  goals d' = goals d /\ trackingEnabled d' = trackingEnabled d.

#[local] Instance keeps_entries_refl : Reflexive keeps_entries.
Proof. intros d. repeat split; auto. Qed.

#[local] Instance keeps_entries_trans : Transitive keeps_entries.
Proof.
  intros d1 d2 d3 (H1 & H1' & Hg1 & Ht1) (H2 & H2' & Hg2 & Ht2).
  split; [auto|]. split; [|split; congruence].
  intros k day H3. destruct (H2' k day H3) as [H|[H ->]].
  - auto.
  - destruct (days d1 !! k) as [x|] eqn:E; [|by right].
    apply H1 in E. congruence.
Qed.

(** What a reading step does to the tracker's data and stored entry. *)
Definition reads_rel (w w' : World G) : Prop :=
  keeps_entries (data w) (data w') /\
  localStorage (browser w') !! storageKey = localStorage (browser w) !! storageKey.

#[local] Instance reads_rel_refl : Reflexive reads_rel.
Proof. intros w. split; reflexivity. Qed.

#[local] Instance reads_rel_trans : Transitive reads_rel.
Proof.
  intros w1 w2 w3 [H1 H1'] [H2 H2']. split; [etransitivity; eauto|congruence].
Qed.

Lemma getDay_reads k : preserves reads_rel (getDay G k).
Proof.
  intros w. unfold reads_rel, getDay, bind, getData. simpl.
  destruct (days (data w) !! k) eqn:E; simpl; [split; reflexivity|].
  split; [|done]. repeat split; simpl; auto.
  - intros k' day Hk'. destruct (decide (k = k')) as [<-|Hne]; [congruence|].
    by rewrite lookup_insert_ne.
  - intros k' day. destruct (decide (k = k')) as [<-|Hne].
    + rewrite lookup_insert_eq. intros [= <-]. by right.
    + rewrite lookup_insert_ne by done. by left.
Qed.

Ltac reads_steps :=
  walk ltac:(idtac;
    lazymatch goal with
    | |- preserves _ (getDay _ _) => apply getDay_reads
    | |- preserves _ (let _ := _ in _) => cbv zeta
    | |- preserves reads_rel _ => intros ?; split; reflexivity
    end).

Lemma dispatchUpdate_reads : preserves reads_rel (dispatchUpdate G clock isoDate).
Proof. unfold dispatchUpdate, getTodaySummary, todayKey. reads_steps. Qed.

(** The calls that only read: they neither write an entry nor save. *)
Definition reading (c : Call) : bool :=
  match c with
  | CallTodayKey | CallGetDay _ | CallIsEnabled | CallGetTodaySummary
  | CallGetDaySummary _ | CallGetWeekSummary | CallGetWeekTotals | CallGetStatus
  | CallDispatchUpdate => true
  | _ => false
  end.

Lemma run_reading (c : Call) :
  reading c = true ->
  preserves reads_rel
    (fun w => (tt, run G Gamification clock isoDate minusDays Math_random c w)).
Proof.
  intros Hc.
  assert (Hsnd : forall A (m : M G A),
            preserves reads_rel m -> preserves reads_rel (fun w => (tt, snd (m w))))
    by (intros A m Hm w; apply Hm).
  destruct c; try discriminate Hc; apply Hsnd;
    unfold isEnabled, getWeekTotals, getWeekSummary, getStatus, dispatchUpdate,
      getTodaySummary, getDaySummary, todayKey;
    reads_steps.
Qed.

(** X13. The reading methods are not pure: through [getDay] they add day
    entries to [this.data].  They add only empty entries under keys that
    had none, change no entry that was there, nor the goals, nor the
    tracking flag, and do not write the stored copy. *)
Theorem reading_adds_only_empty_days (c : Call) (w : World G) :
  reading c = true ->
  let w' := run G Gamification clock isoDate minusDays Math_random c w in
  keeps_entries (data w) (data w') /\
  localStorage (browser w') !! storageKey = localStorage (browser w) !! storageKey.
Proof. intros Hc w'. apply (run_reading c Hc w). Qed.

(** ** What a log call returns *)

(** The stored copy is the tracker's data. *)
Definition tracker_persisted (w : World G) : Prop :=
  localStorage (browser w) !! storageKey = Some (StoredActivity (data w)).

Lemma getDay_state k w :
  snd (getDay G k w)
  = snd (modifyData G (fun d => with_days (<[k := entry k w]> (days d)) d) w).
Proof.
  unfold getDay, bind, getData, entry. simpl.
  destruct (days (data w) !! k) eqn:E; simpl; [|done].
  rewrite insert_id by done. destruct w as [[] ? ?]. reflexivity.
Qed.

(** Up to the save, a log call creates today's entry if it is missing,
    changes it by [f] and stamps it. *)
Lemma log_head f (tail : string -> M G Day) (Q : Day -> World G -> Prop) w :
  (forall w1,
     days (data w1) !! today w
       = Some (set_lastUpdated (clock (S (ticks (browser w)))) (f (entry (today w) w))) ->
     tracker_persisted w1 ->
     post (tail (today w)) w1 Q) ->
  post (key <- todayKey G clock isoDate ;;
        getDay G key ;;
        updateDay G key f ;;
        t <- newDate G clock ;;
        updateDay G key (set_lastUpdated t) ;;
        save G ;;
        tail key) w Q.
Proof.
  intros Htail.
  apply post_bind. unfold post at 1. simpl.
  apply post_bind. unfold post at 1. rewrite getDay_state. simpl.
  do 4 (apply post_bind; unfold post at 1; simpl).
  apply Htail.
  - simpl. rewrite !lookup_alter_eq, lookup_insert_eq. reflexivity.
  - unfold tracker_persisted. simpl. apply lookup_insert_eq.
Qed.

Lemma ifGamification_reads m :
  (forall api gb, Gamification = Some api ->
     localStorage (snd (m api gb)) !! storageKey = localStorage (snd gb) !! storageKey) ->
  preserves reads_rel (ifGamification G Gamification m).
Proof.
  intros Hm w. unfold reads_rel. rewrite ifGamification_data.
  split; [reflexivity|]. unfold ifGamification.
  destruct Gamification as [api|] eqn:HG; [|done].
  specialize (Hm api (gamification w, browser w) eq_refl).
  destruct (m api (gamification w, browser w)) as [g' b']. exact Hm.
Qed.

(** A hook changes the browser but not the tracker's entries. *)
Lemma hook_entries m key x w :
  days (data w) !! key = Some x ->
  post (ifGamification G Gamification m ;; dispatchUpdate G clock isoDate ;;
        readDay G key) w
    (fun day w' => day = x /\ days (data w') !! key = Some x).
Proof.
  intros Hx. apply post_bind. unfold post at 1.
  rewrite <- (ifGamification_data m w) in Hx.
  revert Hx. generalize (snd (ifGamification G Gamification m w)). intros w1 Hx.
  apply post_bind, (post_preserves reads_rel); [apply dispatchUpdate_reads|].
  intros u' w2 [(Hkeep2 & _) _]. apply Hkeep2 in Hx.
  unfold post. simpl. by rewrite Hx.
Qed.

Lemma plain_entries key x w :
  days (data w) !! key = Some x ->
  post (dispatchUpdate G clock isoDate ;; readDay G key) w
    (fun day w' => day = x /\ days (data w') !! key = Some x).
Proof.
  intros Hx.
  apply post_bind, (post_preserves reads_rel); [apply dispatchUpdate_reads|].
  intros u' w2 [(Hkeep2 & _) _]. apply Hkeep2 in Hx.
  unfold post. simpl. by rewrite Hx.
Qed.

(** X14. Each counter's log method returns today's entry (a fresh empty
    one if the day had none) with the amount added to its counter and the
    time of the second clock reading as [lastUpdated], and that entry is
    the one [this.data] holds for today when the method returns; the
    Gamification hook and the update event do not disturb it. *)
Theorem log_adds_to_today (n : Z) (w : World G) :
  let stamp f :=
    set_lastUpdated (clock (S (ticks (browser w)))) (f (entry (today w) w)) in
  let returns (m : M G Day) (day : Day) :=
    fst (m w) = day /\ days (data (snd (m w))) !! today w = Some day in
  returns (logSteps G Gamification clock isoDate n) (stamp (add_steps n)) /\
  returns (logCalories G clock isoDate n) (stamp (add_calories n)) /\
  returns (logActiveMinutes G clock isoDate n) (stamp (add_activeMinutes n)) /\
  returns (logWater G clock isoDate n) (stamp (add_water n)) /\
  returns (logWeight G clock isoDate n) (stamp (set_weight n)).
Proof.
  intros stamp returns. subst stamp returns. cbv beta.
  repeat split.
  all: lazymatch goal with
       | |- fst (?m ?w0) = ?day =>
           change (post m w0 (fun r _ => r = day))
       | |- days (data (snd (?m ?w0))) !! ?k = ?day =>
           change (post m w0 (fun _ w' => days (data w') !! k = day))
       end.
  all: unfold logSteps, logCalories, logActiveMinutes, logWater, logWeight;
       apply log_head; intros w1 Hw1 _;
       (eapply post_mono; [first [by apply hook_entries|by apply plain_entries]|]);
       intros day w' [-> Hday]; done.
Qed.

(** X15. [logActivity] adds the activity's steps, calories and minutes
    (0 for a missing field) to today's counters, appends one activity
    record (type [general] and empty notes by default) stamped with the
    second clock reading, and returns the entry that [this.data] then holds
    for today. *)
Theorem logActivity_appends (a : ActivityInput) (w : World G) :
  let activity :=
    {| type := JS.str_or (in_type a) "general";
       duration := JS.num_or (in_duration a) 0;
       calories := JS.num_or (in_calories a) 0;
       steps := JS.num_or (in_steps a) 0;
       notes := JS.str_or (in_notes a) "";
       timestamp := clock (S (ticks (browser w))) |} in
  let old := entry (today w) w in
  let day := fst (logActivity G Gamification clock isoDate a w) in
  days (data (snd (logActivity G Gamification clock isoDate a w))) !! today w
    = Some day /\
  day_steps day = day_steps old + JS.num_or (in_steps a) 0 /\
  day_calories day = day_calories old + JS.num_or (in_calories a) 0 /\
  day_activeMinutes day = day_activeMinutes old + JS.num_or (in_duration a) 0 /\
  day_activities day = day_activities old ++ [activity] /\
  day_lastUpdated day = Some (clock (S (S (ticks (browser w))))) /\
  day_water day = day_water old /\ day_weight day = day_weight old.
Proof.
  intros activity old day.
  assert (H : post (logActivity G Gamification clock isoDate a) w
                (fun r w' =>
                   r = set_lastUpdated (clock (S (S (ticks (browser w)))))
                         (push_activity activity
                            (add_activeMinutes (JS.num_or (in_duration a) 0)
                               (add_calories (JS.num_or (in_calories a) 0)
                                  (add_steps (JS.num_or (in_steps a) 0) old))))
                   /\ days (data w') !! today w = Some r)).
  { unfold logActivity. cbv zeta.
    apply post_bind. unfold post at 1. simpl.
    apply post_bind. unfold post at 1. rewrite getDay_state. simpl.
    do 8 (apply post_bind; unfold post at 1; simpl).
    eapply post_mono.
    - apply hook_entries. simpl.
      rewrite !lookup_alter_eq, lookup_insert_eq. reflexivity.
    - intros r w' [-> Hr]. split; [reflexivity|exact Hr]. }
  unfold post in H. fold day in H. destruct H as [Hday Hstored].
  split; [exact Hstored|]. rewrite Hday. simpl. repeat split; reflexivity.
Qed.

(** ** The stored copy *)

(** The stored copy lags behind [this.data] by empty entries at most. *)
Definition tracker_stored (w : World G) : Prop :=
  exists d, localStorage (browser w) !! storageKey = Some (StoredActivity d) /\
            keeps_entries d (data w).

Lemma reads_keep_stored w w' : reads_rel w w' -> tracker_stored w -> tracker_stored w'.
Proof.
  intros [Hkeep Hls] (d & Hd & Hlag). exists d. split; [congruence|].
  etransitivity; eauto.
Qed.

Lemma save_stored w : post (save G) w (fun _ w' => tracker_stored w').
Proof.
  unfold post, tracker_stored. simpl. eexists. split; [apply lookup_insert_eq|].
  reflexivity.
Qed.

Section StoredCopy.

Hypothesis Hapi : hooks_leave Gamification storageKey.

Ltac to_save :=
  repeat lazymatch goal with
  | |- post (bind (save _) _) _ _ => fail
  | |- post (bind _ _) _ _ => apply post_bind_any; intros ? ?
  end.

Ltac after_save :=
  walk ltac:(idtac;
    lazymatch goal with
    | |- preserves _ (dispatchUpdate _ _ _) => apply dispatchUpdate_reads
    | |- preserves _ (ifGamification _ _ _) =>
        apply ifGamification_reads;
        intros api gb HG; destruct (Hapi api HG gb) as [Hsteps Hworkout];
        first [apply Hsteps|apply Hworkout]
    | |- preserves reads_rel _ => intros ?; split; reflexivity
    end).

(** X16. When the Gamification hooks leave the tracker's key alone, the
    stored copy differs from [this.data] by nothing but empty day entries
    that reading has added since the last save: every call keeps this
    true, and every call that is not a mere read makes it true. *)
Theorem stored_copy_lags_by_empty_days (c : Call) (w : World G) :
  let w' := run G Gamification clock isoDate minusDays Math_random c w in
  (tracker_stored w -> tracker_stored w') /\
  (reading c = false -> tracker_stored w').
Proof.
  intros w'. subst w'.
  destruct (reading c) eqn:Hc.
  { split; [|discriminate]. apply reads_keep_stored, (run_reading c Hc w). }
  assert (H : tracker_stored
                (run G Gamification clock isoDate minusDays Math_random c w));
    [|by split].
  destruct c; try discriminate Hc; unfold run;
    lazymatch goal with
    | |- tracker_stored (snd (?m ?w0)) =>
        change (post m w0 (fun _ w' => tracker_stored w'))
    end;
    unfold enableTracking, logSteps, logCalories, logActiveMinutes, logWater,
      logActivity, logWeight, setGoals, resetToday, seedDemoData;
    cbv zeta; to_save;
    first
      [ apply save_stored
      | apply post_bind; eapply post_mono; [apply save_stored|];
        intros u w1 Hw1; apply (post_preserves reads_rel); [after_save|];
        intros r w2 Hw2; by apply (reads_keep_stored w1 w2) ].
Qed.

End StoredCopy.

(** ** Resetting today *)

(** X17. [resetToday] deletes today's entry from the stored copy, but
    not for long from [this.data]: the update event it fires reads today's
    summary, which puts an empty entry back when the clock is still on the
    same day. *)
Theorem resetToday_leaves_empty_entry (w : World G) :
  let w' := snd (resetToday G clock isoDate w) in
  (exists d, localStorage (browser w') !! storageKey = Some (StoredActivity d) /\
             days d !! today w = None) /\
  (days (data w') !! today w = None \/ days (data w') !! today w = Some emptyDay) /\
  (isoDate (clock (S (ticks (browser w)))) = today w ->
   days (data w') !! today w = Some emptyDay).
Proof.
  intros w'. subst w'.
  unfold resetToday, dispatchUpdate, getTodaySummary, todayKey, getDay, bind, getData,
    today.
  simpl.
  set (key := isoDate (clock (ticks (browser w)))).
  set (key2 := isoDate (clock (S (ticks (browser w))))).
  destruct (delete key (days (data w)) !! key2) eqn:E; simpl.
  - split; [eexists; split; [apply lookup_insert_eq|apply lookup_delete_eq]|].
    split; [left; apply lookup_delete_eq|].
    intros Hsame. rewrite Hsame, lookup_delete_eq in E. discriminate E.
  - split; [eexists; split; [apply lookup_insert_eq|apply lookup_delete_eq]|].
    split.
    + destruct (decide (key2 = key)) as [->|Hne].
      * right. apply lookup_insert_eq.
      * left. rewrite lookup_insert_ne by done. apply lookup_delete_eq.
    + intros ->. apply lookup_insert_eq.
Qed.

(** ** Demo data *)

Section DemoData.

(** [Math.random()] is below 1, yet the binary64 sum [b + Math.random() * n]
    can round up to [b + n] before [Math.floor] sees it. *)
Hypothesis Hrandom : forall j n, 0 < n -> 0 <= Math_random j n <= n.

(** The ranges [seedDemoData] draws a day's counters from, both ends
    included. *)
Definition demo_day (day : Day) : Prop :=
  5000 <= day_steps day <= 13000 /\
  200 <= day_calories day <= 700 /\
  15 <= day_activeMinutes day <= 75 /\
  3 <= day_water day <= 9 /\
  day_weight day = None /\ day_activities day = [].

Definition seeded (k : string) (w : World G) : Prop :=
  exists day, days (data w) !! k = Some day /\ demo_day day.

Lemma reads_keep_seeded k w w' : reads_rel w w' -> seeded k w -> seeded k w'.
Proof.
  intros [(Hkeep & _) _] (day & Hday & Hdemo). exists day. split; [auto|done].
Qed.

Lemma seed_loop (today : Z) (l : list Z) (j : nat) (w : World G) :
  post (forOf l (fun i (j : nat) =>
          let d := minusDays today i in
          let key := isoDate d in
          modifyData G (fun dt => with_days
            (<[key := {| day_steps := 5000 + Math_random (4 * j) 8000;
                         day_calories := 200 + Math_random (4 * j + 1) 500;
                         day_activeMinutes := 15 + Math_random (4 * j + 2) 60;
                         day_water := 3 + Math_random (4 * j + 3) 6;
                         day_weight := None;
                         day_activities := [];
                         day_lastUpdated := Some d |}]> (days dt)) dt) ;;
          ret (S j)) j) w
    (fun _ w' =>
       (forall i, i ∈ l -> seeded (isoDate (minusDays today i)) w') /\
       (forall k, seeded k w -> seeded k w')).
Proof.
  revert j w. induction l as [|i l IH]; intros j w; simpl.
  { split; [intros i Hi; by apply elem_of_nil in Hi|done]. }
  apply post_bind. unfold post at 1. simpl.
  match goal with |- post _ ?w1 _ => set (w1' := w1) end.
  assert (Hi : seeded (isoDate (minusDays today i)) w1').
  { eexists. split; [apply lookup_insert_eq|].
    unfold demo_day.
    cbn [day_steps day_calories day_activeMinutes day_water day_weight day_activities].
    repeat split;
      first [ reflexivity
            | match goal with
              | |- context [Math_random ?a ?n] =>
                  pose proof (Hrandom a n ltac:(lia)); lia
              end ]. }
  assert (Hkeep : forall k, seeded k w -> seeded k w1').
  { intros k (day & Hday & Hdemo).
    destruct (decide (isoDate (minusDays today i) = k)) as [<-|Hne]; [exact Hi|].
    exists day. split; [|done]. simpl. by rewrite lookup_insert_ne. }
  eapply post_mono; [apply IH|]. intros u w' [Hl Hk]. split.
  - intros i' [->|Hi']%elem_of_cons; [by apply Hk|by apply Hl].
  - intros k Hs. by apply Hk, Hkeep.
Qed.

(** X18. [seedDemoData] leaves an entry for each of the last seven days,
    today included, whose steps lie between 5000 and 13000, calories
    between 200 and 700, active minutes between 15 and 75 and water
    between 3 and 9, both ends included (the floor is taken of a rounded
    sum, which can reach the upper end), with no activities and no weight;
    it turns tracking on and saves. *)
Theorem seedDemoData_ranges (w : World G) :
  let w' := snd (seedDemoData G clock isoDate minusDays Math_random w) in
  (forall i, 0 <= i <= 6 ->
     seeded (isoDate (minusDays (clock (ticks (browser w))) i)) w') /\
  trackingEnabled (data w') = true /\
  tracker_stored w'.
Proof.
  intros w'. subst w'.
  change (post (seedDemoData G clock isoDate minusDays Math_random) w
            (fun _ w' =>
               (forall i, 0 <= i <= 6 ->
                  seeded (isoDate (minusDays (clock (ticks (browser w))) i)) w') /\
               trackingEnabled (data w') = true /\ tracker_stored w')).
  unfold seedDemoData.
  apply post_bind. unfold post at 1.
  change (fst (newDate G clock w)) with (clock (ticks (browser w))).
  generalize (snd (newDate G clock w)). intros w0.
  apply post_bind. eapply post_mono; [apply seed_loop|].
  intros u w1 [Hl _].
  apply post_bind. unfold post at 1. simpl.
  apply post_bind. unfold post at 1.
  match goal with |- post _ ?w2 _ => set (w2' := w2) end.
  assert (Hw2 : tracker_stored w2' /\ trackingEnabled (data w2') = true /\
                forall i, i ∈ sixToZero ->
                  seeded (isoDate (minusDays (clock (ticks (browser w))) i)) w2').
  { split; [apply save_stored|]. split; [done|]. intros i Hi.
    destruct (Hl i Hi) as (day & Hday & Hdemo). by exists day. }
  destruct Hw2 as (Hst & Hen & Hseed).
  apply (post_preserves reads_rel); [apply dispatchUpdate_reads|].
  intros r w3 Hw3. split; [|split].
  - intros i Hi. apply (reads_keep_seeded _ w2' w3 Hw3), Hseed.
    apply list_elem_of_In. simpl. lia.
  - destruct Hw3 as [(_ & _ & _ & Ht) _]. congruence.
  - by apply (reads_keep_stored w2' w3).
Qed.

End DemoData.

(** ** The week's summary *)

Lemma getDay_result k w : fst (getDay G k w) = entry k w.
Proof.
  unfold getDay, bind, getData, entry. simpl. by destruct (days (data w) !! k).
Qed.

(** The entries read so far are those of [this.data], and nothing was
    saved. *)
Definition week_inv (w0 : World G) (acc : list (string * Summary)) (w : World G) : Prop :=
  keeps_entries (data w0) (data w) /\
  localStorage (browser w) = localStorage (browser w0) /\
  forall key sm, (key, sm) ∈ acc ->
    days (data w) !! key = Some (sum_day sm) /\ sum_goals sm = goals (data w0).

Lemma week_step (w0 : World G) (i : Z) (acc : list (string * Summary)) (w : World G) :
  week_inv w0 acc w ->
  post (t <- newDate G clock ;;
        let key := isoDate (minusDays t i) in
        sm <- getDaySummary G key ;;
        ret (acc ++ [(key, sm)])) w
    (fun acc' w' => length acc' = S (length acc) /\ week_inv w0 acc' w').
Proof.
  intros HI. apply post_bind. unfold post at 1.
  set (t := fst (newDate G clock w)). set (w1 := snd (newDate G clock w)).
  assert (HI1 : week_inv w0 acc w1) by exact HI.
  clearbody t w1. cbv zeta. set (key := isoDate (minusDays t i)). clearbody key.
  destruct HI1 as (Hkeep & Hls & Hacc).
  apply post_bind. unfold getDaySummary. apply post_bind. unfold post at 1.
  pose proof (getDay_reads key w1) as [Hk _].
  rewrite getDay_result. rewrite getDay_state in *. simpl in Hk.
  unfold post. simpl. split; [rewrite length_app; simpl; lia|].
  split; [etransitivity; eauto|]. split; [exact Hls|].
  intros key' sm [Hin|Hin]%elem_of_app.
  - destruct (Hacc key' sm Hin) as [Hday Hgoals]. split; [|exact Hgoals].
    destruct Hk as (Hk & _). by apply Hk.
  - apply list_elem_of_singleton in Hin. injection Hin as -> ->. simpl.
    split; [apply lookup_insert_eq|]. by destruct Hkeep as (_ & _ & Hg & _).
Qed.

Lemma week_loop (w0 : World G) (l : list Z) (acc : list (string * Summary))
      (w : World G) :
  week_inv w0 acc w ->
  post (forOf l (fun i acc =>
          t <- newDate G clock ;;
          let key := isoDate (minusDays t i) in
          sm <- getDaySummary G key ;;
          ret (acc ++ [(key, sm)])) acc) w
    (fun week w' => length week = (length acc + length l)%nat /\ week_inv w0 week w').
Proof.
  revert acc w. induction l as [|i l IH]; intros acc w HI.
  { unfold post. simpl. split; [lia|exact HI]. }
  cbn [forOf]. apply post_bind.
  eapply post_mono; [by apply (week_step w0)|].
  intros acc' w' [Hlen HI']. eapply post_mono; [by apply IH|].
  intros week w2 [Hlen2 HI2]. split; [|exact HI2]. simpl. lia.
Qed.

(** X19. [getWeekSummary] returns seven summaries, oldest day first.
    Each holds the entry that [this.data] has under its key when the method
    returns (an empty one where the day had none, which the method adds),
    and the current goals; the method changes no entry that was there and
    saves nothing. *)
Theorem getWeekSummary_seven_days (w : World G) :
  let week := fst (getWeekSummary G clock isoDate minusDays w) in
  let w' := snd (getWeekSummary G clock isoDate minusDays w) in
  length week = 7%nat /\
  (forall key sm, (key, sm) ∈ week ->
     days (data w') !! key = Some (sum_day sm) /\ sum_goals sm = goals (data w)) /\
  keeps_entries (data w) (data w') /\
  localStorage (browser w') = localStorage (browser w).
Proof.
  intros week w'. subst week w'.
  pose proof (week_loop w sixToZero [] w) as H. unfold post in H.
  destruct H as (Hlen & Hkeep & Hls & Hacc).
  { split; [reflexivity|]. split; [reflexivity|].
    intros key sm Hin. by apply elem_of_nil in Hin. }
  unfold getWeekSummary. split; [exact Hlen|]. split; [exact Hacc|]. by split.
Qed.

End TrackerMore.

Lemma realGamification_keeps_time (clock : nat -> Z) (toDateString : Z -> Z) :
  hooks_keep_time GData.Data
    (Some (ActivityTrackerManager.realGamification clock toDateString)).
Proof.
  intros api [= <-] gb. split.
  - intros n.
    apply (logSteps_later clock GamificationManager.constructor n
             {| GamificationManager.data := fst gb;
                GamificationManager.browser := snd gb |}).
  - intros wk.
    apply (logWorkout_later clock toDateString GamificationManager.constructor wk
             {| GamificationManager.data := fst gb;
                GamificationManager.browser := snd gb |}).
Qed.

(** * Further properties of the plan generator *)

Section PlanMore.
Import PlanGenerator.

Variable shuffle : nat -> list Exercise -> list Exercise.

(** ** Equipment *)

Section Equipment.

Hypothesis shuffle_perm : forall n l, shuffle n l ≡ₚ l.

(** A planned exercise made from a database entry that the equipment
    filter lets through. *)
Definition equipment_ok (equipment_ : list string) (level : string)
    (e : PlannedExercise) : Prop :=
  exists group pool x,
    exerciseDatabase group = Some pool /\ x ∈ pool /\
    e = createExerciseWithSets x level /\
    (JS.includes equipment_ "none" = true \/
     JS.includes equipment_ (equipment x) = true).

Lemma createExerciseWithSets_units (x : Exercise) (level : string) :
  equipment x <> "none" ->
  Forall (fun s => unit s = "kg") (pe_sets (createExerciseWithSets x level)).
Proof.
  intros Hx. unfold createExerciseWithSets.
  assert (Hsets : forall config, Forall (fun s => unit s = "kg") (makeSets config x)).
  { intros config. unfold makeSets. apply Forall_forall. intros s Hs.
    apply list_elem_of_fmap in Hs as (i & -> & _). simpl.
    destruct (String.eqb_spec (equipment x) "none"); [done|reflexivity]. }
  destruct (getProperty setsConfig level); simpl; [apply Hsets|constructor|apply Hsets].
Qed.

(** X20. Every exercise that [selectExercises] returns is made from a
    database entry whose equipment is in the user's list, unless the list
    contains [none], which lets every entry through.  So a list without
    [none] leaves out the bodyweight exercises too: every set of every
    exercise is then in kg. *)
Theorem selectExercises_respects_equipment (workoutType : WorkoutType)
    (level : string) (equipment_ : list string) (duration : Z) (n : nat) :
  let exs := fst (selectExercises shuffle workoutType level equipment_ duration n) in
  Forall (equipment_ok equipment_ level) exs /\
  (JS.includes equipment_ "none" = false ->
   Forall (fun e => Forall (fun s => unit s = "kg") (pe_sets e)) exs).
Proof.
  intros exs.
  assert (H : Forall (equipment_ok equipment_ level) exs).
  { subst exs.
    change (post (selectExercises shuffle workoutType level equipment_ duration) n
              (fun exs _ => Forall (equipment_ok equipment_ level) exs)).
    unfold selectExercises. apply post_bind. eapply post_mono.
    { apply (forOf_post (fun acc (_ : nat) => Forall (equipment_ok equipment_ level) acc)).
      - intros group acc m Hacc. apply post_bind. unfold post at 1, shuffled. simpl.
        unfold post. simpl. apply Forall_app. split; [exact Hacc|].
        apply Forall_forall. intros e He.
        apply list_elem_of_fmap in He as (x & -> & Hx).
        apply slice0_subseteq in Hx. rewrite shuffle_perm in Hx.
        destruct (exerciseDatabase group) as [pool|] eqn:Hpool;
          [|by apply elem_of_nil in Hx].
        apply list_elem_of_In, List.filter_In in Hx as [Hx Hf].
        apply andb_prop in Hf as [_ Heq]. apply orb_prop in Heq.
        exists group, pool, x. split; [done|]. split; [by apply list_elem_of_In|].
        split; [done|exact Heq].
      - apply Forall_nil_2. }
    intros acc m Hacc. unfold post. simpl.
    apply Forall_forall. intros e He. apply slice0_subseteq in He.
    by eapply Forall_forall in Hacc. }
  split; [exact H|]. intros Hnone.
  eapply Forall_impl; [exact H|].
  intros e (group & pool & x & _ & _ & -> & [Hany|Hx]); [congruence|].
  apply createExerciseWithSets_units. intros Heq. congruence.
Qed.

End Equipment.

(** ** How many workout days *)

Definition is_rest (t : WorkoutType) : bool :=
  match t with rest => true | _ => false end.

(** The number of workout days of the split chosen for [days_] and
    [goal_]: the number asked for when both are in the tables, and 4, the
    number of the fallback split, otherwise. *)
Definition workoutDays (days_ : Z) (goal_ : string) : Z :=
  if (3 <=? days_) && (days_ <=? 6)
     && JS.includes ["general"; "build_muscle"; "lose_weight"] goal_
  then days_ else 4.

Definition countWorkouts (split : list WorkoutType) : Z :=
  Z.of_nat (length (List.filter (fun t => negb (is_rest t)) split)).

Lemma unknown_goal goal_ :
  "general" <> goal_ -> "build_muscle" <> goal_ -> "lose_weight" <> goal_ ->
  JS.includes ["general"; "build_muscle"; "lose_weight"] goal_ = false.
Proof.
  intros H1 H2 H3. unfold JS.includes. simpl.
  destruct (String.eqb_spec goal_ "general"); [congruence|].
  destruct (String.eqb_spec goal_ "build_muscle"); [congruence|].
  destruct (String.eqb_spec goal_ "lose_weight"); [congruence|]. reflexivity.
Qed.

(** The lookup [splits[days]?.[goal]] in a row of the table. *)
Ltac by_goal :=
  unfold getProperty; cbn [assoc];
  lazymatch goal with
  | |- context [String.eqb "general" ?g] =>
      destruct (String.eqb_spec "general" g) as [<-|Hg1];
      [intros [= <-]; reflexivity|];
      destruct (String.eqb_spec "build_muscle" g) as [<-|Hg2];
      [intros [= <-]; reflexivity|];
      destruct (String.eqb_spec "lose_weight" g) as [<-|Hg3];
      [intros [= <-]; reflexivity|];
      rewrite (unknown_goal g Hg1 Hg2 Hg3), andb_false_r;
      destruct (JS.includes objectPrototypeKeys g);
      [discriminate|intros [= <-]; reflexivity]
  end.

Lemma getWorkoutSplit_workout_days days_ goal_ split :
  getWorkoutSplit days_ goal_ = Own split ->
  countWorkouts split = workoutDays days_ goal_.
Proof.
  unfold workoutDays, getWorkoutSplit, splits. cbn [assocZ].
  destruct (Z.eqb_spec 3 days_) as [<-|H3]; [by_goal|].
  destruct (Z.eqb_spec 4 days_) as [<-|H4]; [by_goal|].
  destruct (Z.eqb_spec 5 days_) as [<-|H5]; [by_goal|].
  destruct (Z.eqb_spec 6 days_) as [<-|H6]; [by_goal|].
  intros [= <-].
  destruct (Z.leb_spec 3 days_), (Z.leb_spec days_ 6); simpl; try reflexivity. lia.
Qed.

Lemma weeklyPlan_isRest level equipment_ duration (l : list (WorkoutType * nat)) :
  forall acc n,
  post (forOf l
          (fun '(workoutType, index) weeklyPlan =>
             day <- planDay shuffle level equipment_ duration workoutType index ;;
             ret (weeklyPlan ++ [day])) acc) n
    (fun r _ => map isRest r = map isRest acc ++ map (fun p => is_rest (fst p)) l).
Proof.
  induction l as [|[wt i] l IH]; intros acc n; simpl.
  - unfold post. simpl. by rewrite app_nil_r.
  - apply post_bind. apply post_bind.
    apply (post_mono _ _ (fun day _ => isRest day = is_rest wt)).
    { destruct wt; unfold planDay; try (apply post_bind; unfold post; reflexivity).
      unfold post. reflexivity. }
    intros day m Hday. unfold post at 1. simpl.
    eapply post_mono; [apply IH|].
    intros r m' ->. rewrite map_app, <- app_assoc. simpl. by rewrite Hday.
Qed.

(** X21. A generated plan has as many workout days as the profile asks
    for when [daysPerWeek] is 3 to 6 and the goal is [general],
    [build_muscle] or [lose_weight]; for every other profile for which a
    plan is returned, the goals [maintain] and [improve_endurance]
    included, it has the 4 workout days of the fallback split, whatever
    [daysPerWeek] says. *)
Theorem generatePlan_workout_days (p : UserProfile) (n : nat) (plan : Plan) :
  fst (generatePlan shuffle p n) = Returns plan ->
  Z.of_nat (length (List.filter (fun d => negb (isRest d)) (days plan)))
  = workoutDays (default 4 (daysPerWeek p)) (default "general" (goal p)).
Proof.
  unfold generatePlan.
  destruct (getWorkoutSplit _ _) as [split| |] eqn:Hsplit; [|discriminate..].
  apply getWorkoutSplit_workout_days in Hsplit. rewrite <- Hsplit.
  pose proof (weeklyPlan_isRest (default "beginner" (fitnessLevel p))
                (default ["none"] (profile_equipment p))
                (default 45 (profile_duration p))
                (imap (fun index workoutType => (workoutType, index)) split)
                [] n) as H.
  unfold post in H. unfold bind at 1.
  match goal with
  | |- context [forOf ?l ?b ?a n] => destruct (forOf l b a n) as [wp m] eqn:Hrun
  end.
  simpl in H. simpl. intros [= <-]. simpl.
  unfold countWorkouts.
  assert (Hmap : map isRest wp = map is_rest split).
  { rewrite H. simpl.
    assert (Himap : forall (f : nat -> WorkoutType -> WorkoutType * nat),
              (forall i t, fst (f i t) = t) ->
              map (fun q => is_rest (fst q)) (imap f split) = map is_rest split).
    { clear. induction split as [|t split IH]; intros f Hf; [done|].
      simpl. rewrite Hf. f_equal. apply IH. intros i t'. apply Hf. }
    by apply Himap. }
  f_equal. clear -Hmap. revert split Hmap.
  induction wp as [|d wp IH]; intros [|t split] Hmap; try discriminate Hmap; [done|].
  simpl in Hmap. injection Hmap as Hd Hmap. simpl. rewrite Hd.
  destruct (is_rest t); simpl; [|f_equal]; by apply IH.
Qed.

End PlanMore.

(** * The stored plan *)

Section PlanStoreProofs.
Import PlanGenerator PlanStore.

Variable shuffle : nat -> list Exercise -> list Exercise.
Variable Gamification : bool.

Lemma map_resetDay_insert (ds : list PlanDay) (i : nat) (d d' : PlanDay) :
  ds !! i = Some d -> resetDay d' = resetDay d ->
  map resetDay (<[i := d']> ds) = map resetDay ds.
Proof.
  intros Hi Hd. rewrite list_fmap_insert, Hd. apply list_insert_id.
  by rewrite list_lookup_fmap, Hi.
Qed.

Lemma resetDay_exercise (day : PlanDay) (exs : list PlannedExercise) (j : nat)
      (ex : PlannedExercise) :
  exercises day = Some exs -> exs !! j = Some ex ->
  resetDay (set_day_exercises
              (Some (<[j := set_exercise_completed true ex]> exs)) day)
  = resetDay day.
Proof.
  intros Hexs Hj. unfold resetDay. simpl. rewrite Hexs. simpl.
  rewrite list_fmap_insert.
  change (set_exercise_completed false (set_exercise_completed true ex))
    with (set_exercise_completed false ex).
  rewrite list_insert_id; [reflexivity|]. by rewrite list_lookup_fmap, Hj.
Qed.

(** No day and no exercise of [p] is marked completed. *)
Definition nothing_completed (p : Plan) : Prop :=
  Forall (fun d => completed d = false /\
                   forall exs, exercises d = Some exs ->
                               Forall (fun e => pe_completed e = false) exs)
         (days p).

(** X22. [nextWeek] forgets every completion mark: the plan it stores
    after a [completeDay] or a [completeExercise] that returned is the plan
    it would have stored without them, and in the plan it stores no day
    and no exercise is marked completed. *)
Theorem nextWeek_forgets_completion (w : World) (i j : nat) :
  let next (w : World) := stored_plan (snd (nextWeek w)) in
  next (snd (completeDay Gamification i w)) = next w /\
  (forall r w1, completeExercise i j w = (Returns r, w1) -> next w1 = next w) /\
  (forall p, next w = Some p -> nothing_completed p).
Proof.
  intros next. subst next. cbv beta. split; [|split].
  - unfold completeDay, nextWeek, bind, loadPlan. simpl.
    destruct (stored_plan w) as [p|] eqn:Hp; simpl; [|by rewrite Hp].
    destruct (days p !! i) as [day|] eqn:Hday; simpl; [|by rewrite Hp].
    destruct Gamification; simpl; f_equal; f_equal;
      by apply (map_resetDay_insert _ _ day).
  - intros r w1. unfold completeExercise, bind, loadPlan, ret. simpl.
    destruct (stored_plan w) as [p|] eqn:Hp; simpl; [|by intros [= _ <-]].
    destruct (days p !! i) as [day|] eqn:Hday; simpl; [|by intros [= _ <-]].
    destruct (exercises day) as [exs|] eqn:Hexs; simpl; [|by intros [= _ <-]].
    destruct (exs !! j) as [ex|] eqn:Hj; simpl; [|intros H; discriminate H].
    intros [= _ <-]. unfold nextWeek, bind, loadPlan, ret. simpl. rewrite Hp. simpl.
    f_equal. f_equal.
    apply (map_resetDay_insert _ _ day); [done|]. by apply resetDay_exercise.
  - intros p. unfold nextWeek, bind, loadPlan, ret. simpl.
    destruct (stored_plan w) as [p0|] eqn:Hp0; simpl; [|intros H; congruence].
    intros [= <-]. unfold nothing_completed. simpl.
    apply Forall_forall. intros d Hd.
    apply list_elem_of_fmap in Hd as (d0 & -> & _). split; [reflexivity|].
    intros exs. unfold resetDay. simpl.
    destruct (exercises d0) as [exs0|]; simpl; [|intros H; discriminate H].
    intros [= <-]. apply Forall_forall. intros e He.
    by apply list_elem_of_fmap in He as (e0 & -> & _).
Qed.

(** X23. Once [getPlan] has returned a plan, that plan is the stored one,
    and every later [getPlan] without [regenerate] returns it unchanged,
    for any profile at all, without drawing a shuffle or saving; and a
    [getPlan] in which [generatePlan] throws leaves the stored entry as it
    was. *)
Theorem getPlan_returns_stored_plan (profile profile' : UserProfile)
    (regenerate : bool) (w : World) :
  let w1 := snd (getPlan shuffle profile regenerate w) in
  (forall plan, fst (getPlan shuffle profile regenerate w) = Returns plan ->
     stored_plan w1 = Some plan /\
     getPlan shuffle profile' false w1 = (Returns plan, w1)) /\
  (fst (getPlan shuffle profile regenerate w) = Throws ->
     stored_plan w1 = stored_plan w).
Proof.
  intros w1. subst w1.
  assert (Hgen : forall w0,
    let r := (r <- generate shuffle profile ;;
              match r with
              | Returns plan => savePlan plan ;; ret (Returns plan)
              | Throws => ret Throws
              end) w0 in
    (forall plan, fst r = Returns plan ->
       stored_plan (snd r) = Some plan /\
       getPlan shuffle profile' false (snd r) = (Returns plan, snd r)) /\
    (fst r = Throws -> stored_plan (snd r) = stored_plan w0)).
  { intros w0. unfold bind, generate. simpl.
    destruct (generatePlan shuffle profile (shuffles w0)) as [[plan|] n']; simpl.
    - split; [|intros H; discriminate H]. intros plan' [= <-]. split; reflexivity.
    - split; [intros plan' H; discriminate H|reflexivity]. }
  assert (Hload : forall reg, getPlan shuffle profile reg w
            = match stored_plan w, reg with
              | Some saved, false => (Returns saved, w)
              | _, _ => (r <- generate shuffle profile ;;
                         match r with
                         | Returns plan => savePlan plan ;; ret (Returns plan)
                         | Throws => ret Throws
                         end) w
              end).
  { intros reg. unfold getPlan at 1, bind at 1, loadPlan. simpl.
    by destruct (stored_plan w), reg. }
  rewrite Hload. pose proof (Hgen w) as Hw.
  destruct (stored_plan w) as [saved|] eqn:Hsaved; [destruct regenerate|];
    [exact Hw| |exact Hw].
  simpl. split; [|intros H; discriminate H]. intros plan [= <-]. split; [exact Hsaved|].
  unfold getPlan, bind, loadPlan. simpl. by rewrite Hsaved.
Qed.

End PlanStoreProofs.

(** * Further properties of the service worker *)

Section CacheMore.
Import ServiceWorker.

Variable origin : string.

Lemma cache_of_caches_open_any caches cacheName name :
  cache_of (caches_open caches cacheName) name = cache_of caches name.
Proof.
  induction caches as [|[n c] caches IH]; simpl.
  - by destruct (String.eqb cacheName name).
  - destruct (String.eqb n cacheName) eqn:Hn; simpl; [done|].
    destruct (String.eqb n name); [done|apply IH].
Qed.

Lemma cache_of_cache_store caches cacheName key r name :
  cache_of (cache_store caches cacheName key r) name
  = if String.eqb cacheName name then <[key := r]> (cache_of caches name)
    else cache_of caches name.
Proof.
  induction caches as [|[n c] caches IH]; simpl.
  - destruct (String.eqb cacheName name); [|done].
    by rewrite insert_empty.
  - destruct (String.eqb_spec n cacheName) as [->|Hn]; simpl.
    + by destruct (String.eqb cacheName name).
    + destruct (String.eqb_spec n name) as [->|Hn'].
      * by destruct (String.eqb_spec cacheName name) as [->|_].
      * apply IH.
Qed.

Lemma cache_of_cache_put caches cacheName request r name :
  cache_of (cache_put caches cacheName request r) name
  = if cacheable request r && String.eqb cacheName name
    then <[href (url request) := r]> (cache_of caches name)
    else cache_of caches name.
Proof.
  unfold cache_put. destruct (cacheable request r); simpl.
  - apply cache_of_cache_store.
  - apply cache_of_caches_open_any.
Qed.

(** X24. Whatever the strategy, a response handler writes to the caches
    only when the network answered with an ok (2xx) response: every entry
    of every cache is afterwards as it was before, except the entry for
    the request, which may then hold that response.  A failed fetch or a
    non-ok response changes no entry. *)
Theorem only_ok_responses_are_cached (s : Strategy) (request : Request)
    (net : FetchOutcome) (caches : CacheStorage) (name key : string) :
  let caches' := snd (respondWith origin s request net caches) in
  cache_of caches' name !! key = cache_of caches name !! key \/
  (exists r, net = Fetched r /\ ok r = true /\ key = href (url request) /\
             cache_of caches' name !! key = Some r).
Proof.
  intros caches'. subst caches'.
  assert (Hput : forall cs cacheName r,
            (forall n, cache_of cs n = cache_of caches n) ->
            net = Fetched r -> ok r = true ->
            cache_of (cache_put cs cacheName request r) name !! key
              = cache_of caches name !! key \/
            (exists r', net = Fetched r' /\ ok r' = true /\ key = href (url request) /\
               cache_of (cache_put cs cacheName request r) name !! key
                 = Some r')).
  { intros cs cacheName r Hcs Hnet Hok. rewrite cache_of_cache_put, Hcs.
    destruct (cacheable request r && String.eqb cacheName name); [|by left].
    destruct (decide (href (url request) = key)) as [<-|Hne].
    - right. exists r. by rewrite lookup_insert_eq.
    - left. by rewrite lookup_insert_ne. }
  destruct s as [cacheName|cacheName| |cacheName]; simpl.
  - unfold networkFirstWithCache. destruct net as [|r] eqn:Hnet; simpl.
    + destruct (caches_match _ _); by left.
    + destruct (ok r) eqn:Hok; [by apply Hput|by left].
  - unfold cacheFirstWithNetwork. destruct (caches_match _ _); [by left|].
    destruct net as [|r] eqn:Hnet; simpl; [by left|].
    destruct (ok r) eqn:Hok; [by apply Hput|by left].
  - unfold navigationHandler. destruct net as [|r] eqn:Hnet; simpl.
    + destruct (caches_match _ _); by left.
    + destruct (ok r) eqn:Hok; [by apply Hput|by left].
  - unfold staleWhileRevalidate. simpl. destruct net as [|r] eqn:Hnet.
    + left. by rewrite cache_of_caches_open_any.
    + destruct (ok r) eqn:Hok.
      * apply Hput; [|done|done]. intros n. apply cache_of_caches_open_any.
      * left. by rewrite cache_of_caches_open_any.
Qed.

(** ** Replaying what was cached *)

Lemma caches_match_None caches key :
  caches_match caches key = None <->
  forall n c, (n, c) ∈ caches -> c !! key = None.
Proof.
  induction caches as [|[n c] caches IH]; simpl.
  - split; [|done]. intros _ n c Hin. by apply elem_of_nil in Hin.
  - destruct (c !! key) as [r|] eqn:Hc.
    + split; [done|]. intros H. specialize (H n c (list_elem_of_here _ _)). congruence.
    + rewrite IH. split.
      * intros H n' c' [[= -> ->]|Hin]%elem_of_cons; [done|by eapply H].
      * intros H n' c' Hin. eapply H. by right.
Qed.

(** No cache other than [cacheName] answers for [key]. *)
Definition unshadowed (caches : CacheStorage) (cacheName key : string) : Prop :=
  forall n c, (n, c) ∈ caches -> n <> cacheName -> c !! key = None.

Lemma caches_match_cache_store caches cacheName key r :
  unshadowed caches cacheName key ->
  caches_match (cache_store caches cacheName key r) key = Some r.
Proof.
  unfold unshadowed. induction caches as [|[n c] caches IH]; intros Hun; simpl.
  - by rewrite lookup_singleton_eq.
  - destruct (String.eqb_spec n cacheName) as [->|Hn]; simpl.
    + by rewrite lookup_insert_eq.
    + rewrite (Hun n c (list_elem_of_here _ _) Hn). apply IH.
      intros n' c' Hin. apply Hun. by right.
Qed.

Lemma caches_match_cache_put caches cacheName request r :
  cacheable request r = true ->
  unshadowed caches cacheName (href (url request)) ->
  caches_match (cache_put caches cacheName request r) (href (url request)) = Some r.
Proof.
  intros Hc Hun. unfold cache_put. rewrite Hc. by apply caches_match_cache_store.
Qed.

(** X25. Network-first handlers replay the last ok response that the
    cache accepted: after an ok response to a request was handled by
    [networkFirstWithCache] or by [navigationHandler], the same handler
    answers the request with that response when the network then fails,
    provided [cache.put] takes the pair (a GET request over http or https,
    a response that is not partial) and no other cache holds an entry for
    the request ([caches.match] asks every cache, oldest first). *)
Theorem network_first_replays_last_ok_response (s : Strategy) (cacheName : string)
    (request : Request) (r : Response) (caches : CacheStorage) :
  s = NetworkFirstWithCache cacheName \/
  (s = NavigationHandler /\ cacheName = DYNAMIC_CACHE) ->
  ok r = true ->
  cacheable request r = true ->
  unshadowed caches cacheName (href (url request)) ->
  let caches1 := snd (respondWith origin s request (Fetched r) caches) in
  fst (respondWith origin s request (Fetched r) caches) = Some r /\
  respondWith origin s request NetworkError caches1 = (Some r, caches1).
Proof.
  intros Hs Hok Hc Hun caches1. subst caches1.
  destruct Hs as [->|[-> ->]]; simpl;
    unfold networkFirstWithCache, navigationHandler; rewrite Hok; simpl;
    (split; [reflexivity|]); by rewrite caches_match_cache_put.
Qed.

(** X26. Cache-first never refreshes: when some cache answers for the
    request the handler returns that answer and leaves the caches alone,
    whatever the network would say; and once it has fetched an ok response
    that [cache.put] takes (a GET request over http or https, a response
    that is not partial), every later call returns that same response. *)
Theorem cache_first_never_refreshes (request : Request) (cacheName : string)
    (caches : CacheStorage) :
  (forall cached net,
     caches_match caches (href (url request)) = Some cached ->
     cacheFirstWithNetwork origin request cacheName net caches = (Some cached, caches)) /\
  (forall r net,
     caches_match caches (href (url request)) = None -> ok r = true ->
     cacheable request r = true ->
     let caches1 := snd (cacheFirstWithNetwork origin request cacheName (Fetched r) caches) in
     cacheFirstWithNetwork origin request cacheName net caches1 = (Some r, caches1)).
Proof.
  split.
  - intros cached net Hc. unfold cacheFirstWithNetwork. by rewrite Hc.
  - intros r net Hnone Hok Hput caches1. subst caches1.
    unfold cacheFirstWithNetwork. rewrite Hnone, Hok. simpl.
    rewrite caches_match_cache_put; [done|done|].
    intros n c Hin _. by eapply caches_match_None.
Qed.

(** A partial response is ok and is not stored: the next call asks the
    network again. *)
Lemma partial_response_not_cached (request : Request) (cacheName : string)
    (r : Response) :
  status r = 206 ->
  let caches1 := snd (cacheFirstWithNetwork origin request cacheName (Fetched r) []) in
  ok r = true /\ caches_match caches1 (href (url request)) = None.
Proof.
  intros H206. simpl. unfold ok, cache_put, cacheable. rewrite H206. simpl.
  by rewrite andb_false_r.
Qed.

End CacheMore.

(** * Queued actions and the tags that sync them *)

Section QueueProofs.
Import ServiceWorker PWAManager.

Lemma own_tag_not_processed (actionType : string) (item : QueuedAction) :
  action_type item = actionType ->
  ~ processed ("sync-" +:+ actionType) item.
Proof.
  intros Hty [[Htag Hitem]|[Htag Hitem]]; rewrite Hty in Hitem;
    rewrite Hitem in Htag; simpl in Htag; discriminate Htag.
Qed.

(** X27. An action queued by [queueForSync] is never sent by the sync
    event that [queueForSync] registers for it: the tag is [sync-] followed
    by the action type, and the worker's handler for a tag of that shape
    does not process items of that type.  The item stays in the store,
    unchanged, after any such event.  It is the two tags that
    [syncOfflineData] registers whose events send an item of type
    [challenge_complete] or [activity_data], and delete it when the POST is
    answered with an ok response. *)
Theorem queued_action_waits_for_syncOfflineData (env : QueueEnv) (now : Z)
    (actionType payload_ : string) (o : Offline) :
  opensDB env = true -> adds env = true ->
  let o' := queueForSync env now actionType payload_ o in
  let id := nextKey o in
  let item := {| action_type := actionType; payload := payload_;
                 queued_at := now; synced := false |} in
  store o' !! id = Some item /\
  (forall t, t ∈ tags o' -> t ∈ tags o \/ t = "sync-" +:+ actionType) /\
  (forall senv,
     fst (syncListener ("sync-" +:+ actionType) senv (store o')) !! id = Some item) /\
  (swRegistration env = true -> syncManager env = true ->
   (forall t, registers env t = true) ->
   tags (syncOfflineData env o')
   = tags o' ++ ["sync-challenge-completion"; "sync-activity-data"]) /\
  (forall senv t,
     t ∈ ["sync-challenge-completion"; "sync-activity-data"] ->
     processed t item -> store_works senv -> delivered senv id = true ->
     fst (syncListener t senv (store o')) !! id = None).
Proof.
  intros Hopen Hadd o' id item.
  assert (Hstore : store o' !! id = Some item).
  { subst o'. unfold queueForSync, register. rewrite Hopen, Hadd. simpl.
    destruct (swRegistration env && syncManager env); simpl;
      [destruct (registers env _); simpl|]; apply lookup_insert_eq. }
  split; [exact Hstore|]. split; [|split; [|split]].
  - intros t. subst o'. unfold queueForSync, register. rewrite Hopen, Hadd. simpl.
    destruct (swRegistration env && syncManager env); simpl;
      [destruct (registers env _); simpl|]; try by left.
    intros [Ht|Ht%list_elem_of_singleton]%elem_of_app; [by left|by right].
  - intros senv. apply sync_leaves_other_items; [exact Hstore|].
    by apply own_tag_not_processed.
  - intros Hreg Hsync Hregs. unfold syncOfflineData, register.
    rewrite Hreg, Hsync, !Hregs. simpl. by rewrite <- app_assoc.
  - intros senv t _ Hproc Hworks Hdel.
    by apply (syncListener_deletes t senv (store o') id item).
Qed.

End QueueProofs.

(** * Further properties of the authentication handlers *)

Section CookieStrings.
Import OAuthCallback.

Fixpoint all_chars (p : Ascii.ascii -> bool) (s : string) : bool :=
  match s with
  | EmptyString => true
  | String a s' => p a && all_chars p s'
  end.

Lemma all_chars_impl (p q : Ascii.ascii -> bool) (s : string) :
  (forall a, p a = true -> q a = true) ->
  all_chars p s = true -> all_chars q s = true.
Proof.
  intros Hpq. induction s as [|a s IH]; simpl; [done|].
  intros [Ha Hs]%andb_prop. by rewrite (Hpq a Ha), IH.
Qed.

Definition is_not (c : Ascii.ascii) (a : Ascii.ascii) : bool := negb (Ascii.eqb a c).

Lemma split_on_none c s : all_chars (is_not c) s = true -> split_on c s = [s].
Proof.
  induction s as [|a s IH]; simpl; [done|].
  intros [Ha Hs]%andb_prop. apply negb_true_iff in Ha. by rewrite Ha, IH.
Qed.

Lemma all_chars_app p s t :
  all_chars p (s +:+ t) = all_chars p s && all_chars p t.
Proof.
  induction s as [|a s IH]; [done|].
  rewrite append_cons. simpl. by rewrite IH, andb_assoc.
Qed.

Lemma split_on_until c s t :
  all_chars (is_not c) s = true ->
  split_on c (s +:+ String c t) = s :: split_on c t.
Proof.
  induction s as [|a s IH].
  - intros _. change ("" +:+ String c t) with (String c t). simpl.
    by rewrite Ascii.eqb_refl.
  - rewrite append_cons. simpl.
    intros [Ha Hs]%andb_prop. apply negb_true_iff in Ha. by rewrite Ha, IH.
Qed.

Lemma all_chars_rev_app p s1 s2 :
  all_chars p s1 = true -> all_chars p s2 = true ->
  all_chars p (String.rev_app s1 s2) = true.
Proof.
  revert s2. induction s1 as [|a s1 IH]; intros s2; simpl; [done|].
  intros [Ha Hs]%andb_prop H2. apply IH; [done|]. simpl. by rewrite Ha, H2.
Qed.

Definition not_space (a : Ascii.ascii) : bool := negb (is_space a).

Lemma trimStart_id s : all_chars not_space s = true -> trimStart s = s.
Proof.
  destruct s as [|a s]; simpl; [done|].
  intros [Ha _]%andb_prop. apply negb_true_iff in Ha. by rewrite Ha.
Qed.

Lemma trim_id s : all_chars not_space s = true -> trim s = s.
Proof.
  intros Hs. unfold trim. rewrite (trimStart_id s Hs).
  rewrite trimStart_id; [apply rev_involutive|].
  by apply all_chars_rev_app.
Qed.

End CookieStrings.

Section OAuthMore.
Import OAuthCallback.

Variable encodeURIComponent : string -> string.

(** ** When a session is granted *)

(** X28. The callback sets cookies only at the end of the one path on
    which every step succeeded: no provider error, a state equal to the
    [oauth_state] cookie, an ok token response with an access token, an ok
    userinfo response, and a signed token.  It then redirects to
    [/onboarding.html] with the session cookie first and the cookie that
    clears [oauth_state] second. *)
Theorem session_only_after_every_check (env : Env) (req : Req) :
  setCookie (handler encodeURIComponent env req) <> [] ->
  reaches_exchange req /\
  exists access_token user sessionToken,
    fetchToken env (tokenRequestBody env req) = TokenOk (Some access_token) /\
    fetchUserInfo env ("Bearer " +:+ access_token) = UserOk (Some user) /\
    signJWT env user = Some sessionToken /\
    handler encodeURIComponent env req
    = {| statusCode := 302;
         location := "/onboarding.html";
         setCookie :=
           [join_nonempty ["session=" +:+ sessionToken; "Path=/"; "HttpOnly";
                           "SameSite=Lax"; "Max-Age=604800";
                           if production env then "Secure" else ""];
            "oauth_state=; Path=/; HttpOnly; Max-Age=0"] |}.
Proof.
  unfold handler.
  destruct (truthy (query_error req)) eqn:He; [intros H; by destruct H|].
  destruct (decide (query_state req
                    = cookie (parseCookies (header_cookie req)) "oauth_state"))
    as [Hs|Hs].
  2: { rewrite bool_decide_eq_false_2 by done. intros H. by destruct H. }
  rewrite bool_decide_eq_true_2 by done. simpl. unfold tryBlock.
  destruct (fetchToken env (tokenRequestBody env req)) as [|[|]|[t|]] eqn:Ht;
    try (intros H; by destruct H).
  destruct (fetchUserInfo env ("Bearer " +:+ t)) as [| |[user|]] eqn:Hu;
    try (intros H; by destruct H).
  destruct (signJWT env user) as [tok|] eqn:Hsig; [|intros H; by destruct H].
  intros _. split; [by split|]. by exists t, user, tok.
Qed.

(** ** The state cookie, from the start handler to the callback *)

(** The characters of [crypto.randomUUID()]: hexadecimal digits and
    dashes. *)
Definition uuid_char (a : Ascii.ascii) : bool :=
  existsb (Ascii.eqb a) (String.list_ascii_of_string "0123456789abcdef-").

(** What a browser keeps of a [Set-Cookie] header and sends back in
    [Cookie]: the name and value, which precede the first semicolon. *)
Definition cookie_pair (setCookieHeader : string) : string :=
  hd "" (split_on ";"%char setCookieHeader).

Lemma uuid_char_plain (a : Ascii.ascii) :
  uuid_char a = true ->
  is_not ";"%char a = true /\ is_not "="%char a = true /\ not_space a = true.
Proof.
  destruct a as [[] [] [] [] [] [] [] []]; vm_compute; intros H;
    first [discriminate H|repeat split].
Qed.

Lemma parseCookies_state (state : string) :
  all_chars uuid_char state = true -> state <> "" ->
  parseCookies (Some ("oauth_state=" +:+ state)) = [("oauth_state", state)].
Proof.
  intros Hstate Hne.
  assert (Hsemi : all_chars (is_not ";"%char) state = true)
    by (eapply all_chars_impl; [|exact Hstate]; intros a Ha; by apply uuid_char_plain).
  assert (Heq : all_chars (is_not "="%char) state = true)
    by (eapply all_chars_impl; [|exact Hstate]; intros a Ha; by apply uuid_char_plain).
  assert (Hsp : all_chars not_space state = true)
    by (eapply all_chars_impl; [|exact Hstate]; intros a Ha; by apply uuid_char_plain).
  unfold parseCookies.
  change (String.eqb ("oauth_state=" +:+ state) "") with false. cbv iota.
  rewrite split_on_none by (rewrite all_chars_app, Hsemi; reflexivity). simpl foldl.
  rewrite trim_id by (rewrite all_chars_app, Hsp; reflexivity).
  change ("oauth_state=" +:+ state) with ("oauth_state" +:+ String "="%char state).
  rewrite split_on_until by reflexivity. rewrite split_on_none by exact Heq.
  simpl. destruct (String.eqb_spec state ""); [done|reflexivity].
Qed.

(** X29. The state check accepts exactly the state that the start
    handler issued: when the browser returns the [oauth_state] cookie that
    the start handler set for a UUID, a callback without provider error
    goes on to the token exchange if its [state] parameter is that UUID,
    and is redirected with [invalid_state] otherwise, a missing [state]
    included. *)
Theorem state_check_accepts_issued_state (clientId state : string)
    (toString : list (string * string) -> string) (req0 req : Req) (env : Env) :
  all_chars uuid_char state = true -> state <> "" ->
  header_cookie req
    = Some (cookie_pair (hd "" (setCookie (OAuthStart.handler clientId state toString req0)))) ->
  truthy (query_error req) = false ->
  (query_state req = Some state ->
   handler encodeURIComponent env req = tryBlock env req) /\
  (query_state req <> Some state ->
   handler encodeURIComponent env req = redirect "/auth.html?error=invalid_state").
Proof.
  intros Hstate Hne Hcookie Herr.
  assert (Hsemi : all_chars (is_not ";"%char) state = true)
    by (eapply all_chars_impl; [|exact Hstate]; intros a Ha; by apply uuid_char_plain).
  assert (Hpair : cookie_pair
            (hd "" (setCookie (OAuthStart.handler clientId state toString req0)))
            = "oauth_state=" +:+ state).
  { unfold cookie_pair, OAuthStart.handler. cbn [setCookie hd].
    change ("oauth_state=" +:+ state
            +:+ "; Path=/; HttpOnly; SameSite=Lax; Max-Age=600")
      with (("oauth_state=" +:+ state)
            +:+ String ";"%char " Path=/; HttpOnly; SameSite=Lax; Max-Age=600").
    rewrite split_on_until by (rewrite all_chars_app, Hsemi; reflexivity).
    reflexivity. }
  rewrite Hpair in Hcookie.
  unfold handler. rewrite Herr, Hcookie, (parseCookies_state state Hstate Hne).
  simpl. split.
  - intros ->. by rewrite bool_decide_eq_true_2.
  - intros Hq. by rewrite bool_decide_eq_false_2.
Qed.

(** ** The session check *)

(** X30. The session check always answers with status 200, and names a
    user only when the [Cookie] header holds a [session] cookie whose
    value [jwtVerify] accepts, with the claims of that token.  With the
    pair that the logout handler sets ([session=], an empty value) it
    answers [user: null], as it does without any cookie. *)
Theorem session_check_needs_verified_token
    (jwtVerify : string -> option SessionCheck.Payload)
    (cookieHeader accept : option string) :
  fst (SessionCheck.handler jwtVerify cookieHeader) = 200 /\
  (forall id email name picture,
     snd (SessionCheck.handler jwtVerify cookieHeader)
       = SessionCheck.UserOf id email name picture ->
     exists token payload,
       cookie (parseCookies cookieHeader) "session" = Some token /\
       jwtVerify token = Some payload /\
       id = SessionCheck.sub payload /\ email = SessionCheck.payload_email payload /\
       name = SessionCheck.payload_name payload /\
       picture = SessionCheck.payload_picture payload) /\
  SessionCheck.handler jwtVerify
    (Some (cookie_pair (Logout.setCookie (Logout.handler accept))))
    = (200, SessionCheck.UserNull) /\
  SessionCheck.handler jwtVerify None = (200, SessionCheck.UserNull).
Proof.
  split; [|split; [|split; reflexivity]].
  - unfold SessionCheck.handler.
    destruct (truthy _); simpl; [|reflexivity].
    by destruct (jwtVerify _).
  - intros id email name picture. unfold SessionCheck.handler.
    destruct (cookie (parseCookies cookieHeader) "session") as [token|] eqn:Hc;
      simpl; [|intros H; discriminate H].
    destruct (String.eqb token ""); simpl; [intros H; discriminate H|].
    destruct (jwtVerify token) as [payload|] eqn:Hv; simpl; [|intros H; discriminate H].
    intros [= <- <- <- <-]. by exists token, payload.
Qed.

End OAuthMore.

(** * Instances of the further properties *)

(** Last active the day before the next clock reading. *)
Definition yesterday : GamificationManager.State := active 1.

Section MoreWitnesses.
Import GData GamificationManager.

Lemma calculateLevel_highest_reached_witness :
  calculateLevel constructor 150 < 3 /\ 150 < 214.
Proof.
  assert (Hl : calculateLevel constructor 150 < 3) by (vm_compute; reflexivity).
  split; [exact Hl|].
  destruct (calculateLevel_highest_reached constructor 150) as (_ & Hhigh & _).
  apply (Hhigh 2%nat 214); [vm_compute; reflexivity|exact Hl].
Defined.

Lemma calculateLevel_monotone_witness :
  100 <= 250 /\ calculateLevel constructor 100 <= calculateLevel constructor 250.
Proof.
  split; [lia|]. apply (calculateLevel_monotone constructor 100 250). lia.
Defined.

Definition saved : State := snd (save constructor fresh).

Definition pushups_challenge : Challenge :=
  {| c_id := "pushups-30"; c_xp := 200; c_type := "strength" |}.

Lemma run_persists_witness :
  persisted constructor saved /\
  persisted constructor
    (run clock0 toDateString0 constructor (CallJoinChallenge pushups_challenge) saved).
Proof.
  assert (H : persisted constructor saved) by (vm_compute; reflexivity).
  split; [exact H|].
  apply (run_persists clock0 toDateString0 constructor
           (CallJoinChallenge pushups_challenge) saved).
  exact H.
Defined.

Lemma history_append_only_witness :
  CallLogSteps 250 <> CallReset /\
  history (data fresh)
    `prefix_of` history (data (run clock0 toDateString0 constructor (CallLogSteps 250) fresh)).
Proof.
  split; [discriminate|].
  apply (history_append_only clock0 toDateString0 constructor (CallLogSteps 250) fresh).
  discriminate.
Defined.

Lemma xp_never_lost_witness :
  Forall (fun e => 0 <= badge_xp (snd e)) (badgeDefs constructor) /\
  CallLogSteps 250 <> CallReset /\
  stays_safe clock0 toDateString0 constructor (CallLogSteps 250) fresh /\
  xp (data fresh) + 2
    <= xp (data (run clock0 toDateString0 constructor (CallLogSteps 250) fresh)).
Proof.
  assert (H : Forall (fun e => 0 <= badge_xp (snd e)) (badgeDefs constructor)).
  { apply (bool_decide_unpack
             (Forall (fun e => 0 <= badge_xp (snd e)) (badgeDefs constructor))).
    vm_compute. exact I. }
  assert (Hsafe : stays_safe clock0 toDateString0 constructor (CallLogSteps 250) fresh).
  { unfold stays_safe, isSafeInteger.
    repeat split; vm_compute; intros Hgt; discriminate Hgt. }
  split; [exact H|]. split; [discriminate|]. split; [exact Hsafe|].
  apply (xp_never_lost clock0 toDateString0 constructor H (CallLogSteps 250) fresh).
  - discriminate.
  - exact Hsafe.
Defined.

Lemma updateStreak_once_a_day_witness :
  let s1 := snd (updateStreak clock0 toDateString0 constructor yesterday) in
  toDateString0 (clock0 (ticks (browser s1)))
    = toDateString0 (clock0 (ticks (browser yesterday))) /\
  data (snd (updateStreak clock0 toDateString0 constructor s1)) = data s1 /\
  streakUpdated (fst (updateStreak clock0 toDateString0 constructor s1)) = false.
Proof.
  intros s1.
  assert (H : toDateString0 (clock0 (ticks (browser s1)))
              = toDateString0 (clock0 (ticks (browser yesterday))))
    by (vm_compute; reflexivity).
  split; [exact H|].
  apply (updateStreak_once_a_day clock0 toDateString0 constructor yesterday H).
Defined.

Lemma longest_streak_is_kept_witness :
  CallUpdateStreak <> CallReset /\
  current (streak (data yesterday)) <= longest (streak (data yesterday)) /\
  let s' := run clock0 toDateString0 constructor CallUpdateStreak yesterday in
  longest (streak (data yesterday)) <= longest (streak (data s')) /\
  current (streak (data s')) <= longest (streak (data s')).
Proof.
  split; [discriminate|].
  assert (H : current (streak (data yesterday)) <= longest (streak (data yesterday)))
    by (vm_compute; discriminate).
  split; [exact H|]. intros s'.
  destruct (longest_streak_is_kept clock0 toDateString0 constructor
              CallUpdateStreak yesterday) as [Hlong Hcur].
  split; [apply Hlong; discriminate|apply Hcur; exact H].
Defined.

Definition joined : State :=
  snd (joinChallenge clock0 constructor pushups_challenge fresh).

Lemma completeChallenge_removes_witness :
  {| id := "pushups-30"; joinedAt := clock0 0; progress := 0 |}
    ∈ active (challenges (data joined)) /\
  active (challenges (data (snd (completeChallenge clock0 constructor
                                   pushups_challenge joined)))) = [].
Proof.
  split; [vm_compute; apply list_elem_of_here|].
  destruct (completeChallenge_removes clock0 constructor pushups_challenge joined)
    as (_ & -> & _).
  vm_compute. reflexivity.
Defined.

Lemma joinChallenge_idempotent_witness :
(c_id pushups_challenge ∉ map id (active (challenges (data fresh)))) /\
  fst (joinChallenge clock0 constructor pushups_challenge fresh) = true /\
  snd (joinChallenge clock0 constructor pushups_challenge joined) = joined.
Proof.
  assert (H : c_id pushups_challenge ∉ map id (active (challenges (data fresh))))
    by (vm_compute; apply not_elem_of_nil).
  split; [exact H|].
  destruct (joinChallenge_idempotent clock0 constructor pushups_challenge fresh)
    as (Hr & _ & _ & Hs).
  split; [apply Hr; exact H|exact Hs].
Defined.

Lemma active_challenge_ids_unique_witness :
  ids_unique (data fresh) /\
  ids_unique (data (run clock0 toDateString0 constructor
                      (CallJoinChallenge pushups_challenge) fresh)).
Proof.
  destruct (active_challenge_ids_unique clock0 toDateString0 constructor
              (CallJoinChallenge pushups_challenge) fresh) as [H0 H].
  split; [exact H0|apply H; exact H0].
Defined.

Lemma logSteps_under_100_witness :
  99 < 100 /\
  fst (logSteps clock0 constructor 99 fresh) = None /\
  xp (data (snd (logSteps clock0 constructor 99 fresh))) = xp (data fresh).
Proof.
  split; [lia|].
  destruct (logSteps_under_100 clock0 constructor 99 fresh) as (Hr & Hd & _); [lia|].
  split; [exact Hr|]. rewrite Hd. reflexivity.
Defined.

End MoreWitnesses.

Section TrackerWitnesses.
Import AData ActivityTrackerManager.

Definition minusDays0 (t i : Z) : Z := t - i * 86400000.

(** [Math.random] replaced by a counter. *)
Definition Math_random0 (j : nat) (n : Z) : Z := Z.of_nat j mod n.

Definition realHooks : option (GamificationAPI GData.Data) :=
  Some (realGamification clock0 toDateString0).

(** The UTC calendar date of an instant, for the years 0 to 9999: the
    number of the day since 1970-01-01, turned into year, month and day of
    the Gregorian calendar. *)
Definition civil (z : Z) : Z * Z * Z :=
  let z := z + 719468 in
  let era := z / 146097 in
  let doe := z - era * 146097 in
  let yoe := (doe - doe / 1460 + doe / 36524 - doe / 146096) / 365 in
  let doy := doe - (365 * yoe + yoe / 4 - yoe / 100) in
  let mp := (5 * doy + 2) / 153 in
  let d := doy - (153 * mp + 2) / 5 + 1 in
  let m := if mp <? 10 then mp + 3 else mp - 9 in
  (yoe + era * 400 + (if m <=? 2 then 1 else 0), m, d).

Definition two_digits (n : Z) : string :=
  String (Ascii.ascii_of_nat (48 + Z.to_nat (n / 10)))
    (String (Ascii.ascii_of_nat (48 + Z.to_nat (n mod 10))) "").

Definition isoDateUTC (t : Z) : string :=
  let '(y, m, d) := civil (t / 86400000) in
  two_digits (y / 100) +:+ two_digits (y mod 100) +:+ "-" +:+ two_digits m
    +:+ "-" +:+ two_digits d.

(** The week's summary, asked for on 2023-11-14, leaves the entry of
    2023-11-07 alone. *)
Lemma calls_write_dated_entries_only_witness :
  hooks_keep_time GData.Data realHooks /\
  CallGetWeekSummary <> CallGetDay "2023-11-07" /\
  CallGetWeekSummary <> CallGetDaySummary "2023-11-07" /\
  (forall n,
     (ticks (browser world0)
      <= n < ticks (browser (run GData.Data realHooks clock0 isoDateUTC minusDays0
                               Math_random0 CallGetWeekSummary world0)))%nat ->
     ~ computed_from clock0 isoDateUTC minusDays0 n "2023-11-07") /\
  days (data (run GData.Data realHooks clock0 isoDateUTC minusDays0 Math_random0
                CallGetWeekSummary world0)) !! "2023-11-07"
  = days (data world0) !! "2023-11-07".
Proof.
  assert (H1 : hooks_keep_time GData.Data realHooks)
    by apply realGamification_keeps_time.
  assert (H2 : forall n,
     (ticks (browser world0)
      <= n < ticks (browser (run GData.Data realHooks clock0 isoDateUTC minusDays0
                               Math_random0 CallGetWeekSummary world0)))%nat ->
     ~ computed_from clock0 isoDateUTC minusDays0 n "2023-11-07").
  { assert (Ht : ticks (browser (run GData.Data realHooks clock0 isoDateUTC minusDays0
                                   Math_random0 CallGetWeekSummary world0)) = 7%nat)
      by (vm_compute; reflexivity).
    rewrite Ht. intros n Hn.
    assert (Hcases : (n = 0 \/ n = 1 \/ n = 2 \/ n = 3 \/ n = 4 \/ n = 5 \/ n = 6)%nat)
      by (simpl in Hn; lia).
    intros [Hc|(i & Hi & Hc)].
    - repeat (destruct Hcases as [->|Hcases]; [vm_compute in Hc; discriminate Hc|]).
      rewrite Hcases in Hc. vm_compute in Hc. discriminate Hc.
    - assert (Hi' : i = 0 \/ i = 1 \/ i = 2 \/ i = 3 \/ i = 4 \/ i = 5 \/ i = 6) by lia.
      clear Hi.
      repeat (destruct Hcases as [->|Hcases];
              [repeat (destruct Hi' as [->|Hi']; [vm_compute in Hc; discriminate Hc|]);
               rewrite Hi' in Hc; vm_compute in Hc; discriminate Hc|]).
      rewrite Hcases in Hc.
      repeat (destruct Hi' as [->|Hi']; [vm_compute in Hc; discriminate Hc|]).
      rewrite Hi' in Hc. vm_compute in Hc. discriminate Hc. }
  split; [exact H1|]. split; [discriminate|]. split; [discriminate|]. split; [exact H2|].
  apply (calls_write_dated_entries_only GData.Data realHooks clock0 isoDateUTC minusDays0
           Math_random0 "2023-11-07" CallGetWeekSummary world0 H1);
    [discriminate|discriminate|exact H2].
Defined.

Lemma reading_adds_only_empty_days_witness :
  reading CallGetWeekSummary = true /\
  keeps_entries (data world0)
    (data (run GData.Data realHooks clock0 isoDate0 minusDays0 Math_random0
             CallGetWeekSummary world0)).
Proof.
  split; [reflexivity|].
  apply (reading_adds_only_empty_days GData.Data realHooks clock0 isoDate0 minusDays0
           Math_random0 CallGetWeekSummary world0 eq_refl).
Defined.

Lemma stored_copy_lags_by_empty_days_witness :
  hooks_leave realHooks storageKey /\
  tracker_stored GData.Data
    (run GData.Data realHooks clock0 isoDate0 minusDays0 Math_random0
       (CallLogSteps 250) world0).
Proof.
  assert (H : hooks_leave realHooks storageKey)
    by (apply realGamification_leaves; discriminate).
  split; [exact H|].
  apply (stored_copy_lags_by_empty_days GData.Data realHooks clock0 isoDate0 minusDays0
           Math_random0 H (CallLogSteps 250) world0).
  reflexivity.
Defined.

Lemma resetToday_leaves_empty_entry_witness :
  isoDate0 (clock0 (S (ticks (browser world0)))) = today GData.Data clock0 isoDate0 world0 /\
  days (data (snd (resetToday GData.Data clock0 isoDate0 world0)))
    !! today GData.Data clock0 isoDate0 world0 = Some emptyDay.
Proof.
  assert (H : isoDate0 (clock0 (S (ticks (browser world0))))
              = today GData.Data clock0 isoDate0 world0) by reflexivity.
  split; [exact H|].
  apply (resetToday_leaves_empty_entry GData.Data clock0 isoDate0 world0). exact H.
Defined.

Lemma seedDemoData_ranges_witness :
  (forall j n, 0 < n -> 0 <= Math_random0 j n <= n) /\
  seeded GData.Data (isoDate0 (minusDays0 (clock0 (ticks (browser world0))) 3))
    (snd (seedDemoData GData.Data clock0 isoDate0 minusDays0 Math_random0 world0)).
Proof.
  assert (H : forall j n, 0 < n -> 0 <= Math_random0 j n <= n).
  { intros j n Hn. pose proof (Z.mod_pos_bound (Z.of_nat j) n Hn) as Hb.
    unfold Math_random0. lia. }
  split; [exact H|].
  apply (seedDemoData_ranges GData.Data clock0 isoDate0 minusDays0 Math_random0 H world0).
  lia.
Defined.

End TrackerWitnesses.

Section PlanWitnesses.
Import PlanGenerator.

Definition dumbbell_profile : UserProfile :=
  {| fitnessLevel := Some "intermediate"; goal := Some "maintain";
     daysPerWeek := Some 5; profile_equipment := Some ["dumbbells"];
     profile_duration := Some 60 |}.

Lemma selectExercises_respects_equipment_witness :
  (forall n l, no_shuffle n l ≡ₚ l) /\
  JS.includes ["dumbbells"] "none" = false /\
  Forall (fun e => Forall (fun s => unit s = "kg") (pe_sets e))
    (fst (selectExercises no_shuffle upper "intermediate" ["dumbbells"] 60 0%nat)).
Proof.
  assert (H : forall n l, no_shuffle n l ≡ₚ l) by (intros n l; reflexivity).
  split; [exact H|]. split; [reflexivity|].
  apply (selectExercises_respects_equipment no_shuffle H upper "intermediate"
           ["dumbbells"] 60 0%nat).
  reflexivity.
Defined.

Lemma generatePlan_workout_days_witness :
  exists plan,
    fst (generatePlan no_shuffle dumbbell_profile 0%nat) = Returns plan /\
    Z.of_nat (length (List.filter (fun d => negb (isRest d)) (days plan))) = 4.
Proof.
  destruct (fst (generatePlan no_shuffle dumbbell_profile 0%nat)) as [plan|] eqn:H;
    [|vm_compute in H; discriminate H].
  exists plan. split; [reflexivity|].
  exact (generatePlan_workout_days no_shuffle dumbbell_profile 0%nat plan H).
Defined.

End PlanWitnesses.

Section WorkerWitnesses.
Import ServiceWorker PWAManager.

Definition leaderboard : Response :=
  {| status := 200; contentType := "application/json"; body := Json [("rank", "3")] |}.

Lemma network_first_replays_last_ok_response_witness :
  ok leaderboard = true /\
  cacheable api_request leaderboard = true /\
  unshadowed precached API_CACHE (href (url api_request)) /\
  respondWith example_origin (NetworkFirstWithCache API_CACHE) api_request NetworkError
    (snd (respondWith example_origin (NetworkFirstWithCache API_CACHE) api_request
            (Fetched leaderboard) precached))
  = (Some leaderboard,
     snd (respondWith example_origin (NetworkFirstWithCache API_CACHE) api_request
            (Fetched leaderboard) precached)).
Proof.
  assert (H1 : ok leaderboard = true) by reflexivity.
  assert (H2 : unshadowed precached API_CACHE (href (url api_request))).
  { intros n c Hin _. apply list_elem_of_singleton in Hin. injection Hin as -> ->.
    apply lookup_singleton_ne. discriminate. }
  split; [exact H1|]. split; [reflexivity|]. split; [exact H2|].
  apply (network_first_replays_last_ok_response example_origin
           (NetworkFirstWithCache API_CACHE) API_CACHE api_request leaderboard precached
           (or_introl eq_refl) H1 eq_refl H2).
Defined.

Definition stylesheet : Response :=
  {| status := 200; contentType := "text/css"; body := Text "body { margin: 0 }" |}.

Lemma cache_first_never_refreshes_witness :
  caches_match precached (href (url stylesheet_request)) = None /\
  ok stylesheet = true /\
  cacheable stylesheet_request stylesheet = true /\
  fst (cacheFirstWithNetwork example_origin stylesheet_request CACHE_NAME
         (Fetched leaderboard)
         (snd (cacheFirstWithNetwork example_origin stylesheet_request CACHE_NAME
                 (Fetched stylesheet) precached)))
  = Some stylesheet.
Proof.
  assert (H1 : caches_match precached (href (url stylesheet_request)) = None)
    by (vm_compute; reflexivity).
  split; [exact H1|]. split; [reflexivity|]. split; [reflexivity|].
  destruct (cache_first_never_refreshes example_origin stylesheet_request CACHE_NAME
              precached) as [_ H].
  rewrite (H stylesheet (Fetched leaderboard) H1 eq_refl eq_refl). reflexivity.
Defined.

Definition online : QueueEnv :=
  {| opensDB := true; adds := true; swRegistration := true; syncManager := true;
     registers := fun _ => true |}.

Definition empty_queue : Offline := {| store := ∅; nextKey := 1; tags := [] |}.

Lemma queued_action_waits_for_syncOfflineData_witness :
  opensDB online = true /\ adds online = true /\
  fst (syncListener "sync-challenge_complete" offline_env
         (store (queueForSync online 1700000000000 "challenge_complete" "challenge 7"
                   empty_queue))) !! 1
  = Some challenge_item.
Proof.
  split; [reflexivity|]. split; [reflexivity|].
  apply (queued_action_waits_for_syncOfflineData online 1700000000000
           "challenge_complete" "challenge 7" empty_queue eq_refl eq_refl).
Defined.

End WorkerWitnesses.

Section AuthWitnesses.
Import OAuthCallback.

Definition accepting : Env :=
  {| GOOGLE_CLIENT_ID := "client";
     GOOGLE_CLIENT_SECRET := "secret";
     production := true;
     fetchToken := fun _ => TokenOk (Some "ya29");
     fetchUserInfo := fun _ =>
       UserOk (Some {| user_id := "42"; email := "ada@example.org";
                       user_name := "Ada"; picture := "" |});
     signJWT := fun _ => Some "jwt" |}.

Lemma session_only_after_every_check_witness :
  setCookie (handler (fun s => s) accepting callback_request) <> [] /\
  reaches_exchange callback_request.
Proof.
  assert (H : setCookie (handler (fun s => s) accepting callback_request) <> [])
    by (vm_compute; discriminate).
  split; [exact H|].
  apply (session_only_after_every_check (fun s => s) accepting callback_request H).
Defined.

Definition issued_state : string := "6f1c2a9e-0b7d-4e55-9a3c-2d8f40b1c7aa".

Definition returning_request : Req :=
  {| query_code := Some "4/abc";
     query_state := Some issued_state;
     query_error := None;
     header_cookie := Some ("oauth_state=" +:+ issued_state);
     header_x_forwarded_proto := None;
     header_x_forwarded_host := None;
     header_host := Some "gamifyfit.example" |}.

Lemma state_check_accepts_issued_state_witness :
  all_chars uuid_char issued_state = true /\
  issued_state <> "" /\
  header_cookie returning_request
    = Some (cookie_pair (hd "" (setCookie
              (OAuthStart.handler "client" issued_state (fun _ => "") callback_request)))) /\
  truthy (query_error returning_request) = false /\
  handler (fun s => s) accepting returning_request = tryBlock accepting returning_request.
Proof.
  assert (H1 : all_chars uuid_char issued_state = true) by (vm_compute; reflexivity).
  assert (H2 : issued_state <> "") by discriminate.
  assert (H3 : header_cookie returning_request
               = Some (cookie_pair (hd "" (setCookie
                   (OAuthStart.handler "client" issued_state (fun _ => "")
                      callback_request)))))
    by (vm_compute; reflexivity).
  assert (H4 : truthy (query_error returning_request) = false) by reflexivity.
  split; [exact H1|]. split; [exact H2|]. split; [exact H3|]. split; [exact H4|].
  apply (state_check_accepts_issued_state (fun s => s) "client" issued_state
           (fun _ => "") callback_request returning_request accepting H1 H2 H3 H4).
  reflexivity.
Defined.

End AuthWitnesses.
